(** * System monitoring tool (Assignment1.c): a shallow embedding

    The C program is translated function by function.  Conventions:

    - [int] is a 32-bit two's complement integer, kept as a [Z] and wrapped
      with [to_int] after an arithmetic operation; [unsigned long] is
      wrapped with [to_ulong], [unsigned int] with [to_uint].  C leaves a
      signed sum that is not representable undefined: in [draw_graph], where
      such a sum bounds a loop, every int addition is checked and the model
      stops with [Undefined] when it overflows.
    - [long double] and [double] values are exact rationals ([Q]): rounding
      is not modelled.  Sums and differences of whole numbers of magnitude
      up to 2^53 are exact in the program as well, and the statements that
      rest on that carry it as a hypothesis.  Where C has no finite value
      (division by zero) or no defined conversion (a cast to [int] out of
      range) the model stops with [Undefined].
    - A C string is the [string] of its bytes before the terminator.
    - Output is a trace of [event]s; [exit] ends a computation with
      [Exited].  Everything the program reads from the host is an explicit
      argument. *)

From Stdlib Require Import ZArith QArith Qround String Ascii List Bool Lia Lqa.
Import ListNotations.

Local Open Scope string_scope.
Local Open Scope Z_scope.

(** ** Machine integers *)

Module MachineInt.

Definition INT_MAX : Z := 2147483647.
Definition INT_MIN : Z := -2147483648.
Definition LONG_MAX : Z := 9223372036854775807.
Definition LONG_MIN : Z := -9223372036854775808.

Definition to_int (z : Z) : Z := (z + 2147483648) mod 4294967296 - 2147483648.
Definition to_uint (z : Z) : Z := z mod 4294967296.
Definition to_ulong (z : Z) : Z := z mod 18446744073709551616.

Definition in_int (z : Z) : bool := (INT_MIN <=? z) && (z <=? INT_MAX).

Definition int_add (a b : Z) : Z := to_int (a + b).
Definition int_sub (a b : Z) : Z := to_int (a - b).
Definition int_mul (a b : Z) : Z := to_int (a * b).
(* C division truncates toward zero. *)
Definition int_div (a b : Z) : Z := to_int (Z.quot a b).

(* a + b where C defines it: the sum of two ints that is an int. *)
Definition checked_add (a b : Z) : option Z :=
  if in_int (a + b) then Some (a + b) else None.

End MachineInt.
Import MachineInt.

(** ** The C library functions the program calls *)

Module CLib.

Definition char_code (c : ascii) : Z := Z.of_nat (nat_of_ascii c).

Definition isdigit (c : ascii) : bool :=
  (48 <=? char_code c) && (char_code c <=? 57).

(* The "C" locale: space, \t, \n, \v, \f, \r. *)
Definition isspace (c : ascii) : bool :=
  (char_code c =? 32) || ((9 <=? char_code c) && (char_code c <=? 13)).

Definition strlen (s : string) : Z := Z.of_nat (String.length s).

(* strcmp(a, b) == 0 *)
Definition strcmp_eq (a b : string) : bool := String.eqb a b.

(* strncmp(a, b, n) == 0 *)
Fixpoint strncmp_eq (a b : string) (n : nat) {struct n} : bool :=
  match n with
  | O => true
  | S k =>
      match a, b with
      | EmptyString, EmptyString => true
      | String x a', String y b' => Ascii.eqb x y && strncmp_eq a' b' k
      | _, _ => false
      end
  end.

(* The pointer [s + n]. *)
Fixpoint advance (n : nat) (s : string) {struct n} : string :=
  match n, s with
  | S k, String _ r => advance k r
  | _, _ => s
  end.

Fixpoint skip_spaces (s : string) : string :=
  match s with
  | String c r => if isspace c then skip_spaces r else s
  | EmptyString => s
  end.

(* The longest run of decimal digits at the head of [s], accumulated on
   [acc], and what follows it. *)
Fixpoint scan_digits (s : string) (acc : Z) (seen : bool) : Z * bool * string :=
  match s with
  | String c r =>
      if isdigit c then scan_digits r (acc * 10 + (char_code c - 48)) true
      else (acc, seen, s)
  | EmptyString => (acc, seen, s)
  end.

Definition clamp_long (z : Z) : Z :=
  if z <? LONG_MIN then LONG_MIN else if LONG_MAX <? z then LONG_MAX else z.

(* strtol(s, &endptr, 10): the value and the string at [endptr].  With no
   digits the value is 0 and [endptr] is [s] itself. *)
Definition strtol (s : string) : Z * string :=
  let s1 := skip_spaces s in
  let '(neg, s2) :=
    match s1 with
    | String "-"%char r => (true, r)
    | String "+"%char r => (false, r)
    | _ => (false, s1)
    end in
  let '(v, seen, rest) := scan_digits s2 0 false in
  if seen then (clamp_long (if neg then - v else v), rest) else (0, s).

(* *p != '\0' *)
Definition nonempty (s : string) : bool :=
  match s with EmptyString => false | String _ _ => true end.

End CLib.
Import CLib.

(** ** Output trace and the computation monad *)

Inductive piece : Type :=
| Text (s : string)                (* literal characters, or a %s argument *)
| CursorTo (row col : Z)           (* ESC [ row ; col H *)
| IntD (n : Z)                     (* %d *)
| ULongD (n : Z)                   (* %lu *)
| Fixed (prec : nat) (x : Q).      (* %.<prec>Lf, %f *)

Inductive event : Type :=
| Printf (ps : list piece)
| Eprintf (s : string)
| Fflush
| Usleep (us : Z).

Inductive outcome (A : Type) : Type :=
| Done (a : A)
| Exited (code : Z)
| Undefined.
Arguments Done {A} a.
Arguments Exited {A} code.
Arguments Undefined {A}.

Definition M (A : Type) : Type := (list event * outcome A)%type.

Definition ret {A} (a : A) : M A := ([], Done a).

Definition trace {A} (m : M A) : list event := fst m.
Definition result {A} (m : M A) : outcome A := snd m.

Definition bind {A B} (m : M A) (f : A -> M B) : M B :=
  match m with
  | (out, Done a) => let r := f a in ((out ++ trace r)%list, result r)
  | (out, Exited c) => (out, Exited c)
  | (out, Undefined) => (out, Undefined)
  end.

Definition emit (e : event) : M unit := ([e], Done tt).
Definition exit {A} (code : Z) : M A := ([], Exited code).
Definition undefined {A} : M A := ([], Undefined).
Definition defined {A} (o : option A) : M A :=
  match o with Some a => ret a | None => undefined end.

Declare Scope monad_scope.
Delimit Scope monad_scope with monad.
Notation "x <- m ;; k" := (bind m (fun x => k))
  (at level 61, m at next level, right associativity) : monad_scope.
Notation "' p <- m ;; k" := (bind m (fun x => let p := x in k))
  (at level 61, p pattern, m at next level, right associativity) : monad_scope.
Notation "m ;;; k" := (bind m (fun _ => k))
  (at level 61, right associativity) : monad_scope.
Local Open Scope monad_scope.

Definition NL : string := String (ascii_of_nat 10) "".
Definition ESC : string := String (ascii_of_nat 27) "".

(** ** Command-line arguments *)

Record ArgsInfo : Type := {
  memory_flag : bool;
  cpu_flag : bool;
  cores_flag : bool;
  samples : Z;
  tdelay : Z;
  updated_sample : bool;
  updated_tdelay : bool;
  argc : Z;
  argv : list string
}.

Record CursorPosition : Type := { row : Z; col : Z }.

Definition initializeArgument (argc : Z) (argv : list string) : ArgsInfo :=
  {| memory_flag := false; cpu_flag := false; cores_flag := false;
     samples := 20; tdelay := 500000;
     updated_sample := false; updated_tdelay := false;
     argc := argc; argv := argv |}.

Definition removeWhiteSpace (str : string) : string := skip_spaces str.

Definition save_position (row col : Z) : CursorPosition :=
  {| row := row; col := col |}.

(* argv[i]; the entries past the end are never read by the parser. *)
Definition arg_at (a : ArgsInfo) (i : Z) : string :=
  nth (Z.to_nat i) (argv a) "".

Fixpoint all_digits (s : string) : bool :=
  match s with
  | EmptyString => true
  | String c r => if isdigit c then all_digits r else false
  end.

Definition isPositional (argsInfo : ArgsInfo) (current_index : Z) : bool :=
  all_digits (arg_at argsInfo current_index).

Definition set_memory_flag (a : ArgsInfo) (b : bool) : ArgsInfo :=
  {| memory_flag := b; cpu_flag := cpu_flag a; cores_flag := cores_flag a;
     samples := samples a; tdelay := tdelay a;
     updated_sample := updated_sample a; updated_tdelay := updated_tdelay a;
     argc := argc a; argv := argv a |}.
Definition set_cpu_flag (a : ArgsInfo) (b : bool) : ArgsInfo :=
  {| memory_flag := memory_flag a; cpu_flag := b; cores_flag := cores_flag a;
     samples := samples a; tdelay := tdelay a;
     updated_sample := updated_sample a; updated_tdelay := updated_tdelay a;
     argc := argc a; argv := argv a |}.
Definition set_cores_flag (a : ArgsInfo) (b : bool) : ArgsInfo :=
  {| memory_flag := memory_flag a; cpu_flag := cpu_flag a; cores_flag := b;
     samples := samples a; tdelay := tdelay a;
     updated_sample := updated_sample a; updated_tdelay := updated_tdelay a;
     argc := argc a; argv := argv a |}.
(* samples = v; updated_sample = true *)
Definition set_samples (a : ArgsInfo) (v : Z) : ArgsInfo :=
  {| memory_flag := memory_flag a; cpu_flag := cpu_flag a;
     cores_flag := cores_flag a;
     samples := v; tdelay := tdelay a;
     updated_sample := true; updated_tdelay := updated_tdelay a;
     argc := argc a; argv := argv a |}.
(* tdelay = v; updated_tdelay = true *)
Definition set_tdelay (a : ArgsInfo) (v : Z) : ArgsInfo :=
  {| memory_flag := memory_flag a; cpu_flag := cpu_flag a;
     cores_flag := cores_flag a;
     samples := samples a; tdelay := v;
     updated_sample := updated_sample a; updated_tdelay := true;
     argc := argc a; argv := argv a |}.

Definition isFlag (argsInfo : ArgsInfo) (current_index : Z)
  : M (bool * ArgsInfo) :=
  let arg := arg_at argsInfo current_index in
  if strlen arg =? 0 then ret (false, argsInfo)
  else if strcmp_eq arg "--memory" then ret (true, set_memory_flag argsInfo true)
  else if strcmp_eq arg "--cpu" then ret (true, set_cpu_flag argsInfo true)
  else if strcmp_eq arg "--cores" then ret (true, set_cores_flag argsInfo true)
  else if strncmp_eq arg "--samples=" 10 then
    let value_str := advance 10 arg in
    emit (Printf [Text "here"]) ;;;
    if negb (nonempty value_str) then
      emit (Eprintf ("Error: Missing value" ++ NL)) ;;; ret (false, argsInfo)
    else
      emit (Printf [Text "here2"]) ;;;
      if updated_sample argsInfo then
        emit (Eprintf ("Error: cannot have multiple sample values" ++ NL)) ;;;
        ret (false, argsInfo)
      else
        emit (Printf [Text "here3"]) ;;;
        let value_str := removeWhiteSpace value_str in
        let '(value, endptr) := strtol value_str in
        if nonempty endptr || (value <=? 0) then
          emit (Eprintf ("Error: Invalid value for --samples" ++ NL)) ;;;
          ret (false, argsInfo)
        else ret (true, set_samples argsInfo (to_int value))
  else if strncmp_eq arg "--tdelay=" 9 then
    let value_str := advance 9 arg in
    if negb (nonempty value_str) then
      emit (Eprintf ("Error: Missing value" ++ NL)) ;;; ret (false, argsInfo)
    else if updated_tdelay argsInfo then
      emit (Eprintf ("Error: cannot have multiple tdelay values" ++ NL)) ;;;
      ret (false, argsInfo)
    else
      let value_str := removeWhiteSpace value_str in
      let '(value, endptr) := strtol value_str in
      if nonempty endptr || (value <=? 0) then
        emit (Eprintf ("Error:Invalid value for tdelay" ++ NL)) ;;;
        ret (false, argsInfo)
      else ret (true, set_tdelay argsInfo (to_ulong value))
  else ret (false, argsInfo).

(* for (; current_index < argc; current_index++) with [n] iterations left *)
Fixpoint flag_loop (n : nat) (current_index : Z) (argsInfo : ArgsInfo)
  : M (Z * ArgsInfo) :=
  match n with
  | O => ret (0, argsInfo)
  | S k =>
      '(ok, argsInfo) <- isFlag argsInfo current_index ;;
      if ok then flag_loop k (current_index + 1) argsInfo
      else emit (Eprintf ("Error: Unknown argument" ++ NL)) ;;;
           ret (-1, argsInfo)
  end.

Definition enable_all (a : ArgsInfo) : ArgsInfo :=
  set_memory_flag (set_cpu_flag (set_cores_flag a true) true) true.

Definition default_panels (a : ArgsInfo) : ArgsInfo :=
  if negb (cores_flag a) && negb (cpu_flag a) && negb (memory_flag a)
  then set_memory_flag (set_cpu_flag (set_cores_flag a true) true) true
  else a.

Definition processCommandLineArguments (argc : Z) (argsInfo : ArgsInfo)
  : M (Z * ArgsInfo) :=
  if argc =? 1 then ret (0, default_panels (enable_all argsInfo))
  else
    '(rc, current_index, argsInfo) <-
      (if (2 <=? argc) && isPositional argsInfo 1 then
         let '(value, endptr) := strtol (arg_at argsInfo 1) in
         if nonempty endptr || (value <=? 0) then
           emit (Eprintf ("Error: invalid value for samples" ++ NL)) ;;;
           ret (-1, 1, argsInfo)
         else
           let argsInfo := set_samples argsInfo (to_int value) in
           if (3 <=? argc) && isPositional argsInfo 2 then
             let '(value, endptr) := strtol (arg_at argsInfo 2) in
             if nonempty endptr || (value <=? 0) then
               emit (Eprintf ("Error: invalid value for tdelay" ++ NL)) ;;;
               ret (-1, 2, argsInfo)
             else ret (0, 3, set_tdelay argsInfo (to_ulong value))
           else ret (0, 2, argsInfo)
       else ret (0, 1, argsInfo)) ;;
    if rc =? -1 then ret (-1, argsInfo)
    else
      '(rc, argsInfo) <- flag_loop (Z.to_nat (argc - current_index))
                                   current_index argsInfo ;;
      if rc =? -1 then ret (-1, argsInfo)
      else ret (0, default_panels argsInfo).

(** ** Host metrics *)

(* 1024.0 * 1024.0 * 1024.0 *)
Definition GiB : Q := 1073741824 # 1.

Definition Qlt_bool (x y : Q) : bool := negb (Qle_bool y x).

(* Truncation toward zero, the value of a cast to an integer type. *)
Definition Qtrunc (x : Q) : Z := Z.quot (Qnum x) (Zpos (Qden x)).

(* x / y where the quotient is a finite number. *)
Definition ld_div (x y : Q) : option Q :=
  if Qeq_bool y 0 then None else Some (x / y)%Q.

(* (int)x, defined when the truncated value is representable. *)
Definition int_of_ld (x : Q) : option Z :=
  if in_int (Qtrunc x) then Some (Qtrunc x) else None.

(* The fields of struct sysinfo the program reads; [None] is a call that
   returned -1. *)
Record sysinfo_t : Type := { totalram : Z; freeram : Z; mem_unit : Z }.

Definition get_total_memory (info : option sysinfo_t) : M Q :=
  match info with
  | None =>
      emit (Eprintf ("Error: Cannot read system memory information" ++ NL)) ;;;
      exit 1
  | Some info =>
      let total_memory :=
        (inject_Z (to_ulong (totalram info * mem_unit info)) / GiB)%Q in
      (if Qlt_bool total_memory 0
       then emit (Eprintf ("Error:Total memory cannot be negative" ++ NL))
       else ret tt) ;;;
      ret total_memory
  end.

Record CpuSnapshot : Type := {
  user : Q; nice : Q; system : Q; idle : Q;
  iowait : Q; irq : Q; softirq : Q; steal : Q
}.

(* What one call finds in /proc/stat: fopen fails, or the eight values are
   scanned and fclose succeeds ([closed = true]) or fails. *)
Inductive stat_read : Type :=
| StatOpenFail
| StatRead (s : CpuSnapshot) (closed : bool).

(* The four long double cells the caller passes by address. *)
Record CpuTracker : Type := {
  preTotalCPU : Q; preIdleCPU : Q; finalTotalCPU : Q; finalIdleCPU : Q
}.

(* The sums and differences are exact here.  The program's are exact as
   well while the counters are whole numbers that sum to at most 2^53; past
   the significand of long double it rounds them. *)
Definition calculate_cpu_utilization (t : CpuTracker) (r : stat_read)
  : M (Q * CpuTracker) :=
  match r with
  | StatOpenFail =>
      emit (Eprintf ("Error: Failed opening /proc/stat" ++ NL)) ;;;
      ret (0%Q, t)
  | StatRead s closed =>
      if negb closed then
        emit (Eprintf ("Error: Failed to close file" ++ NL)) ;;;
        ret ((-1)%Q, t)
      else
        let currentTotalCPU :=
          (user s + nice s + system s + idle s
           + iowait s + irq s + softirq s + steal s)%Q in
        let currentIdleCPU := (idle s + iowait s)%Q in
        if Qeq_bool (preTotalCPU t) 0 && Qeq_bool (preIdleCPU t) 0 then
          ret (0%Q, {| preTotalCPU := currentTotalCPU;
                       preIdleCPU := currentIdleCPU;
                       finalTotalCPU := finalTotalCPU t;
                       finalIdleCPU := finalIdleCPU t |})
        else
          let U_initial := (preTotalCPU t - preIdleCPU t)%Q in
          let U_final := (currentTotalCPU - currentIdleCPU)%Q in
          let delta_total := (U_final - U_initial)%Q in
          let delta_idle := (currentTotalCPU - preTotalCPU t)%Q in
          let t' := {| preTotalCPU := currentTotalCPU;
                       preIdleCPU := currentIdleCPU;
                       finalTotalCPU := currentTotalCPU;
                       finalIdleCPU := currentIdleCPU |} in
          if Qeq_bool delta_total 0 || Qeq_bool delta_idle 0 then ret (0%Q, t')
          else ret ((delta_total / delta_idle * 100)%Q, t')
  end.

(* [own] is the sysinfo call of this function, [nested] the one made by
   the get_total_memory() it calls. *)
Definition calculate_memory_used (own nested : option sysinfo_t) : M Q :=
  match own with
  | None =>
      emit (Eprintf ("Error: Cannot read memory used file" ++ NL)) ;;;
      ret 0%Q
  | Some info =>
      let freeMemory :=
        (inject_Z (to_ulong (freeram info * mem_unit info)) / GiB)%Q in
      total <- get_total_memory nested ;;
      ret (total - freeMemory)%Q
  end.

(* The cpuinfo_max_freq file: fopen fails, fscanf converts nothing, or it
   reads a number. *)
Inductive freq_read : Type :=
| FreqOpenFail
| FreqUnparsed
| FreqValue (max_freq : Q).

Definition calculate_max_frequency (r : freq_read) : M Q :=
  match r with
  | FreqOpenFail =>
      emit (Eprintf ("Error reading the file" ++ NL)) ;;; ret 0%Q
  | FreqValue max_freq => ret (max_freq / 1000000)%Q
  | FreqUnparsed =>
      emit (Eprintf ("Error: failed to calculate max frequency" ++ NL)) ;;;
      exit 1
  end.

(* /proc/cpuinfo as the successive buffers fgets fills. *)
Inductive cpuinfo_read : Type :=
| CpuinfoOpenFail
| CpuinfoRead (chunks : list string) (closed : bool).

Definition calculate_cores (r : cpuinfo_read) : M Z :=
  match r with
  | CpuinfoOpenFail =>
      emit (Eprintf ("Error reading the file" ++ NL)) ;;; ret (-1)
  | CpuinfoRead chunks closed =>
      let cores :=
        fold_left (fun cores input_string =>
                     if strncmp_eq "processor" input_string 9
                     then int_add cores 1 else cores) chunks 0 in
      if negb closed then
        emit (Eprintf ("Error: Failed to close file" ++ NL)) ;;; ret (-1)
      else ret cores
  end.

(** ** Drawing *)

(* for (int i = 0; i < bound; i++) body(i), [n] iterations left *)
Fixpoint for_upto (n : nat) (i : Z) (body : Z -> M unit) : M unit :=
  match n with
  | O => ret tt
  | S k => body i ;;; for_upto k (i + 1) body
  end.

Definition for_int (bound : Z) (body : Z -> M unit) : M unit :=
  for_upto (Z.to_nat bound) 0 body.

Definition change_line (num_lines : Z) : M unit :=
  for_int num_lines (fun _ => emit (Printf [Text NL])).

(* U+2500, the glyph of the horizontal axis *)
Definition HLINE : string := "─".

(* The result is the returned position with the new values of
   *current_row and *current_column. *)
Definition draw_graph (label : string) (unit : list piece) (height : Z)
    (baseline : string) (current_row current_column samples : Z)
  : M (CursorPosition * Z * Z) :=
  emit (Printf [CursorTo current_row current_column; Text label; Text NL]) ;;;
  let pos := save_position current_row
               (to_int (to_ulong (current_column + strlen label + 1))) in
  current_row <- defined (checked_add current_row 1) ;;
  emit (Printf ([CursorTo current_row current_column; Text " "] ++ unit)%list) ;;;
  current_column <- defined (checked_add current_column 8) ;;
  for_int height (fun i =>
    line <- defined (checked_add current_row i) ;;
    emit (Printf [CursorTo line current_column; Text "|"; Text NL])) ;;;
  current_row <- defined (checked_add current_row height) ;;
  emit (Printf [CursorTo current_row
                  (to_int (to_ulong (current_column - strlen baseline - 2)));
                Text " "; Text baseline]) ;;;
  let samples := if samples <? 20 then 20 else samples in
  bound <- defined (checked_add samples 1) ;;
  for_int bound (fun j =>
    column <- defined (checked_add current_column j) ;;
    emit (Printf [CursorTo current_row column; Text HLINE])) ;;;
  emit (Printf [Text NL]) ;;;
  current_row <- defined (checked_add current_row 1) ;;
  ret (pos, current_row, current_column).

(* Also returns the value stored in *scalefactor. *)
Definition draw_memory_graph (info : option sysinfo_t)
    (current_row current_column samples : Z)
  : M (CursorPosition * Z * Z * Q) :=
  max_memory <- get_total_memory info ;;
  let height := 10 in
  let scalefactor := (max_memory / inject_Z height)%Q in
  let unit := [Fixed 0 max_memory; Text " GB"] in
  '(pos, current_row, current_column) <-
    draw_graph "v Memory " unit height "0 GB"
               current_row current_column samples ;;
  ret (pos, current_row, current_column, scalefactor).

Definition draw_cpu_graph (start_row start_column samples : Z)
  : M (CursorPosition * Z * Z) :=
  let height := 11 in
  draw_graph "v CPU " [Text "100%"] height "0%" start_row start_column samples.

Definition BOX_TOP : string := "+───+".
Definition BOX_MIDDLE : string := "|   |".

(* for (int col = 0; col < cols; col++) if (row * cols + col < coresNumber)
     printf at (line, *currentcol + col * width) *)
Definition box_line (coresNumber cols width row line currentcol : Z)
    (text : string) : M unit :=
  for_int cols (fun col =>
    if int_add (int_mul row cols) col <? coresNumber
    then emit (Printf [CursorTo line (int_add currentcol (int_mul col width));
                       Text text])
    else ret tt).

(* The outer loop of coresGraph with [n] rows left; returns *currentrow. *)
Fixpoint cores_rows (n : nat) (row coresNumber cols width currentcol currentrow : Z)
  : M Z :=
  match n with
  | O => ret currentrow
  | S k =>
      box_line coresNumber cols width row
        (int_add currentrow (int_mul row 2)) currentcol BOX_TOP ;;;
      emit (Printf [Text NL]) ;;;
      box_line coresNumber cols width row
        (int_add (int_add currentrow (int_mul row 2)) 1) currentcol BOX_MIDDLE ;;;
      emit (Printf [Text NL]) ;;;
      box_line coresNumber cols width row
        (int_add (int_add currentrow (int_mul row 2)) 2) currentcol BOX_TOP ;;;
      let currentrow := int_add currentrow 1 in
      emit (Printf [Text NL]) ;;;
      cores_rows k (row + 1) coresNumber cols width currentcol currentrow
  end.

Definition coresGraph (coresNumber currentcol currentrow : Z) (frequency : Q)
  : M (CursorPosition * Z * Z) :=
  let currentrow := int_add currentrow 2 in
  emit (Printf [CursorTo currentrow currentcol; Text "v Number of Cores: ";
                IntD coresNumber; Text " @ "; Fixed 2 frequency;
                Text " GHz"; Text NL]) ;;;
  let currentrow := int_add currentrow 1 in
  let cols := 4 in
  let rows := int_div (int_sub (int_add coresNumber cols) 1) cols in
  let width := 6 in
  currentrow <- cores_rows (Z.to_nat rows) 0 coresNumber cols width
                           currentcol currentrow ;;
  let currentrow := int_add currentrow (int_add (int_mul rows 2) 2) in
  ret (save_position currentrow 1, currentcol, currentrow).

(** ** The sampling loop and [main] *)

(* What one iteration of the loop reads from the host. *)
Record tick_input : Type := {
  used_sysinfo : option sysinfo_t;    (* sysinfo in calculate_memory_used *)
  total_sysinfo : option sysinfo_t;   (* sysinfo in its get_total_memory *)
  proc_stat : stat_read
}.

(* The locals of [main] that the loop reads but never writes. *)
Record Layout : Type := {
  memory_heading : CursorPosition;
  cpu_heading : CursorPosition;
  scaling_factor : Q
}.

(* The locals of [main] that the loop updates. *)
Record LoopState : Type := {
  memory : CursorPosition;
  cpu : CursorPosition;
  tracker : CpuTracker
}.

Definition bump_col (p : CursorPosition) : CursorPosition :=
  {| row := row p; col := int_add (col p) 1 |}.

Definition memory_tick (lay : Layout) (st : LoopState) (inp : tick_input)
  : M LoopState :=
  memory_used <- calculate_memory_used (used_sysinfo inp) (total_sysinfo inp) ;;
  emit (Printf [CursorTo (row (memory_heading lay)) (col (memory_heading lay));
                Text "       "]) ;;;
  emit Fflush ;;;
  emit (Printf [CursorTo (row (memory_heading lay)) (col (memory_heading lay));
                Text " "; Fixed 2 memory_used; Text " "; Text "GB"]) ;;;
  emit Fflush ;;;
  quotient <- defined (ld_div memory_used (scaling_factor lay)) ;;
  offset <- defined (int_of_ld quotient) ;;
  emit (Printf [CursorTo (int_sub (int_sub (row (memory st)) offset) 1)
                         (col (memory st));
                Text "#"]) ;;;
  emit Fflush ;;;
  ret {| memory := bump_col (memory st); cpu := cpu st;
         tracker := tracker st |}.

Definition cpu_tick (lay : Layout) (st : LoopState) (inp : tick_input)
  : M LoopState :=
  '(cpu_utilization, tr) <-
    calculate_cpu_utilization (tracker st) (proc_stat inp) ;;
  emit (Printf [CursorTo (row (cpu_heading lay)) (col (cpu_heading lay));
                Text " "; Fixed 2 cpu_utilization; Text " %          "]) ;;;
  emit Fflush ;;;
  offset <- defined (int_of_ld (cpu_utilization / 10)%Q) ;;
  emit (Printf [CursorTo (int_sub (int_sub (row (cpu st)) offset) 1)
                         (col (cpu st));
                Text ":"]) ;;;
  emit Fflush ;;;
  ret {| memory := memory st; cpu := bump_col (cpu st); tracker := tr |}.

(* The body of the for loop of [main]. *)
Definition sample_tick (argsInfo : ArgsInfo) (lay : Layout) (st : LoopState)
    (inp : tick_input) : M LoopState :=
  st <- (if memory_flag argsInfo then memory_tick lay st inp else ret st) ;;
  st <- (if cpu_flag argsInfo then cpu_tick lay st inp else ret st) ;;
  emit (Usleep (to_uint (tdelay argsInfo))) ;;;
  ret st.

(* for (int i = 0; i < samples; i++) with [n] iterations left *)
Fixpoint sampling_loop (n : nat) (i : nat) (argsInfo : ArgsInfo) (lay : Layout)
    (reads : nat -> tick_input) (st : LoopState) : M LoopState :=
  match n with
  | O => ret st
  | S k =>
      st <- sample_tick argsInfo lay st (reads i) ;;
      sampling_loop k (S i) argsInfo lay reads st
  end.

(* Everything [main] reads from the host, in the order it reads it. *)
Record Host : Type := {
  panel_sysinfo : option sysinfo_t;   (* get_total_memory in draw_memory_graph *)
  warmup_stat : stat_read;            (* the call before the loop *)
  tick_reads : nat -> tick_input;     (* iteration i of the loop *)
  max_freq_file : freq_read;
  cpuinfo_file : cpuinfo_read
}.

(* A CursorPosition local that was declared and not assigned; it is read
   only when the panel it belongs to is enabled, after being assigned. *)
Definition unset : CursorPosition := save_position 0 0.

(* The cores panel once the frequency is known; the value is the position
   coresGraph returns. *)
Definition cores_panel (max_frequency : Q) (current_row : Z)
    (cpuinfo : cpuinfo_read) : M CursorPosition :=
  let current_column := 1 in
  let current_row := int_add current_row 1 in
  coresNumber <- calculate_cores cpuinfo ;;
  '(pos, _, _) <- coresGraph coresNumber current_column current_row
                             max_frequency ;;
  ret pos.

(* After the loop: the cores panel, the final cursor move, return 0. *)
Definition finish (argsInfo : ArgsInfo) (current_row : Z) (host : Host) : M Z :=
  let ending_position := save_position current_row 1 in
  ending_position <-
    (if cores_flag argsInfo then
       max_frequency <- calculate_max_frequency (max_freq_file host) ;;
       cores_panel max_frequency current_row (cpuinfo_file host)
     else ret ending_position) ;;
  emit (Printf [CursorTo (row ending_position) (col ending_position)]) ;;;
  ret 0.

Definition fresh_tracker : CpuTracker :=
  {| preTotalCPU := 0; preIdleCPU := 0; finalTotalCPU := 0; finalIdleCPU := 0 |}.

(* [main] from the reset of the screen to the end of the loop; the value
   is current_row. *)
Definition sampling_phase (argsInfo : ArgsInfo) (panel : option sysinfo_t)
    (warmup : stat_read) (reads : nat -> tick_input) : M Z :=
  emit (Printf [Text (ESC ++ "c")]) ;;;
  emit (Printf [Text (ESC ++ "[H")]) ;;;
  emit Fflush ;;;
  let seconds := (inject_Z (tdelay argsInfo) / 1000000)%Q in
  emit (Printf [Text "Nbr of samples: "; IntD (samples argsInfo);
                Text " -- every "; ULongD (tdelay argsInfo);
                Text " microSecs ("; Fixed 6 seconds; Text " secs)"]) ;;;
  emit Fflush ;;;
  let current_column := 1 in
  let current_row := 1 in
  let scaling_factor := 0%Q in
  '(memory_heading, memory, current_row, current_column, scaling_factor) <-
    (if memory_flag argsInfo then
       let current_row := int_add current_row 1 in
       '(heading, current_row, current_column, scaling_factor) <-
         draw_memory_graph panel current_row current_column
                           (samples argsInfo) ;;
       ret (heading,
            save_position (int_sub current_row 1) (int_add current_column 1),
            current_row, current_column, scaling_factor)
     else ret (unset, unset, current_row, current_column, scaling_factor)) ;;
  '(cpu_heading, cpu, current_row, current_column) <-
    (if cpu_flag argsInfo then
       let NUM_NEW_LINES := 2 in
       change_line NUM_NEW_LINES ;;;
       let current_row := int_add current_row NUM_NEW_LINES in
       let current_column := 1 in
       '(heading, current_row, current_column) <-
         draw_cpu_graph current_row current_column (samples argsInfo) ;;
       ret (heading,
            save_position (int_sub current_row 1) (int_add current_column 1),
            current_row, current_column)
     else ret (unset, unset, current_row, current_column)) ;;
  '(_, tr) <- calculate_cpu_utilization fresh_tracker warmup ;;
  let lay := {| memory_heading := memory_heading; cpu_heading := cpu_heading;
                scaling_factor := scaling_factor |} in
  sampling_loop (Z.to_nat (samples argsInfo)) 0 argsInfo lay reads
    {| memory := memory; cpu := cpu; tracker := tr |} ;;;
  ret current_row.

(* [main] once the arguments were accepted. *)
Definition run (argsInfo : ArgsInfo) (host : Host) : M Z :=
  current_row <- sampling_phase argsInfo (panel_sysinfo host)
                   (warmup_stat host) (tick_reads host) ;;
  finish argsInfo current_row host.

(* The value is the exit status: [Done 0] is the return from main,
   [Exited 1] a call to exit(1). *)
Definition main (argv : list string) (host : Host) : M Z :=
  let argc := Z.of_nat (List.length argv) in
  let argsInfo := initializeArgument argc argv in
  '(rc, argsInfo) <- processCommandLineArguments argc argsInfo ;;
  if rc =? -1 then exit 1 else run argsInfo host.

(** ** Reading a trace *)

(* The cells where glyph [g] was written by a printf of the form
   "\033[%d;%dH<g>", in order. *)
Fixpoint glyph_writes (g : string) (t : list event) : list (Z * Z) :=
  match t with
  | [] => []
  | Printf [CursorTo r c; Text s] :: t' =>
      if String.eqb s g then (r, c) :: glyph_writes g t' else glyph_writes g t'
  | _ :: t' => glyph_writes g t'
  end.

Definition glyph_cols (g : string) (t : list event) : list Z :=
  map snd (glyph_writes g t).

(* Each element is its predecessor plus one. *)
Fixpoint steps_by_one (l : list Z) : Prop :=
  match l with
  | a :: (b :: _) as r => b = a + 1 /\ steps_by_one r
  | _ => True
  end.

(* k successive values of an int variable that starts at c and is
   incremented each time *)
Fixpoint int_cols (c : Z) (k : nat) : list Z :=
  match k with
  | O => []
  | S k' => c :: int_cols (int_add c 1) k'
  end.

(* k successive integers from c *)
Definition cols_from (c : Z) (k : nat) : list Z :=
  map (fun j => c + Z.of_nat j) (seq 0 k).

Definition sleeps (t : list event) : nat :=
  List.length (filter (fun e => match e with Usleep _ => true | _ => false end) t).

(** ** Derived quantities of a snapshot *)

Definition snapshot_total (s : CpuSnapshot) : Q :=
  (user s + nice s + system s + idle s
   + iowait s + irq s + softirq s + steal s)%Q.

Definition snapshot_idle (s : CpuSnapshot) : Q := (idle s + iowait s)%Q.

(* busyDelta and totalDelta of a call that finds [t] and reads [s]. *)
Definition busy_delta (t : CpuTracker) (s : CpuSnapshot) : Q :=
  ((snapshot_total s - snapshot_idle s) - (preTotalCPU t - preIdleCPU t))%Q.
Definition total_delta (t : CpuTracker) (s : CpuSnapshot) : Q :=
  (snapshot_total s - preTotalCPU t)%Q.

(* The tracker after a call that read [s] and got past the first-run test. *)
Definition slid (s : CpuSnapshot) : CpuTracker :=
  {| preTotalCPU := snapshot_total s; preIdleCPU := snapshot_idle s;
     finalTotalCPU := snapshot_total s; finalIdleCPU := snapshot_idle s |}.

(* The tracker after a first call that read [s]. *)
Definition warmed (t : CpuTracker) (s : CpuSnapshot) : CpuTracker :=
  {| preTotalCPU := snapshot_total s; preIdleCPU := snapshot_idle s;
     finalTotalCPU := finalTotalCPU t; finalIdleCPU := finalIdleCPU t |}.

(* The tracker holds a previous snapshot: it is not the (0, 0) pair that
   the function takes for "first run". *)
Definition holds_previous (t : CpuTracker) : Prop :=
  ~ (preTotalCPU t == 0 /\ preIdleCPU t == 0)%Q.

(* Every counter of [s] is at least the one of [p]. *)
Definition snapshot_le (p s : CpuSnapshot) : Prop :=
  (user p <= user s /\ nice p <= nice s /\ system p <= system s
   /\ idle p <= idle s /\ iowait p <= iowait s /\ irq p <= irq s
   /\ softirq p <= softirq s /\ steal p <= steal s)%Q.

Fixpoint nondecreasing (l : list CpuSnapshot) : Prop :=
  match l with
  | p :: (s :: _) as r => snapshot_le p s /\ nondecreasing r
  | _ => True
  end.

(* The values returned by successive calls that share one tracker. *)
Fixpoint utilizations (t : CpuTracker) (reads : list stat_read) : list Q :=
  match reads with
  | [] => []
  | r :: rs =>
      match result (calculate_cpu_utilization t r) with
      | Done (v, t') => v :: utilizations t' rs
      | _ => []
      end
  end.

Definition good_read (s : CpuSnapshot) : stat_read := StatRead s true.

(** ** The specification's rounding

    The specification computes the row offset with [round]; this is that
    function as C defines it (halfway cases away from zero), for comparison
    with the cast the program performs. *)

Definition spec_round (x : Q) : Z :=
  if Qle_bool 0 x then Qfloor (x + (1 # 2)) else Z.opp (Qfloor ((1 # 2) - x)).

Definition spec_glyph_row (axisBaseRow : Z) (value scaleFactor : Q) : Z :=
  axisBaseRow - spec_round (value / scaleFactor) - 1.

(** ** Sample inputs *)

Module Sample.

Definition counters (u n sy i w q sq st : Z) : CpuSnapshot :=
  {| user := inject_Z u; nice := inject_Z n; system := inject_Z sy;
     idle := inject_Z i; iowait := inject_Z w; irq := inject_Z q;
     softirq := inject_Z sq; steal := inject_Z st |}.

(* total 1000, idle + iowait 400 *)
Definition earlier : CpuSnapshot := counters 600 0 0 380 20 0 0 0.
(* total 1200, idle + iowait 450 *)
Definition later : CpuSnapshot := counters 750 0 0 400 50 0 0 0.
(* total 1100, idle + iowait 404: 96 busy out of 100 since [earlier] *)
Definition busy96 : CpuSnapshot := counters 696 0 0 380 24 0 0 0.
(* iowait falls from 50 to 10 between these two *)
Definition iowait_high : CpuSnapshot := counters 100 0 0 500 50 0 0 0.
Definition iowait_low : CpuSnapshot := counters 200 0 0 500 10 0 0 0.

(* 20 GiB of memory, 4.5 GiB of it free *)
Definition sysinfo_20g : sysinfo_t :=
  {| totalram := 21474836480; freeram := 4831838208; mem_unit := 1 |}.
Definition total_gb : Q := inject_Z 21474836480 / GiB.
Definition used_gb : Q := inject_Z 21474836480 / GiB - inject_Z 4831838208 / GiB.

(* The positions [main] computes when both graphs are shown. *)
Definition layout : Layout :=
  {| memory_heading := save_position 2 11; cpu_heading := save_position 16 8;
     scaling_factor := total_gb / inject_Z 10 |}.
Definition state : LoopState :=
  {| memory := save_position 13 10; cpu := save_position 28 10;
     tracker := slid earlier |}.

Definition reads_ok : tick_input :=
  {| used_sysinfo := Some sysinfo_20g; total_sysinfo := Some sysinfo_20g;
     proc_stat := good_read busy96 |}.
(* every read of the iteration fails where the function returns a value *)
Definition reads_failing : tick_input :=
  {| used_sysinfo := None; total_sysinfo := None; proc_stat := StatOpenFail |}.
(* sysinfo fails inside get_total_memory *)
Definition reads_total_failing : tick_input :=
  {| used_sysinfo := Some sysinfo_20g; total_sysinfo := None;
     proc_stat := good_read busy96 |}.

Definition cpuinfo : cpuinfo_read :=
  CpuinfoRead ["processor : 0"; "model name : cpu"; "processor : 1";
               "model name : cpu"] true.

Definition host_with (reads : nat -> tick_input) (freq : freq_read) : Host :=
  {| panel_sysinfo := Some sysinfo_20g; warmup_stat := good_read earlier;
     tick_reads := reads; max_freq_file := freq; cpuinfo_file := cpuinfo |}.

Definition host : Host := host_with (fun _ => reads_ok) (FreqValue (3400000 # 1)).

Definition both_graphs : ArgsInfo :=
  {| memory_flag := true; cpu_flag := true; cores_flag := true;
     samples := 3; tdelay := 100;
     updated_sample := true; updated_tdelay := true;
     argc := 3; argv := ["prog"; "3"; "100"] |}.

End Sample.

(** ** Vocabulary of the statements *)

Definition in_percent_range (v : Q) : Prop := (0 <= v /\ v <= 100)%Q.

(* Every whole number of magnitude up to 2^53 is a value of long double,
   whose significand has at least the 53 bits of a double: sums and
   differences within that range are computed without rounding. *)
Definition EXACT_MAX : Z := 9007199254740992.

(* A counter as /proc/stat holds it: a whole number, not negative. *)
Definition whole (x : Q) : Prop := exists n : Z, 0 <= n /\ x = inject_Z n.

(* A snapshot of whole counters whose sum is at most 2^53. *)
Definition exactly_summed (s : CpuSnapshot) : Prop :=
  whole (user s) /\ whole (nice s) /\ whole (system s) /\ whole (idle s)
  /\ whole (iowait s) /\ whole (irq s) /\ whole (softirq s)
  /\ whole (steal s)
  /\ (snapshot_total s <= inject_Z EXACT_MAX)%Q.

(* What the tracker holds before a call that reads [s]: the first-run
   pair, or the totals of an earlier snapshot none of whose counters
   exceeds the one of [s]. *)
Definition tracks (t : CpuTracker) (s : CpuSnapshot) : Prop :=
  (preTotalCPU t == 0 /\ preIdleCPU t == 0)%Q
  \/ exists p, exactly_summed p
               /\ preTotalCPU t = snapshot_total p
               /\ preIdleCPU t = snapshot_idle p
               /\ snapshot_le p s.

(* A value the function computes without rounding a sum or a difference:
   0, or busy / total * 100 for whole deltas 0 < busy <= total <= 2^53. *)
Definition percent_of_whole_deltas (v : Q) : Prop :=
  (v == 0)%Q
  \/ exists busy total : Z,
       0 < busy <= total /\ total <= EXACT_MAX
       /\ (v == inject_Z busy / inject_Z total * 100)%Q.

(* A rounding to a floating-point format: it never reverses the order of
   two numbers. *)
Definition monotone (rnd : Q -> Q) : Prop :=
  forall x y, (x <= y)%Q -> (rnd x <= rnd y)%Q.

(* processCommandLineArguments on the freshly initialised structure. *)
Definition parse (argv : list string) : M (Z * ArgsInfo) :=
  processCommandLineArguments (Z.of_nat (List.length argv))
    (initializeArgument (Z.of_nat (List.length argv)) argv).

(* The horizontal axis that draw_graph prints on row [r] from column [c]:
   [n] glyphs. *)
Definition rule (r c : Z) (n : nat) : list event :=
  map (fun k => Printf [CursorTo r (c + Z.of_nat k); Text HLINE]) (seq 0 n).

(* The vertical axis: [n] bars in column [c], from row [r] down. *)
Definition bars (r c : Z) (n : nat) : list event :=
  map (fun k => Printf [CursorTo (r + Z.of_nat k) c; Text "|"; Text NL])
      (seq 0 n).

(* Every int addition of draw_graph is representable, for a graph of
   [height] rows drawn from row [r], column [c] for [N] samples. *)
Definition axes_fit (height r c N : Z) : bool :=
  in_int (r + 1) && in_int (c + 8) && in_int (r + 1 + height)
  && in_int (Z.max N 20 + 1) && in_int (c + 8 + Z.max N 20)
  && in_int (r + 1 + height + 1).

(* What the memory panel prints for the value [v] when the glyph goes
   [offset] rows above the axis. *)
Definition memory_panel_output (lay : Layout) (st : LoopState) (v : Q)
    (offset : Z) : list event :=
  [Printf [CursorTo (row (memory_heading lay)) (col (memory_heading lay));
           Text "       "];
   Fflush;
   Printf [CursorTo (row (memory_heading lay)) (col (memory_heading lay));
           Text " "; Fixed 2 v; Text " "; Text "GB"];
   Fflush;
   Printf [CursorTo (int_sub (int_sub (row (memory st)) offset) 1)
                    (col (memory st)); Text "#"];
   Fflush].

Definition cpu_panel_output (lay : Layout) (st : LoopState) (v : Q)
    (offset : Z) : list event :=
  [Printf [CursorTo (row (cpu_heading lay)) (col (cpu_heading lay));
           Text " "; Fixed 2 v; Text " %          "];
   Fflush;
   Printf [CursorTo (int_sub (int_sub (row (cpu st)) offset) 1)
                    (col (cpu st)); Text ":"];
   Fflush].

Definition after_memory (st : LoopState) : LoopState :=
  {| memory := bump_col (memory st); cpu := cpu st; tracker := tracker st |}.

Definition after_cpu (st : LoopState) (tr : CpuTracker) : LoopState :=
  {| memory := memory st; cpu := bump_col (cpu st); tracker := tr |}.

(* The glyph columns a computation wrote, and whether it went on. *)
Definition wrote_one (g : string) (c : Z) {A} (m : M A) (a : A) : Prop :=
  glyph_cols g (trace m) = [c] /\ result m = Done a.
Definition stopped_silent (g : string) {A} (m : M A) : Prop :=
  glyph_cols g (trace m) = [] /\ forall a, result m <> Done a.

(* The part of an iteration that belongs to one panel. *)
Definition memory_part (argsInfo : ArgsInfo) (lay : Layout) (st : LoopState)
    (inp : tick_input) : M LoopState :=
  if memory_flag argsInfo then memory_tick lay st inp else ret st.
Definition cpu_part (argsInfo : ArgsInfo) (lay : Layout) (st : LoopState)
    (inp : tick_input) : M LoopState :=
  if cpu_flag argsInfo then cpu_tick lay st inp else ret st.

(* How many glyphs an iteration adds to a panel that is on or off. *)
Definition advance_col (on : bool) (c : Z) : Z := if on then int_add c 1 else c.
Definition own_cols (on : bool) (c : Z) : list Z := if on then [c] else [].

(* [m] writes no sample glyph: neither '#' nor ':'. *)
Definition glyph_free {A} (m : M A) : Prop :=
  glyph_writes "#" (trace m) = [] /\ glyph_writes ":" (trace m) = [].

(* [m] runs to its end: no exit, nothing undefined. *)
Definition returns {A} (m : M A) : Prop := exists a, result m = Done a.

(* What a panel that is [on] wrote during a loop of [n] iterations that
   began with the panel's write column at [c]: the first [k] values of that
   int column, one for each iteration it got through. *)
Definition written (on : bool) (c : Z) (n : nat) (completed : Prop)
    (cols : list Z) : Prop :=
  exists k, (k <= n)%nat
            /\ cols = int_cols c k
            /\ (on = false -> k = 0%nat)
            /\ (on = true -> completed -> k = n).

(* The columns in which a panel wrote its glyph: the [k] columns from 10
   on, one for each sample it plotted.  A panel that is off plots nothing;
   a panel that is on has plotted all the samples once the sampling is
   [completed]. *)
Definition panel_columns (on : bool) (samples : Z) (completed : Prop)
    (cols : list Z) : Prop :=
  exists k, cols = cols_from 10 k
            /\ (k <= Z.to_nat samples)%nat
            /\ (on = false -> k = 0%nat)
            /\ (on = true -> completed -> k = Z.to_nat samples).

(* The columns of both panels in the trace of [m]. *)
Definition sample_columns (argsInfo : ArgsInfo) {A} (m : M A) : Prop :=
  panel_columns (memory_flag argsInfo) (samples argsInfo) (returns m)
    (glyph_cols "#" (trace m))
  /\ panel_columns (cpu_flag argsInfo) (samples argsInfo) (returns m)
       (glyph_cols ":" (trace m)).

(** ** Vocabulary of the further properties *)

Fixpoint all_spaces (s : string) : bool :=
  match s with
  | EmptyString => true
  | String c r => isspace c && all_spaces r
  end.

(* The string does not begin with a white-space character. *)
Definition starts_solid (s : string) : Prop :=
  match s with
  | EmptyString => True
  | String c _ => isspace c = false
  end.

(* The number a string of decimal digits denotes, continuing from [acc]. *)
Fixpoint decimal (s : string) (acc : Z) : Z :=
  match s with
  | EmptyString => acc
  | String c r => decimal r (acc * 10 + (char_code c - 48))
  end.

(* The settings after `prog samples [tdelay]` was accepted. *)
Definition positional_settings (n d : Z) (have_d : bool) (argv : list string)
  : ArgsInfo :=
  {| memory_flag := true; cpu_flag := true; cores_flag := true;
     samples := n; tdelay := d;
     updated_sample := true; updated_tdelay := have_d;
     argc := Z.of_nat (List.length argv); argv := argv |}.

Definition is_samples_flag (x : string) : bool := strncmp_eq x "--samples=" 10.
Definition is_tdelay_flag (x : string) : bool := strncmp_eq x "--tdelay=" 9.

(* The five forms of argument that isFlag knows. *)
Definition flag_form (x : string) : bool :=
  String.eqb x "--memory" || String.eqb x "--cpu" || String.eqb x "--cores"
  || is_samples_flag x || is_tdelay_flag x.

(* The change isFlag makes for the argument [x] when it returns [ok]. *)
Definition flag_effect (x : string) (a : ArgsInfo) (ok : bool) (a' : ArgsInfo)
  : Prop :=
  argv a' = argv a
  /\ memory_flag a' = memory_flag a || String.eqb x "--memory"
  /\ cpu_flag a' = cpu_flag a || String.eqb x "--cpu"
  /\ cores_flag a' = cores_flag a || String.eqb x "--cores"
  /\ updated_sample a' = updated_sample a || (ok && is_samples_flag x)
  /\ updated_tdelay a' = updated_tdelay a || (ok && is_tdelay_flag x)
  /\ (is_samples_flag x = true -> updated_sample a = true -> ok = false)
  /\ (is_tdelay_flag x = true -> updated_tdelay a = true -> ok = false)
  /\ (ok = true -> flag_form x = true).

(* The change the loop makes when it accepts the arguments [rest]. *)
Definition loop_effect (rest : list string) (a a' : ArgsInfo) : Prop :=
  argv a' = argv a
  /\ memory_flag a'
     = memory_flag a || existsb (fun x => String.eqb x "--memory") rest
  /\ cpu_flag a' = cpu_flag a || existsb (fun x => String.eqb x "--cpu") rest
  /\ cores_flag a'
     = cores_flag a || existsb (fun x => String.eqb x "--cores") rest
  /\ updated_sample a' = updated_sample a || existsb is_samples_flag rest
  /\ updated_tdelay a' = updated_tdelay a || existsb is_tdelay_flag rest
  /\ (List.length (filter is_samples_flag rest)
      + Nat.b2n (updated_sample a) <= 1)%nat
  /\ (List.length (filter is_tdelay_flag rest)
      + Nat.b2n (updated_tdelay a) <= 1)%nat
  /\ forallb flag_form rest = true.

(* A trace that ends with a diagnostic on stderr. *)
Definition ends_with_diagnostic (out : list event) : Prop :=
  exists out' msg, out = (out' ++ [Eprintf msg])%list.

(* The first argument is taken as the sample count, the second as the
   delay, when they are made of digits. *)
Definition positional_samples (line : list string) : bool :=
  match line with
  | _ :: s :: _ => all_digits s
  | _ => false
  end.
Definition positional_tdelay (line : list string) : bool :=
  match line with
  | _ :: s :: d :: _ => all_digits s && all_digits d
  | _ => false
  end.

Definition named (flag : string) (line : list string) : bool :=
  existsb (fun x => String.eqb x flag) (tl line).

Definition no_panel_named (line : list string) : bool :=
  negb (named "--memory" line || named "--cpu" line || named "--cores" line).

(* What holds of the settings of an accepted command line. *)
Definition accepted (line : list string) (a : ArgsInfo) : Prop :=
  argv a = line
  /\ memory_flag a = named "--memory" line || no_panel_named line
  /\ cpu_flag a = named "--cpu" line || no_panel_named line
  /\ cores_flag a = named "--cores" line || no_panel_named line
  /\ updated_sample a
     = positional_samples line || existsb is_samples_flag (tl line)
  /\ updated_tdelay a
     = positional_tdelay line || existsb is_tdelay_flag (tl line)
  /\ (List.length (filter is_samples_flag (tl line))
      + Nat.b2n (positional_samples line) <= 1)%nat
  /\ (List.length (filter is_tdelay_flag (tl line))
      + Nat.b2n (positional_tdelay line) <= 1)%nat
  /\ forallb flag_form
       (skipn (Nat.b2n (positional_samples line)
               + Nat.b2n (positional_tdelay line)) (tl line)) = true.

(* A byte count of struct sysinfo, as the program converts it to GB. *)
Definition gigabytes (count unit : Z) : Q :=
  (inject_Z (to_ulong (count * unit)) / GiB)%Q.

Definition failed_read (r : stat_read) : bool :=
  match r with
  | StatOpenFail => true
  | StatRead _ closed => negb closed
  end.

(* What a failed call returns: 0 when fopen failed, -1 when fclose did. *)
Definition failure_value (r : stat_read) : Q :=
  match r with
  | StatOpenFail => 0
  | StatRead _ _ => -1
  end.

Definition names_processor (chunk : string) : bool :=
  strncmp_eq "processor" chunk 9.

(* The columns of grid row [r] that hold a core, out of the four. *)
Definition cores_in_row (r coresNumber : Z) : list Z :=
  filter (fun col => int_add (int_mul r 4) col <? coresNumber) [0; 1; 2; 3].

(* The number of boxes in [k] grid rows from row [r] on. *)
Fixpoint boxes_in_rows (k : nat) (r coresNumber : Z) : nat :=
  match k with
  | O => 0
  | S k' => (List.length (cores_in_row r coresNumber)
             + boxes_in_rows k' (r + 1) coresNumber)%nat
  end.

(* The boxes of grid row [k] when there are [n] cores, the boxes being
   numbered from 0: box 4k and up to three more, while they are below [n]. *)
Definition row_boxes (k : nat) (n : Z) : list nat :=
  seq (4 * k) (Z.to_nat (Z.min 4 (n - 4 * Z.of_nat k))).

(* Line [line] of box [i] (0 is the top, 1 the middle, 2 the bottom) in a
   grid whose first box begins at row [r], column [c]: four boxes to a grid
   row, grid rows three lines apart, boxes six columns apart. *)
Definition box_line_at (r c line : Z) (text : string) (i : nat) : event :=
  Printf [CursorTo (r + 3 * (Z.of_nat i / 4) + line)
                   (c + 6 * (Z.of_nat i mod 4));
          Text text].

(* What is printed for grid row [k]: the three lines of its boxes, each
   followed by a newline. *)
Definition grid_row (r c n : Z) (k : nat) : list event :=
  (map (box_line_at r c 0 BOX_TOP) (row_boxes k n)
   ++ Printf [Text NL]
   :: map (box_line_at r c 1 BOX_MIDDLE) (row_boxes k n)
   ++ Printf [Text NL]
   :: map (box_line_at r c 2 BOX_TOP) (row_boxes k n)
   ++ [Printf [Text NL]])%list.

(* The rows and columns of the panel for [n] cores are ints, when
   coresGraph is called with *currentrow = [r] and *currentcol = [c]. *)
Definition grid_fits (r c n : Z) : bool :=
  in_int r && in_int (r + 3 + 3 * Z.max 0 ((n + 3) / 4))
  && in_int c && in_int (c + 18).

(* The arguments of the usleep calls of a trace, in order. *)
Fixpoint naps (t : list event) : list Z :=
  match t with
  | [] => []
  | Usleep us :: t' => us :: naps t'
  | _ :: t' => naps t'
  end.

(* [m] exits with status 1 if it exits at all. *)
Definition exits_one {A} (m : M A) : Prop :=
  forall c, result m = Exited c -> c = 1.

(* [m] never sleeps, and exits with status 1 if it exits at all. *)
Definition calm {A} (m : M A) : Prop := naps (trace m) = [] /\ exits_one m.

(* [m] sleeps for [d] once per completed iteration of at most [n], and for
   all [n] of them when it runs to its end. *)
Definition sleeps_per_sample (d : Z) (n : nat) {A} (m : M A) : Prop :=
  exits_one m
  /\ exists k, naps (trace m) = repeat d k
               /\ (k <= n)%nat
               /\ (returns m -> k = n).

(** * Properties *)

(** ** The monad *)

Lemma trace_bind_done {A B} (m : M A) (f : A -> M B) out a :
  m = (out, Done a) ->
  bind m f = ((out ++ trace (f a))%list, result (f a)).
Proof.
  intros ->. reflexivity.
Qed.

Lemma surjective_M {A} (m : M A) : m = (trace m, result m).
Proof. destruct m; reflexivity. Qed.

Lemma bind_cases {A B} (m : M A) (f : A -> M B) :
  (exists a, result m = Done a
             /\ bind m f = ((trace m ++ trace (f a))%list, result (f a)))
  \/ ((forall a, result m <> Done a)
      /\ trace (bind m f) = trace m
      /\ forall b, result (bind m f) <> Done b).
Proof.
  destruct m as [out [a | c |]]; cbn.
  - left. exists a. split; reflexivity.
  - right. repeat split; discriminate.
  - right. repeat split; discriminate.
Qed.

(** ** Rational tests *)

Lemma Qeq_bool_false (x y : Q) : ~ (x == y)%Q -> Qeq_bool x y = false.
Proof.
  intros H. destruct (Qeq_bool x y) eqn:E; [|reflexivity].
  apply Qeq_bool_iff in E. contradiction.
Qed.

Lemma Qeq_bool_true (x y : Q) : (x == y)%Q -> Qeq_bool x y = true.
Proof. apply Qeq_bool_iff. Qed.

Lemma first_run_test (t : CpuTracker) :
  Qeq_bool (preTotalCPU t) 0 && Qeq_bool (preIdleCPU t) 0 = true
  <-> (preTotalCPU t == 0 /\ preIdleCPU t == 0)%Q.
Proof.
  rewrite andb_true_iff, !Qeq_bool_iff. tauto.
Qed.

Lemma holds_previous_test (t : CpuTracker) :
  holds_previous t ->
  Qeq_bool (preTotalCPU t) 0 && Qeq_bool (preIdleCPU t) 0 = false.
Proof.
  intros H. apply not_true_is_false. rewrite first_run_test. exact H.
Qed.

(** ** CPU utilization *)

(** C1. With a previous snapshot in the tracker and non-zero total and busy
    deltas, the call returns (busy delta / total delta) * 100, which is 75
    when the total delta is 200 and the idle delta 50. *)
Theorem utilization_is_delta_ratio (t : CpuTracker) (s : CpuSnapshot) :
  holds_previous t ->
  ~ (total_delta t s == 0)%Q ->
  ~ (busy_delta t s == 0)%Q ->
  calculate_cpu_utilization t (good_read s)
    = ([], Done ((busy_delta t s / total_delta t s * 100)%Q, slid s))
  /\ ((total_delta t s == 200)%Q ->
      (snapshot_idle s - preIdleCPU t == 50)%Q ->
      (busy_delta t s / total_delta t s * 100 == 75)%Q).
Proof.
  intros Hprev Htot Hbusy. split.
  - unfold calculate_cpu_utilization, good_read. cbn [negb].
    rewrite (holds_previous_test t Hprev).
    fold (snapshot_total s) (snapshot_idle s).
    fold (busy_delta t s) (total_delta t s).
    rewrite (Qeq_bool_false _ _ Hbusy), (Qeq_bool_false _ _ Htot).
    reflexivity.
  - intros H200 H50.
    assert (Hb : (busy_delta t s == 150)%Q).
    { unfold busy_delta, total_delta in *. lra. }
    rewrite Hb, H200. reflexivity.
Qed.

(** C3. A first call (tracker at its initial value) stores the snapshot and
    returns 0; a later call returns 0 as well when the total delta or the
    busy delta is zero. *)
Theorem warm_up_and_zero_delta_return_zero (t : CpuTracker) (s : CpuSnapshot) :
  ((preTotalCPU t == 0 /\ preIdleCPU t == 0) \/
   total_delta t s == 0 \/ busy_delta t s == 0)%Q ->
  (exists t', calculate_cpu_utilization t (good_read s) = ([], Done (0%Q, t'))
              /\ preTotalCPU t' = snapshot_total s
              /\ preIdleCPU t' = snapshot_idle s)
  /\ ((preTotalCPU t == 0 /\ preIdleCPU t == 0)%Q ->
      calculate_cpu_utilization t (good_read s) = ([], Done (0%Q, warmed t s))).
Proof.
  intros H. split.
  - unfold calculate_cpu_utilization, good_read. cbn [negb].
    fold (snapshot_total s) (snapshot_idle s).
    destruct (Qeq_bool (preTotalCPU t) 0 && Qeq_bool (preIdleCPU t) 0) eqn:E.
    + eexists. split; [reflexivity|]. split; reflexivity.
    + fold (busy_delta t s) (total_delta t s).
      assert (Hz : Qeq_bool (busy_delta t s) 0
                   || Qeq_bool (total_delta t s) 0 = true).
      { destruct H as [H | [H | H]].
        - apply first_run_test in H. congruence.
        - rewrite (Qeq_bool_true _ _ H). apply orb_true_r.
        - rewrite (Qeq_bool_true _ _ H). reflexivity. }
      rewrite Hz. exists (slid s). split; [reflexivity|]. split; reflexivity.
  - intros H0. apply first_run_test in H0.
    unfold calculate_cpu_utilization, good_read. cbn [negb].
    rewrite H0. reflexivity.
Qed.

Lemma utilization_is_delta_ratio_witness :
  holds_previous (slid Sample.earlier)
  /\ ~ (total_delta (slid Sample.earlier) Sample.later == 0)%Q
  /\ ~ (busy_delta (slid Sample.earlier) Sample.later == 0)%Q
  /\ calculate_cpu_utilization (slid Sample.earlier) (good_read Sample.later)
     = ([], Done ((busy_delta (slid Sample.earlier) Sample.later
                   / total_delta (slid Sample.earlier) Sample.later * 100)%Q,
                  slid Sample.later))
  /\ (busy_delta (slid Sample.earlier) Sample.later
      / total_delta (slid Sample.earlier) Sample.later * 100 == 75)%Q.
Proof.
  assert (H1 : holds_previous (slid Sample.earlier)).
  { intros [H _]. vm_compute in H. discriminate. }
  assert (H2 : ~ (total_delta (slid Sample.earlier) Sample.later == 0)%Q).
  { intros H. vm_compute in H. discriminate. }
  assert (H3 : ~ (busy_delta (slid Sample.earlier) Sample.later == 0)%Q).
  { intros H. vm_compute in H. discriminate. }
  destruct (utilization_is_delta_ratio (slid Sample.earlier) Sample.later
              H1 H2 H3) as [E H75].
  split; [exact H1|]. split; [exact H2|]. split; [exact H3|].
  split; [exact E|]. apply H75; reflexivity.
Defined.

Lemma warm_up_and_zero_delta_return_zero_witness :
  ((preTotalCPU fresh_tracker == 0 /\ preIdleCPU fresh_tracker == 0) \/
   total_delta fresh_tracker Sample.earlier == 0 \/
   busy_delta fresh_tracker Sample.earlier == 0)%Q
  /\ (exists t', calculate_cpu_utilization fresh_tracker
                   (good_read Sample.earlier) = ([], Done (0%Q, t'))
                 /\ preTotalCPU t' = snapshot_total Sample.earlier
                 /\ preIdleCPU t' = snapshot_idle Sample.earlier)
  /\ ((preTotalCPU fresh_tracker == 0 /\ preIdleCPU fresh_tracker == 0)%Q ->
      calculate_cpu_utilization fresh_tracker (good_read Sample.earlier)
      = ([], Done (0%Q, warmed fresh_tracker Sample.earlier))).
Proof.
  assert (H : ((preTotalCPU fresh_tracker == 0 /\ preIdleCPU fresh_tracker == 0) \/
               total_delta fresh_tracker Sample.earlier == 0 \/
               busy_delta fresh_tracker Sample.earlier == 0)%Q).
  { left. split; reflexivity. }
  split; [exact H|].
  exact (warm_up_and_zero_delta_return_zero fresh_tracker Sample.earlier H).
Defined.

(* A second call on the same counters: both deltas are zero. *)
Example same_counters_return_zero :
  utilizations fresh_tracker [good_read Sample.earlier; good_read Sample.earlier]
  = [0%Q; 0%Q].
Proof. reflexivity. Qed.

Example delta_200_idle_50 :
  exists v, utilizations fresh_tracker
              [good_read Sample.earlier; good_read Sample.later] = [0%Q; v]
            /\ (v == 75)%Q.
Proof. eexists. split; [vm_compute; reflexivity | reflexivity]. Qed.

(** ** Range of the returned value *)

Lemma ratio_in_percent_range (b d : Q) :
  (0 <= b)%Q -> (b <= d)%Q -> ~ (d == 0)%Q -> in_percent_range (b / d * 100).
Proof.
  intros Hb Hbd Hd.
  assert (Hpos : (0 < d)%Q).
  { destruct (Qlt_le_dec 0 d) as [H | H]; [exact H|].
    exfalso. apply Hd. lra. }
  assert (H0 : (0 <= b / d)%Q).
  { apply Qle_shift_div_l; [exact Hpos | lra]. }
  assert (H1 : (b / d <= 1)%Q).
  { apply Qle_shift_div_r; [exact Hpos | lra]. }
  unfold in_percent_range. split; lra.
Qed.

Lemma deltas_of_nondecreasing (p s : CpuSnapshot) :
  snapshot_le p s ->
  (0 <= busy_delta (slid p) s /\ busy_delta (slid p) s <= total_delta (slid p) s)%Q.
Proof.
  unfold snapshot_le, busy_delta, total_delta, slid, snapshot_total,
    snapshot_idle; cbn [preTotalCPU preIdleCPU].
  intros (Hu & Hn & Hs & Hi & Hw & Hq & Hsq & Hst). split; lra.
Qed.

(* The two sums of a snapshot of whole counters are whole numbers. *)
Lemma totals_are_whole (s : CpuSnapshot) :
  exactly_summed s ->
  exists T I : Z,
    0 <= I <= T /\ T <= EXACT_MAX
    /\ (snapshot_total s == inject_Z T)%Q
    /\ (snapshot_idle s == inject_Z I)%Q.
Proof.
  intros ((u & Hu & Eu) & (n & Hn & En) & (sy & Hsy & Esy) & (i & Hi & Ei)
          & (w & Hw & Ew) & (q & Hq & Eq) & (sq & Hsq & Esq)
          & (st & Hst & Est) & Hmax).
  assert (ET : (snapshot_total s
                == inject_Z (u + n + sy + i + w + q + sq + st))%Q).
  { unfold snapshot_total. rewrite Eu, En, Esy, Ei, Ew, Eq, Esq, Est.
    rewrite !inject_Z_plus. reflexivity. }
  assert (EI : (snapshot_idle s == inject_Z (i + w))%Q).
  { unfold snapshot_idle. rewrite Ei, Ew, inject_Z_plus. reflexivity. }
  exists (u + n + sy + i + w + q + sq + st), (i + w).
  split; [lia|]. split; [| split; assumption].
  rewrite ET in Hmax. rewrite Zle_Qle. exact Hmax.
Qed.

(* Between two snapshots of whole counters, none of which decreased, the
   deltas are whole numbers with 0 <= busy <= total <= 2^53. *)
Lemma deltas_are_whole (p s : CpuSnapshot) :
  exactly_summed p -> exactly_summed s -> snapshot_le p s ->
  exists busy total : Z,
    0 <= busy <= total /\ total <= EXACT_MAX
    /\ (busy_delta (slid p) s == inject_Z busy)%Q
    /\ (total_delta (slid p) s == inject_Z total)%Q.
Proof.
  intros Hp Hs Hle.
  destruct (totals_are_whole p Hp) as (Tp & Ip & HIp & _ & ETp & EIp).
  destruct (totals_are_whole s Hs) as (Ts & Is & HIs & HTs & ETs & EIs).
  destruct (deltas_of_nondecreasing p s Hle) as [H0 H1].
  assert (Eb : (busy_delta (slid p) s == inject_Z ((Ts - Is) - (Tp - Ip)))%Q).
  { unfold busy_delta, slid; cbn [preTotalCPU preIdleCPU].
    rewrite ETp, EIp, ETs, EIs. unfold Zminus.
    repeat rewrite ?inject_Z_plus, ?inject_Z_opp. lra. }
  assert (Et : (total_delta (slid p) s == inject_Z (Ts - Tp))%Q).
  { unfold total_delta, slid; cbn [preTotalCPU].
    rewrite ETp, ETs. unfold Zminus. rewrite inject_Z_plus, inject_Z_opp.
    lra. }
  exists ((Ts - Is) - (Tp - Ip)), (Ts - Tp).
  rewrite Eb, Et in H1. rewrite Eb in H0.
  change 0%Q with (inject_Z 0) in H0.
  rewrite <- Zle_Qle in H0, H1.
  split; [lia|]. split; [lia|]. split; assumption.
Qed.

(* One call on a tracker that holds what came before. *)
Lemma tracked_call (t : CpuTracker) (s : CpuSnapshot) :
  tracks t s -> exactly_summed s ->
  exists v t',
    calculate_cpu_utilization t (good_read s) = ([], Done (v, t'))
    /\ in_percent_range v
    /\ percent_of_whole_deltas v
    /\ preTotalCPU t' = snapshot_total s
    /\ preIdleCPU t' = snapshot_idle s.
Proof.
  intros Htr Hs.
  unfold calculate_cpu_utilization, good_read. cbn [negb].
  fold (snapshot_total s) (snapshot_idle s).
  assert (Hzero : in_percent_range 0 /\ percent_of_whole_deltas 0).
  { split; [split; lra | left; reflexivity]. }
  destruct (Qeq_bool (preTotalCPU t) 0 && Qeq_bool (preIdleCPU t) 0) eqn:E.
  - eexists _, _. split; [reflexivity|]. repeat split; apply Hzero.
  - fold (busy_delta t s) (total_delta t s).
    destruct (Qeq_bool (busy_delta t s) 0 || Qeq_bool (total_delta t s) 0)
      eqn:Ez.
    + eexists _, _. split; [reflexivity|]. repeat split; apply Hzero.
    + eexists _, _. split; [reflexivity|].
      split; [| split; [| split; reflexivity]].
      all: destruct Htr as [H0 | (p & Hp & HT & HI & Hle)];
        [apply first_run_test in H0; congruence|].
      all: assert (Eb : busy_delta t s = busy_delta (slid p) s)
        by (unfold busy_delta; rewrite HT, HI; reflexivity).
      all: assert (Et : total_delta t s = total_delta (slid p) s)
        by (unfold total_delta; rewrite HT; reflexivity).
      all: apply orb_false_iff in Ez; destruct Ez as [Ezb Ezt].
      all: rewrite Eb, Et in *.
      * destruct (deltas_of_nondecreasing p s Hle) as [Hd0 Hd1].
        apply ratio_in_percent_range; try assumption.
        intros H. apply Qeq_bool_true in H. congruence.
      * destruct (deltas_are_whole p s Hp Hs Hle)
          as (busy & total & Hbt & Hmax & Qb & Qt).
        right. exists busy, total.
        split; [| split; [exact Hmax | rewrite Qb, Qt; reflexivity]].
        assert (busy <> 0).
        { intros ->. change (inject_Z 0) with 0%Q in Qb.
          rewrite (Qeq_bool_true _ _ Qb) in Ezb. discriminate. }
        lia.
Qed.

Lemma utilizations_in_range (l : list CpuSnapshot) :
  forall t,
    nondecreasing l -> Forall exactly_summed l ->
    match l with s :: _ => tracks t s | [] => True end ->
    List.length (utilizations t (map good_read l)) = List.length l
    /\ Forall (fun v => in_percent_range v /\ percent_of_whole_deltas v)
              (utilizations t (map good_read l)).
Proof.
  induction l as [| s l IH]; intros t Hnd Hex Htr;
    [split; [reflexivity | constructor]|].
  inversion Hex as [| ? ? Hs Hl]; subst.
  destruct (tracked_call t s Htr Hs) as (v & t' & E & Hv & Hw & HT & HI).
  cbn [map utilizations]. rewrite E. cbn [result snd].
  destruct (IH t') as [IHlen IHall].
  - destruct l; [exact I | apply Hnd].
  - exact Hl.
  - destruct l as [| s' l]; [exact I|].
    right. exists s. split; [exact Hs|]. split; [exact HT|].
    split; [exact HI | apply Hnd].
  - split; [cbn [List.length]; rewrite IHlen; reflexivity|].
    constructor; [split; assumption | exact IHall].
Qed.

(* The range survives the rounding of the quotient and of the product: in
   the program's arithmetic the value is rnd (rnd (busy / total) * 100). *)
Lemma percent_range_survives_rounding (rnd : Q -> Q) (busy total : Z) :
  monotone rnd ->
  (rnd 0 == 0)%Q -> (rnd 1 == 1)%Q -> (rnd 100 == 100)%Q ->
  0 < busy <= total ->
  in_percent_range (rnd (rnd (inject_Z busy / inject_Z total) * 100)%Q).
Proof.
  intros Hm H0 H1 H100 Hbt.
  assert (Hpos : (0 < inject_Z total)%Q)
    by (change 0%Q with (inject_Z 0); rewrite <- Zlt_Qlt; lia).
  assert (Hb : (0 <= inject_Z busy)%Q)
    by (change 0%Q with (inject_Z 0); rewrite <- Zle_Qle; lia).
  assert (Hbt' : (inject_Z busy <= inject_Z total)%Q)
    by (rewrite <- Zle_Qle; lia).
  assert (Hq0 : (0 <= inject_Z busy / inject_Z total)%Q)
    by (apply Qle_shift_div_l; [exact Hpos | lra]).
  assert (Hq1 : (inject_Z busy / inject_Z total <= 1)%Q)
    by (apply Qle_shift_div_r; [exact Hpos | lra]).
  pose proof (Hm _ _ Hq0) as R0. pose proof (Hm _ _ Hq1) as R1.
  rewrite H0 in R0. rewrite H1 in R1.
  assert (P0 : (0 <= rnd (inject_Z busy / inject_Z total) * 100)%Q) by lra.
  assert (P1 : (rnd (inject_Z busy / inject_Z total) * 100 <= 100)%Q) by lra.
  pose proof (Hm _ _ P0) as S0. pose proof (Hm _ _ P1) as S1.
  rewrite H0 in S0. rewrite H100 in S1. split; assumption.
Qed.

(** C2, as the program has it.  The function applies no clamp.  Over reads
    that succeed on whole counters that never decrease and whose sum stays
    at or below 2^53, every call returns a value, starting from the fresh
    tracker, and every value returned is between 0 and 100: it is 0, or the
    ratio of two whole deltas 0 < busy <= total <= 2^53, which long double
    forms without rounding, times 100. *)
Theorem utilization_within_percent_range (l : list CpuSnapshot) :
  nondecreasing l ->
  Forall exactly_summed l ->
  List.length (utilizations fresh_tracker (map good_read l)) = List.length l
  /\ Forall (fun v => in_percent_range v /\ percent_of_whole_deltas v)
            (utilizations fresh_tracker (map good_read l)).
Proof.
  intros Hnd Hex. apply utilizations_in_range; [exact Hnd | exact Hex |].
  destruct l; [exact I|]. left. split; reflexivity.
Qed.

Lemma sample_counters_exact (u n sy i w q sq st : Z) :
  0 <= u -> 0 <= n -> 0 <= sy -> 0 <= i -> 0 <= w -> 0 <= q -> 0 <= sq ->
  0 <= st -> u + n + sy + i + w + q + sq + st <= EXACT_MAX ->
  exactly_summed (Sample.counters u n sy i w q sq st).
Proof.
  intros. unfold exactly_summed, Sample.counters, whole, snapshot_total.
  cbn [user nice system idle iowait irq softirq steal].
  repeat (split; [eexists; split; [| reflexivity]; assumption |]).
  rewrite <- !inject_Z_plus, <- Zle_Qle. assumption.
Qed.

Lemma utilization_within_percent_range_witness :
  nondecreasing [Sample.earlier; Sample.later]
  /\ Forall exactly_summed [Sample.earlier; Sample.later]
  /\ List.length (utilizations fresh_tracker
                    (map good_read [Sample.earlier; Sample.later])) = 2%nat
  /\ Forall (fun v => in_percent_range v /\ percent_of_whole_deltas v)
       (utilizations fresh_tracker
          (map good_read [Sample.earlier; Sample.later])).
Proof.
  assert (H : nondecreasing [Sample.earlier; Sample.later]).
  { split; [|exact I]. unfold snapshot_le. cbn.
    repeat split; unfold Qle; cbn; lia. }
  assert (Hex : Forall exactly_summed [Sample.earlier; Sample.later]).
  { repeat constructor; apply sample_counters_exact;
      unfold EXACT_MAX; lia. }
  split; [exact H|]. split; [exact Hex|].
  exact (utilization_within_percent_range [Sample.earlier; Sample.later]
           H Hex).
Defined.

(** C2, as stated, fails: when iowait falls between two reads (all other
    counters growing), the second call returns more than 100. *)
Lemma utilization_exceeds_100 :
  (100 < nth 1 (utilizations fresh_tracker
                  (map good_read [Sample.iowait_high; Sample.iowait_low])) 0)%Q.
Proof. vm_compute. reflexivity. Qed.

(* A failed fclose makes the function return -1. *)
Example close_failure_returns_minus_one (t : CpuTracker) (s : CpuSnapshot) :
  result (calculate_cpu_utilization t (StatRead s false)) = Done ((-1)%Q, t).
Proof. reflexivity. Qed.

(** ** The argument parser *)

Lemma main_rejects (argv : list string) (host : Host) out a :
  parse argv = (out, Done (-1, a)) -> main argv host = (out, Exited 1).
Proof.
  intros H. unfold main. fold (parse argv). rewrite H.
  cbn. rewrite app_nil_r. reflexivity.
Qed.

(** C7. The four command lines of the specification: two are accepted with
    the stated settings, two are rejected and make [main] exit with
    status 1, whatever the host. *)
Theorem parser_examples (host : Host) :
  parse ["prog"; "30"; "1000000"]
    = ([], Done (0, {| memory_flag := true; cpu_flag := true;
                       cores_flag := true;
                       samples := 30; tdelay := 1000000;
                       updated_sample := true; updated_tdelay := true;
                       argc := 3; argv := ["prog"; "30"; "1000000"] |}))
  /\ result (parse ["prog"; "--cpu"; "--samples=5"])
    = Done (0, {| memory_flag := false; cpu_flag := true;
                  cores_flag := false;
                  samples := 5; tdelay := 500000;
                  updated_sample := true; updated_tdelay := false;
                  argc := 3; argv := ["prog"; "--cpu"; "--samples=5"] |})
  /\ (filter (fun e => match e with Eprintf _ => true | _ => false end)
        (trace (parse ["prog"; "--samples=5"; "--samples=5"]))
      = [Eprintf ("Error: cannot have multiple sample values" ++ NL);
         Eprintf ("Error: Unknown argument" ++ NL)]
      /\ result (main ["prog"; "--samples=5"; "--samples=5"] host) = Exited 1)
  /\ (trace (parse ["prog"; "--"; "cpu"])
      = [Eprintf ("Error: Unknown argument" ++ NL)]
      /\ result (main ["prog"; "--"; "cpu"] host) = Exited 1).
Proof.
  split; [reflexivity|]. split; [reflexivity|].
  split; (split; [reflexivity|]).
  - erewrite main_rejects by reflexivity. reflexivity.
  - erewrite main_rejects by reflexivity. reflexivity.
Qed.

Lemma samples_flag_tests (v : string) :
  let arg := "--samples=" ++ v in
  (strlen arg =? 0) = false
  /\ strcmp_eq arg "--memory" = false
  /\ strcmp_eq arg "--cpu" = false
  /\ strcmp_eq arg "--cores" = false
  /\ strncmp_eq arg "--samples=" 10 = true
  /\ advance 10 arg = v.
Proof.
  cbn zeta. repeat split; try reflexivity.
Qed.

(** C10, as the program has it.  On an argument "--samples=" followed by a
    non-empty value, isFlag always prints "here" and then "here2"; it prints
    "here3" next exactly when no samples value was set before (whether or
    not the value is then accepted), and otherwise reports the duplicate and
    returns false. *)
Theorem samples_flag_debug_output (argsInfo : ArgsInfo) (i : Z) (v : string) :
  arg_at argsInfo i = "--samples=" ++ v ->
  nonempty v = true ->
  exists rest r,
    isFlag argsInfo i
    = (Printf [Text "here"] :: Printf [Text "here2"] :: rest, r)
    /\ (updated_sample argsInfo = false ->
        exists rest', rest = Printf [Text "here3"] :: rest')
    /\ (updated_sample argsInfo = true ->
        rest = [Eprintf ("Error: cannot have multiple sample values" ++ NL)]
        /\ r = Done (false, argsInfo)).
Proof.
  intros Harg Hv.
  destruct (samples_flag_tests v) as (E0 & E1 & E2 & E3 & E4 & E5).
  unfold isFlag. rewrite Harg, E0, E1, E2, E3, E4, E5, Hv. cbn [negb].
  destruct (updated_sample argsInfo) eqn:Eu.
  - eexists _, _. split; [reflexivity|]. split; [discriminate|].
    intros _. split; reflexivity.
  - destruct (strtol (removeWhiteSpace v)) as [value endptr].
    destruct (nonempty endptr || (value <=? 0)).
    + eexists _, _. split; [reflexivity|]. split; [|discriminate].
      intros _. eexists. reflexivity.
    + eexists _, _. split; [reflexivity|]. split; [|discriminate].
      intros _. eexists. reflexivity.
Qed.

Lemma samples_flag_debug_output_witness :
  arg_at (initializeArgument 2 ["prog"; "--samples=5"]) 1 = "--samples=" ++ "5"
  /\ nonempty "5" = true
  /\ exists rest r,
      isFlag (initializeArgument 2 ["prog"; "--samples=5"]) 1
      = (Printf [Text "here"] :: Printf [Text "here2"] :: rest, r)
      /\ (updated_sample (initializeArgument 2 ["prog"; "--samples=5"]) = false ->
          exists rest', rest = Printf [Text "here3"] :: rest')
      /\ (updated_sample (initializeArgument 2 ["prog"; "--samples=5"]) = true ->
          rest = [Eprintf ("Error: cannot have multiple sample values" ++ NL)]
          /\ r = Done (false, initializeArgument 2 ["prog"; "--samples=5"])).
Proof.
  split; [reflexivity|]. split; [reflexivity|].
  exact (samples_flag_debug_output
           (initializeArgument 2 ["prog"; "--samples=5"]) 1 "5"
           eq_refl eq_refl).
Defined.

(** C10, as stated, fails: in `prog 5 --samples=7` the positional value has
    set the sample count, and the flag prints "here" and "here2" only. *)
Lemma here3_not_printed :
  trace (parse ["prog"; "5"; "--samples=7"])
  = [Printf [Text "here"]; Printf [Text "here2"];
     Eprintf ("Error: cannot have multiple sample values" ++ NL);
     Eprintf ("Error: Unknown argument" ++ NL)].
Proof. reflexivity. Qed.

(* The debug strings precede everything the run displays. *)
Example debug_strings_precede_display :
  firstn 4 (trace (main ["prog"; "--samples=2"] Sample.host))
  = [Printf [Text "here"]; Printf [Text "here2"]; Printf [Text "here3"];
     Printf [Text (ESC ++ "c")]].
Proof. vm_compute. reflexivity. Qed.

(* An accepted value: the three strings are all the flag writes. *)
Example here3_printed :
  isFlag (initializeArgument 2 ["prog"; "--samples=5"]) 1
  = ([Printf [Text "here"]; Printf [Text "here2"]; Printf [Text "here3"]],
     Done (true, set_samples (initializeArgument 2 ["prog"; "--samples=5"]) 5)).
Proof. reflexivity. Qed.

(** ** Loops and traces *)

Lemma glyph_writes_app (g : string) (t1 t2 : list event) :
  glyph_writes g (t1 ++ t2) = (glyph_writes g t1 ++ glyph_writes g t2)%list.
Proof.
  induction t1 as [| e t1 IH]; [reflexivity|].
  destruct e as [ps | | |]; cbn [app glyph_writes]; try exact IH.
  destruct ps as [| [] [| [] [| ? ?]]]; try exact IH.
  destruct (String.eqb s g); cbn [app]; rewrite IH; reflexivity.
Qed.

Lemma glyph_writes_map_cells (g : string) (cell : nat -> Z * Z) (l : list nat) :
  glyph_writes g
    (map (fun k => Printf [CursorTo (fst (cell k)) (snd (cell k)); Text g]) l)
  = map cell l.
Proof.
  induction l as [| k l IH]; [reflexivity|].
  cbn [map glyph_writes]. rewrite String.eqb_refl, IH.
  destruct (cell k); reflexivity.
Qed.

Lemma glyph_writes_map_none (g : string) (e : nat -> event) (l : list nat) :
  (forall k, glyph_writes g [e k] = []) ->
  glyph_writes g (map e l) = [].
Proof.
  intros H. induction l as [| k l IH]; [reflexivity|].
  change (map e (k :: l)) with ([e k] ++ map e l)%list.
  rewrite glyph_writes_app, H, IH. reflexivity.
Qed.

(** ** The axes *)

Lemma checked_add_some (a b : Z) :
  in_int (a + b) = true -> checked_add a b = Some (a + b).
Proof. intros H. unfold checked_add. rewrite H. reflexivity. Qed.

Lemma checked_add_inv (a b x : Z) :
  checked_add a b = Some x -> x = a + b /\ in_int (a + b) = true.
Proof.
  unfold checked_add. destruct (in_int (a + b)); [| discriminate].
  intros H. injection H as <-. split; reflexivity.
Qed.

Lemma in_int_between (lo hi z : Z) :
  in_int lo = true -> in_int hi = true -> lo <= z <= hi -> in_int z = true.
Proof.
  unfold in_int. rewrite !andb_true_iff, !Z.leb_le. lia.
Qed.

(* A loop whose body adds the loop variable to [c]. *)
Lemma for_upto_checked (c : Z) (e : Z -> event) (n : nat) :
  forall i,
    (forall k, (k < n)%nat -> in_int (c + (i + Z.of_nat k)) = true) ->
    for_upto n i (fun j => x <- defined (checked_add c j) ;; emit (e x))
    = (map (fun k => e (c + (i + Z.of_nat k))) (seq 0 n), Done tt).
Proof.
  induction n as [| n IH]; intros i H; [reflexivity|].
  cbn [for_upto].
  rewrite checked_add_some
    by (specialize (H 0%nat ltac:(lia)); rewrite Z.add_0_r in H; exact H).
  rewrite IH by (intros k Hk; specialize (H (S k) ltac:(lia));
                 rewrite <- H; f_equal; lia).
  cbn [defined ret emit bind trace result fst snd app seq map].
  rewrite Z.add_0_r. f_equal. f_equal.
  rewrite <- seq_shift, map_map. apply map_ext. intros k. f_equal. lia.
Qed.

Lemma for_upto_checked_returns (c : Z) (e : Z -> event) (n : nat) :
  forall i,
    returns (for_upto n i (fun j => x <- defined (checked_add c j) ;; emit (e x))) ->
    forall k, (k < n)%nat -> in_int (c + (i + Z.of_nat k)) = true.
Proof.
  induction n as [| n IH]; intros i [u Hu] k Hk; [lia|].
  cbn [for_upto] in Hu.
  destruct (checked_add c i) as [x|] eqn:E;
    cbn [defined ret undefined emit bind trace result fst snd] in Hu;
    [| discriminate].
  apply checked_add_inv in E. destruct E as [_ E].
  destruct k as [| k].
  - rewrite Z.add_0_r. exact E.
  - rewrite <- (IH (i + 1) (ex_intro _ u Hu) k ltac:(lia)). f_equal. lia.
Qed.

Lemma axes_fit_parts (height r c N : Z) :
  axes_fit height r c N = true ->
  in_int (r + 1) = true /\ in_int (c + 8) = true
  /\ in_int (r + 1 + height) = true /\ in_int (Z.max N 20 + 1) = true
  /\ in_int (c + 8 + Z.max N 20) = true /\ in_int (r + 1 + height + 1) = true.
Proof.
  unfold axes_fit. rewrite !andb_true_iff. tauto.
Qed.

Lemma samples_floor (N : Z) : (if N <? 20 then 20 else N) = Z.max N 20.
Proof.
  destruct (N <? 20) eqn:E; [apply Z.ltb_lt in E | apply Z.ltb_ge in E]; lia.
Qed.

Lemma draw_graph_trace (label : string) (unit : list piece) (height : Z)
    (baseline : string) (r c N : Z) :
  axes_fit height r c N = true ->
  draw_graph label unit height baseline r c N
  = ((Printf [CursorTo r c; Text label; Text NL]
      :: Printf (CursorTo (r + 1) c :: Text " " :: unit)
      :: bars (r + 1) (c + 8) (Z.to_nat height)
      ++ Printf [CursorTo (r + 1 + height)
                   (to_int (to_ulong (c + 8 - strlen baseline - 2)));
                 Text " "; Text baseline]
      :: rule (r + 1 + height) (c + 8) (Z.to_nat (Z.max N 20 + 1))
      ++ [Printf [Text NL]])%list,
     Done (save_position r (to_int (to_ulong (c + strlen label + 1))),
           r + 1 + height + 1, c + 8)).
Proof.
  intros H. apply axes_fit_parts in H.
  destruct H as (H1 & H2 & H3 & H4 & H5 & H6).
  unfold draw_graph, for_int. rewrite samples_floor.
  rewrite (checked_add_some r 1 H1), (checked_add_some c 8 H2).
  cbn [defined ret emit bind trace result fst snd app].
  rewrite (for_upto_checked (r + 1)
             (fun line => Printf [CursorTo line (c + 8); Text "|"; Text NL])).
  2:{ intros k Hk. apply (in_int_between (r + 1) (r + 1 + height)); try assumption.
      lia. }
  rewrite (checked_add_some (r + 1) height H3), (checked_add_some _ 1 H4).
  cbn [defined ret emit bind trace result fst snd app].
  rewrite (for_upto_checked (c + 8)
             (fun column => Printf [CursorTo (r + 1 + height) column;
                                    Text HLINE])).
  2:{ intros k Hk. apply (in_int_between (c + 8) (c + 8 + Z.max N 20));
        try assumption.
      unfold in_int, INT_MIN, INT_MAX in H4.
      apply andb_true_iff in H4. rewrite !Z.leb_le in H4. lia. }
  rewrite (checked_add_some (r + 1 + height) 1 H6).
  cbn [defined ret emit bind trace result fst snd app].
  reflexivity.
Qed.

Lemma draw_graph_returns (label : string) (unit : list piece) (height : Z)
    (baseline : string) (r c N : Z) :
  returns (draw_graph label unit height baseline r c N) ->
  axes_fit height r c N = true.
Proof.
  intros [v Hv]. unfold draw_graph, for_int in Hv. rewrite samples_floor in Hv.
  destruct (checked_add r 1) as [r1|] eqn:E1;
    cbn [defined ret undefined emit bind trace result fst snd] in Hv;
    [| discriminate].
  destruct (checked_add c 8) as [c1|] eqn:E2;
    cbn [defined ret undefined emit bind trace result fst snd] in Hv;
    [| discriminate].
  apply checked_add_inv in E1, E2. destruct E1 as [-> E1], E2 as [-> E2].
  match type of Hv with context [bind ?m ?f] =>
    destruct (bind_cases m f) as [(u & _ & Hb) | (_ & _ & Hn)] end;
    [| exfalso; exact (Hn _ Hv)].
  rewrite Hb in Hv. clear Hb. cbn [result snd] in Hv.
  destruct (checked_add (r + 1) height) as [r2|] eqn:E3;
    cbn [defined ret undefined emit bind trace result fst snd] in Hv;
    [| discriminate].
  destruct (checked_add (Z.max N 20) 1) as [bound|] eqn:E4;
    cbn [defined ret undefined emit bind trace result fst snd] in Hv;
    [| discriminate].
  apply checked_add_inv in E3, E4. destruct E3 as [-> E3], E4 as [-> E4].
  match type of Hv with context [bind ?m ?f] =>
    destruct (bind_cases m f) as [(u' & Hr & Hb) | (_ & _ & Hn)] end;
    [| exfalso; exact (Hn _ Hv)].
  rewrite Hb in Hv. clear Hb. cbn [result snd] in Hv.
  destruct (checked_add (r + 1 + height) 1) as [r3|] eqn:E6;
    cbn [defined ret undefined emit bind trace result fst snd] in Hv;
    [| discriminate].
  apply checked_add_inv in E6. destruct E6 as [-> E6].
  assert (E5 : in_int (c + 8 + Z.max N 20) = true).
  { pose proof (for_upto_checked_returns _ _ _ 0 (ex_intro _ u' Hr)
                  (Z.to_nat (Z.max N 20))) as H.
    rewrite Z.add_0_l, Z2Nat.id in H by lia. apply H. lia. }
  unfold axes_fit. rewrite E1, E2, E3, E4, E5, E6. reflexivity.
Qed.

Lemma glyph_writes_rule (r c : Z) (n : nat) :
  glyph_writes HLINE (rule r c n)
  = map (fun k => (r, c + Z.of_nat k)) (seq 0 n).
Proof.
  unfold rule.
  apply (glyph_writes_map_cells HLINE (fun k => (r, c + Z.of_nat k))).
Qed.

Lemma glyph_writes_bars (g : string) (r c : Z) (n : nat) :
  glyph_writes g (bars r c n) = [].
Proof. apply glyph_writes_map_none. reflexivity. Qed.

Lemma glyph_writes_unit_line (r c : Z) (unit : list piece) :
  glyph_writes HLINE [Printf (CursorTo r c :: Text " " :: unit)] = [].
Proof. destruct unit; reflexivity. Qed.

(* The cells of the horizontal axis, in the order they are printed. *)
Lemma draw_graph_rule_cells (label : string) (unit : list piece) (height : Z)
    (baseline : string) (r c N : Z) :
  axes_fit height r c N = true ->
  glyph_writes HLINE (trace (draw_graph label unit height baseline r c N))
  = map (fun k => (r + 1 + height, c + 8 + Z.of_nat k))
        (seq 0 (Z.to_nat (Z.max N 20 + 1))).
Proof.
  intros H. rewrite (draw_graph_trace _ _ _ _ _ _ _ H). cbn [trace fst].
  change (?a :: ?b :: ?l)%list with ([a] ++ [b] ++ l)%list at 1.
  rewrite !glyph_writes_app, glyph_writes_unit_line, glyph_writes_bars.
  change (?a :: ?l ++ ?m)%list with ([a] ++ l ++ m)%list.
  rewrite !glyph_writes_app, glyph_writes_rule.
  cbn [glyph_writes app]. apply app_nil_r.
Qed.

Lemma int_add_exact (a b : Z) : in_int (a + b) = true -> int_add a b = a + b.
Proof.
  unfold in_int, int_add, to_int, INT_MIN, INT_MAX.
  intros H. apply andb_true_iff in H. destruct H as [H1 H2].
  apply Z.leb_le in H1, H2.
  rewrite Z.mod_small; lia.
Qed.

(** C9, as the program has it.  A call of draw_graph runs to its end
    exactly when its int additions are representable, which they are not
    for N = INT_MAX.  The horizontal axis then has max(N, 20) + 1 glyphs, on
    the row below the vertical axis: the first one in the column of the
    vertical axis, which is the column the call hands back, and the other
    max(N, 20) in the columns to its right. *)
Theorem horizontal_rule_length (label : string) (unit : list piece)
    (height : Z) (baseline : string) (current_row current_column N : Z) :
  let m := draw_graph label unit height baseline
                      current_row current_column N in
  let axis_row := current_row + 1 + height in
  let axis_column := current_column + 8 in
  (returns m <-> axes_fit height current_row current_column N = true)
  /\ (returns m ->
      N < INT_MAX
      /\ (exists pos, result m = Done (pos, axis_row + 1, axis_column))
      /\ (forall i, 0 <= i < height ->
            In (Printf [CursorTo (current_row + 1 + i) axis_column;
                        Text "|"; Text NL]) (trace m))
      /\ glyph_writes HLINE (trace m)
         = (axis_row, axis_column)
           :: map (fun k => (axis_row, axis_column + 1 + Z.of_nat k))
                  (seq 0 (Z.to_nat (Z.max N 20)))
      /\ List.length (glyph_writes HLINE (trace m))
         = S (Z.to_nat (Z.max N 20))).
Proof.
  cbn zeta.
  assert (Hfit : returns (draw_graph label unit height baseline
                                     current_row current_column N)
                 -> axes_fit height current_row current_column N = true)
    by apply draw_graph_returns.
  split.
  - split; [exact Hfit|].
    intros H. rewrite (draw_graph_trace _ _ _ _ _ _ _ H). eexists. reflexivity.
  - intros Hr. specialize (Hfit Hr).
    assert (Hcells := draw_graph_rule_cells label unit height baseline
                        current_row current_column N Hfit).
    assert (Hn : Z.to_nat (Z.max N 20 + 1) = S (Z.to_nat (Z.max N 20)))
      by (rewrite Z2Nat.inj_add by lia; rewrite Nat.add_1_r; reflexivity).
    rewrite Hn in Hcells. cbn [seq map] in Hcells.
    rewrite <- seq_shift, map_map, Z.add_0_r in Hcells.
    split; [| split; [| split; [| split]]].
    + apply axes_fit_parts in Hfit. destruct Hfit as (_ & _ & _ & H4 & _).
      unfold in_int, INT_MIN, INT_MAX in *.
      apply andb_true_iff in H4. rewrite !Z.leb_le in H4. lia.
    + rewrite (draw_graph_trace _ _ _ _ _ _ _ Hfit). eexists. reflexivity.
    + intros i Hi. rewrite (draw_graph_trace _ _ _ _ _ _ _ Hfit).
      cbn [trace fst]. right. right. apply in_or_app. left.
      unfold bars. apply in_map_iff. exists (Z.to_nat i).
      split; [rewrite Z2Nat.id by lia; reflexivity|].
      apply in_seq. lia.
    + rewrite Hcells. f_equal. apply map_ext. intros k.
      f_equal. rewrite Nat2Z.inj_succ. lia.
    + rewrite Hcells. cbn [List.length]. rewrite length_map, length_seq.
      reflexivity.
Qed.

Lemma horizontal_rule_length_witness :
  returns (draw_graph "v CPU " [Text "100%"] 11 "0%" 3 1 30)
  /\ glyph_writes HLINE
       (trace (draw_graph "v CPU " [Text "100%"] 11 "0%" 3 1 30))
     = (15, 9) :: map (fun k => (15, 9 + 1 + Z.of_nat k))
                      (seq 0 (Z.to_nat (Z.max 30 20)))
  /\ List.length (glyph_writes HLINE
                    (trace (draw_graph "v CPU " [Text "100%"] 11 "0%" 3 1 30)))
     = 31%nat.
Proof.
  destruct (horizontal_rule_length "v CPU " [Text "100%"] 11 "0%" 3 1 30)
    as [Hiff Hrule].
  assert (Hr : returns (draw_graph "v CPU " [Text "100%"] 11 "0%" 3 1 30))
    by (apply Hiff; reflexivity).
  destruct (Hrule Hr) as (_ & _ & _ & Hcells & Hlen).
  split; [exact Hr|]. split; [exact Hcells | exact Hlen].
Defined.

(** C9, as stated, fails: for 5 samples the axis has 21 glyphs, one more
    than max(5, 20). *)
Lemma horizontal_rule_one_longer :
  List.length (glyph_writes HLINE (trace (draw_cpu_graph 3 1 5)))
  = S (Z.to_nat (Z.max 5 20)).
Proof. reflexivity. Qed.

(* For INT_MAX samples the loop bound samples + 1 is not an int: C gives
   the call no meaning from there on, and neither does the model. *)
Example rule_bound_overflows :
  result (draw_cpu_graph 3 1 INT_MAX) = Undefined.
Proof. reflexivity. Qed.

(* What a completed draw_memory_graph has computed. *)
Lemma draw_memory_graph_done (info : option sysinfo_t) (r c n : Z)
    out pos r' c' sf :
  draw_memory_graph info r c n = (out, Done (pos, r', c', sf)) ->
  exists out' total,
    get_total_memory info = (out', Done total)
    /\ axes_fit 10 r c n = true
    /\ sf = (total / inject_Z 10)%Q
    /\ r' = r + 1 + 10 + 1 /\ c' = c + 8.
Proof.
  unfold draw_memory_graph. intros H.
  destruct (get_total_memory info) as [out' [total | code |]] eqn:E;
    cbn [bind] in H; try discriminate.
  assert (Hfit : axes_fit 10 r c n = true).
  { apply (draw_graph_returns "v Memory " [Fixed 0 total; Text " GB"] 10 "0 GB").
    match type of H with context [bind ?m ?f] =>
      destruct (bind_cases m f) as [(a & Ha & _) | (_ & _ & Hn)] end.
    - exists a. exact Ha.
    - exfalso. apply (Hn (pos, r', c', sf)).
      cbn [trace result fst snd] in *. congruence. }
  rewrite (draw_graph_trace _ _ _ _ _ _ _ Hfit) in H.
  cbn [bind trace result fst snd ret] in H.
  exists out', total. repeat split; congruence.
Qed.

(** ** One iteration of the loop *)

Lemma ld_div_some (x y : Q) :
  ~ (y == 0)%Q -> ld_div x y = Some (x / y)%Q.
Proof. intros H. unfold ld_div. rewrite (Qeq_bool_false _ _ H). reflexivity. Qed.

Lemma int_of_ld_some (x : Q) :
  in_int (Qtrunc x) = true -> int_of_ld x = Some (Qtrunc x).
Proof. intros H. unfold int_of_ld. rewrite H. reflexivity. Qed.

Lemma memory_tick_done (lay : Layout) (st : LoopState) (inp : tick_input)
    (out : list event) (v : Q) :
  calculate_memory_used (used_sysinfo inp) (total_sysinfo inp) = (out, Done v) ->
  ~ (scaling_factor lay == 0)%Q ->
  in_int (Qtrunc (v / scaling_factor lay)) = true ->
  memory_tick lay st inp
  = ((out ++ memory_panel_output lay st v (Qtrunc (v / scaling_factor lay)))%list,
     Done (after_memory st)).
Proof.
  intros Hv Hs Hr. unfold memory_tick. rewrite Hv.
  cbn [bind emit trace result fst snd app].
  rewrite (ld_div_some _ _ Hs). cbn [defined ret bind trace result fst snd app].
  rewrite (int_of_ld_some _ Hr). reflexivity.
Qed.

Lemma cpu_tick_done (lay : Layout) (st : LoopState) (inp : tick_input)
    (out : list event) (v : Q) (tr : CpuTracker) :
  calculate_cpu_utilization (tracker st) (proc_stat inp) = (out, Done (v, tr)) ->
  in_int (Qtrunc (v / 10)) = true ->
  cpu_tick lay st inp
  = ((out ++ cpu_panel_output lay st v (Qtrunc (v / 10)))%list,
     Done (after_cpu st tr)).
Proof.
  intros Hv Hr. unfold cpu_tick. rewrite Hv.
  cbn [bind emit trace result fst snd app].
  rewrite (int_of_ld_some _ Hr). reflexivity.
Qed.

(** C6, as the program has it.  The row offset is the quotient truncated
    toward zero by the cast to int, not rounded: value / scaling_factor for
    the memory panel, whose scaling factor is the total memory over 10, and
    value / 10 for the CPU panel.  The glyph goes to row
    (axis row - offset) - 1 in int arithmetic, in the panel's write column,
    which is then incremented. *)
Theorem glyph_row_is_truncated_quotient (lay : Layout) (st : LoopState)
    (inp : tick_input) :
  (forall out v,
      calculate_memory_used (used_sysinfo inp) (total_sysinfo inp)
        = (out, Done v) ->
      ~ (scaling_factor lay == 0)%Q ->
      in_int (Qtrunc (v / scaling_factor lay)) = true ->
      let offset := Qtrunc (v / scaling_factor lay) in
      glyph_writes "#" (memory_panel_output lay st v offset)
        = [(int_sub (int_sub (row (memory st)) offset) 1, col (memory st))]
      /\ memory_tick lay st inp
         = ((out ++ memory_panel_output lay st v offset)%list,
            Done (after_memory st))
      /\ col (memory (after_memory st)) = int_add (col (memory st)) 1)
  /\ (forall out v tr,
      calculate_cpu_utilization (tracker st) (proc_stat inp)
        = (out, Done (v, tr)) ->
      in_int (Qtrunc (v / 10)) = true ->
      let offset := Qtrunc (v / 10) in
      glyph_writes ":" (cpu_panel_output lay st v offset)
        = [(int_sub (int_sub (row (cpu st)) offset) 1, col (cpu st))]
      /\ cpu_tick lay st inp
         = ((out ++ cpu_panel_output lay st v offset)%list,
            Done (after_cpu st tr))
      /\ col (cpu (after_cpu st tr)) = int_add (col (cpu st)) 1)
  /\ (forall info r c n out pos r' c' sf,
      draw_memory_graph info r c n = (out, Done (pos, r', c', sf)) ->
      exists out' total,
        get_total_memory info = (out', Done total)
        /\ sf = (total / inject_Z 10)%Q).
Proof.
  split; [|split].
  - intros out v Hv Hs Hr offset. split; [reflexivity|]. split; [|reflexivity].
    apply memory_tick_done; assumption.
  - intros out v tr Hv Hr offset. split; [reflexivity|]. split; [|reflexivity].
    apply cpu_tick_done; assumption.
  - intros info r c n out pos r' c' sf H.
    destruct (draw_memory_graph_done _ _ _ _ _ _ _ _ _ H)
      as (out' & total & E & _ & Hsf & _).
    exists out', total. split; assumption.
Qed.

(** ** The write columns over the loop *)

Lemma glyph_writes_stderr (g : string) (msgs : list string) :
  glyph_writes g (map Eprintf msgs) = [].
Proof. induction msgs; [reflexivity | exact IHmsgs]. Qed.

Lemma calculate_cpu_utilization_returns (t : CpuTracker) (r : stat_read) :
  exists msgs v t',
    calculate_cpu_utilization t r = (map Eprintf msgs, Done (v, t')).
Proof.
  destruct r as [| s [|]]; unfold calculate_cpu_utilization; cbn [negb].
  - eexists [_], _, _. reflexivity.
  - destruct (Qeq_bool (preTotalCPU t) 0 && Qeq_bool (preIdleCPU t) 0).
    + exists [], 0%Q. eexists. reflexivity.
    + match goal with |- context [if ?b then _ else _] => destruct b end;
        exists []; eexists _, _; reflexivity.
  - eexists [_], _, _. reflexivity.
Qed.

Lemma get_total_memory_cases (info : option sysinfo_t) :
  exists msgs,
    (exists v, get_total_memory info = (map Eprintf msgs, Done v))
    \/ get_total_memory info = (map Eprintf msgs, Exited 1).
Proof.
  destruct info as [info|]; unfold get_total_memory.
  - match goal with |- context [if ?b then _ else _] => destruct b end.
    + exists [("Error:Total memory cannot be negative" ++ NL)%string].
      left. eexists. reflexivity.
    + exists []. left. eexists. reflexivity.
  - eexists [_]. right. reflexivity.
Qed.

Lemma calculate_memory_used_cases (own nested : option sysinfo_t) :
  exists msgs,
    (exists v, calculate_memory_used own nested = (map Eprintf msgs, Done v))
    \/ calculate_memory_used own nested = (map Eprintf msgs, Exited 1).
Proof.
  destruct own as [info|]; unfold calculate_memory_used.
  - destruct (get_total_memory_cases nested) as [msgs [[v H] | H]];
      rewrite H; exists msgs; [left | right]; cbn.
    + rewrite app_nil_r. eexists. reflexivity.
    + reflexivity.
  - eexists [_]. left. eexists. reflexivity.
Qed.

Lemma memory_tick_cols (lay : Layout) (st : LoopState) (inp : tick_input) :
  glyph_cols ":" (trace (memory_tick lay st inp)) = []
  /\ (wrote_one "#" (col (memory st)) (memory_tick lay st inp) (after_memory st)
      \/ stopped_silent "#" (memory_tick lay st inp)).
Proof.
  unfold memory_tick, wrote_one, stopped_silent, glyph_cols.
  destruct (calculate_memory_used_cases (used_sysinfo inp) (total_sysinfo inp))
    as [msgs [[v H] | H]]; rewrite H; cbn [bind emit trace result fst snd app].
  - destruct (ld_div v (scaling_factor lay)) as [q|];
      cbn [defined ret undefined bind trace result fst snd app].
    + destruct (int_of_ld q) as [offset|];
        cbn [defined ret undefined bind emit trace result fst snd app];
        rewrite !glyph_writes_app, !glyph_writes_stderr; cbn.
      * split; [reflexivity|]. left. split; reflexivity.
      * split; [reflexivity|]. right. split; [reflexivity | discriminate].
    + rewrite !glyph_writes_app, !glyph_writes_stderr; cbn.
      split; [reflexivity|]. right. split; [reflexivity | discriminate].
  - rewrite !glyph_writes_stderr. cbn.
    split; [reflexivity|]. right. split; [reflexivity | discriminate].
Qed.

Lemma cpu_tick_cols (lay : Layout) (st : LoopState) (inp : tick_input) :
  glyph_cols "#" (trace (cpu_tick lay st inp)) = []
  /\ ((exists tr, wrote_one ":" (col (cpu st)) (cpu_tick lay st inp)
                    (after_cpu st tr))
      \/ stopped_silent ":" (cpu_tick lay st inp)).
Proof.
  unfold cpu_tick, wrote_one, stopped_silent, glyph_cols.
  destruct (calculate_cpu_utilization_returns (tracker st) (proc_stat inp))
    as (msgs & v & tr & H); rewrite H;
    cbn [bind emit trace result fst snd app].
  destruct (int_of_ld (v / 10)) as [offset|];
    cbn [defined ret undefined bind emit trace result fst snd app];
    rewrite !glyph_writes_app, !glyph_writes_stderr; cbn.
  - split; [reflexivity|]. left. exists tr. split; reflexivity.
  - split; [reflexivity|]. right. split; [reflexivity | discriminate].
Qed.

Lemma glyph_cols_app (g : string) (t1 t2 : list event) :
  glyph_cols g (t1 ++ t2) = (glyph_cols g t1 ++ glyph_cols g t2)%list.
Proof. unfold glyph_cols. rewrite glyph_writes_app. apply map_app. Qed.

Lemma sample_tick_parts (argsInfo : ArgsInfo) (lay : Layout) (st : LoopState)
    (inp : tick_input) :
  sample_tick argsInfo lay st inp
  = bind (memory_part argsInfo lay st inp) (fun st =>
    bind (cpu_part argsInfo lay st inp) (fun st =>
    bind (emit (Usleep (to_uint (tdelay argsInfo)))) (fun _ => ret st))).
Proof. reflexivity. Qed.

Lemma memory_part_cols (argsInfo : ArgsInfo) (lay : Layout) (st : LoopState)
    (inp : tick_input) :
  let m := memory_part argsInfo lay st inp in
  glyph_cols ":" (trace m) = []
  /\ ((exists st', result m = Done st'
                   /\ glyph_cols "#" (trace m)
                      = own_cols (memory_flag argsInfo) (col (memory st))
                   /\ col (memory st')
                      = advance_col (memory_flag argsInfo) (col (memory st))
                   /\ cpu st' = cpu st)
      \/ stopped_silent "#" m).
Proof.
  unfold memory_part. destruct (memory_flag argsInfo); cbn zeta.
  - destruct (memory_tick_cols lay st inp) as [H0 [[H1 H2] | H]].
    + split; [exact H0|]. left. exists (after_memory st). auto.
    + split; [exact H0|]. right. exact H.
  - split; [reflexivity|]. left. exists st. auto.
Qed.

Lemma cpu_part_cols (argsInfo : ArgsInfo) (lay : Layout) (st : LoopState)
    (inp : tick_input) :
  let m := cpu_part argsInfo lay st inp in
  glyph_cols "#" (trace m) = []
  /\ ((exists st', result m = Done st'
                   /\ glyph_cols ":" (trace m)
                      = own_cols (cpu_flag argsInfo) (col (cpu st))
                   /\ col (cpu st')
                      = advance_col (cpu_flag argsInfo) (col (cpu st))
                   /\ memory st' = memory st)
      \/ stopped_silent ":" m).
Proof.
  unfold cpu_part. destruct (cpu_flag argsInfo); cbn zeta.
  - destruct (cpu_tick_cols lay st inp) as [H0 [[tr [H1 H2]] | H]].
    + split; [exact H0|]. left. exists (after_cpu st tr). auto.
    + split; [exact H0|]. right. exact H.
  - split; [reflexivity|]. left. exists st. auto.
Qed.

(* One iteration: it completes, each enabled panel having written in its
   column and advanced it; or it stops, each enabled panel having written
   in its column or not at all. *)
Lemma sample_tick_cols (argsInfo : ArgsInfo) (lay : Layout) (st : LoopState)
    (inp : tick_input) :
  let m := sample_tick argsInfo lay st inp in
  (exists st', result m = Done st'
     /\ glyph_cols "#" (trace m)
        = own_cols (memory_flag argsInfo) (col (memory st))
     /\ col (memory st') = advance_col (memory_flag argsInfo) (col (memory st))
     /\ glyph_cols ":" (trace m) = own_cols (cpu_flag argsInfo) (col (cpu st))
     /\ col (cpu st') = advance_col (cpu_flag argsInfo) (col (cpu st)))
  \/ ((forall st', result m <> Done st')
      /\ (glyph_cols "#" (trace m) = []
          \/ (memory_flag argsInfo = true
              /\ glyph_cols "#" (trace m) = [col (memory st)]))
      /\ (glyph_cols ":" (trace m) = []
          \/ (cpu_flag argsInfo = true
              /\ glyph_cols ":" (trace m) = [col (cpu st)]))).
Proof.
  cbn zeta. rewrite sample_tick_parts.
  destruct (memory_part_cols argsInfo lay st inp) as [Hm0 Hm].
  match goal with |- context [bind ?m ?f] =>
    destruct (bind_cases m f) as [(st1 & Hr & Hb) | (Hn & Ht & Hr)] end.
  - destruct Hm as [(st1' & Hr' & Hc & Hcol & Hcpu) | [_ Hstop]];
      [| exfalso; exact (Hstop _ Hr)].
    assert (st1' = st1) by congruence. subst st1'.
    rewrite Hb. clear Hb. cbn [trace result fst snd].
    destruct (cpu_part_cols argsInfo lay st1 inp) as [Hc0 Hcp].
    match goal with |- context [bind ?m ?f] =>
      destruct (bind_cases m f) as [(st2 & Hr2 & Hb2) | (Hn2 & Ht2 & Hr2)] end.
    + destruct Hcp as [(st2' & Hr2' & Hc2 & Hcol2 & Hmem2) | [_ Hstop]];
        [| exfalso; exact (Hstop _ Hr2)].
      assert (st2' = st2) by congruence. subst st2'.
      left. exists st2. rewrite Hb2. cbn [trace result fst snd bind emit ret].
      rewrite !glyph_cols_app, Hm0, Hc0, Hc, Hc2, Hcol2, Hmem2, Hcpu, Hcol.
      cbn [glyph_cols glyph_writes map app]. rewrite !app_nil_r.
      repeat split; reflexivity.
    + right. split; [exact Hr2|]. rewrite Ht2, !glyph_cols_app, Hm0, Hc0, Hc.
      rewrite app_nil_r. cbn [app].
      split.
      * destruct (memory_flag argsInfo); cbn; auto.
      * destruct Hcp as [(st2' & Hr2' & Hc2 & _) | [Hs _]].
        -- exfalso. exact (Hn2 _ Hr2').
        -- rewrite Hs. auto.
  - right. split; [exact Hr|]. rewrite Ht, Hm0.
    destruct Hm as [(st1' & Hr' & _) | [Hs _]].
    + exfalso. exact (Hn _ Hr').
    + rewrite Hs. auto.
Qed.

Lemma cols_from_S (c : Z) (k : nat) :
  cols_from c (S k) = c :: cols_from (c + 1) k.
Proof.
  unfold cols_from. cbn [seq map]. rewrite Z.add_0_r. f_equal.
  rewrite <- seq_shift, map_map. apply map_ext. intros j. lia.
Qed.

Lemma steps_by_one_cols_from (k : nat) :
  forall c, steps_by_one (cols_from c k).
Proof.
  induction k as [| k IH]; intros c; [exact I|].
  rewrite cols_from_S. specialize (IH (c + 1)).
  destruct k as [| k]; [exact I|].
  rewrite cols_from_S in *. split; [reflexivity | exact IH].
Qed.

Lemma int_succ_exact (c : Z) :
  INT_MIN <= c -> c < INT_MAX -> int_add c 1 = c + 1.
Proof.
  intros H1 H2. apply int_add_exact. unfold in_int, INT_MIN, INT_MAX in *.
  apply andb_true_iff. split; apply Z.leb_le; lia.
Qed.

(* While the columns are ints, incrementing is adding one. *)
Lemma int_cols_exact (k : nat) :
  forall c, INT_MIN <= c -> c + Z.of_nat k <= INT_MAX + 1 ->
            int_cols c k = cols_from c k.
Proof.
  unfold INT_MIN, INT_MAX.
  induction k as [| k IH]; intros c H1 H2; [reflexivity|].
  cbn [int_cols]. rewrite cols_from_S. f_equal.
  destruct k as [| k]; [reflexivity|].
  rewrite int_succ_exact by (unfold INT_MIN, INT_MAX; lia).
  apply IH; lia.
Qed.

Lemma int_cols_next (on : bool) (c : Z) (k : nat) :
  (own_cols on c ++ int_cols (advance_col on c) k)%list
  = int_cols c (if on then S k else k).
Proof. destruct on; reflexivity. Qed.

Lemma returns_after_done {A B} (m : M A) (f : A -> M B) (a : A) :
  result m = Done a -> returns (bind m f) -> returns (f a).
Proof.
  intros Ha [b Hb]. exists b.
  rewrite (surjective_M m), Ha in Hb. exact Hb.
Qed.

Lemma returns_bind_inv {A B} (m : M A) (f : A -> M B) :
  returns (bind m f) -> exists a, result m = Done a /\ returns (f a).
Proof.
  intros H. destruct (bind_cases m f) as [(a & Ha & _) | (_ & _ & Hn)].
  - exists a. split; [exact Ha | exact (returns_after_done m f a Ha H)].
  - destruct H as [b Hb]. exfalso. exact (Hn b Hb).
Qed.

Section Loop.

Variables (argsInfo : ArgsInfo) (lay : Layout) (reads : nat -> tick_input).

(* The columns of each panel over [n] iterations: the successive values
   of its write column, one for each iteration when the loop completes. *)
Lemma sampling_loop_cols (n : nat) :
  forall i st,
    let m := sampling_loop n i argsInfo lay reads st in
    written (memory_flag argsInfo) (col (memory st)) n (returns m)
      (glyph_cols "#" (trace m))
    /\ written (cpu_flag argsInfo) (col (cpu st)) n (returns m)
         (glyph_cols ":" (trace m)).
Proof.
  unfold written.
  induction n as [| n IH]; intros i st; cbn zeta.
  - split; exists 0%nat; repeat split; auto.
  - cbn [sampling_loop].
    destruct (sample_tick_cols argsInfo lay st (reads i))
      as [(st' & Hr & Hmc & Hmcol & Hcc & Hccol) | (Hn & Hmc & Hcc)].
    + pose proof (returns_after_done (sample_tick argsInfo lay st (reads i))
                    (fun st0 => sampling_loop n (S i) argsInfo lay reads st0)
                    st' Hr) as Hret.
      rewrite (trace_bind_done _ _ (trace (sample_tick argsInfo lay st (reads i)))
                 st') in * by (rewrite <- Hr; apply surjective_M).
      cbn [trace fst]. rewrite !glyph_cols_app, Hmc, Hcc.
      destruct (IH (S i) st')
        as [(km & Hkm & Em & Hm0 & Hmn) (kc & Hkc & Ec & Hc0 & Hcn)].
      cbn zeta in Em, Ec. rewrite Em, Ec, Hmcol, Hccol, !int_cols_next.
      split.
      * exists (if memory_flag argsInfo then S km else km).
        destruct (memory_flag argsInfo).
        -- split; [lia|]. split; [reflexivity|]. split; [discriminate|].
           intros _ H. f_equal. apply Hmn; [reflexivity | apply Hret, H].
        -- split; [lia|]. split; [reflexivity|]. split; [auto | discriminate].
      * exists (if cpu_flag argsInfo then S kc else kc).
        destruct (cpu_flag argsInfo).
        -- split; [lia|]. split; [reflexivity|]. split; [discriminate|].
           intros _ H. f_equal. apply Hcn; [reflexivity | apply Hret, H].
        -- split; [lia|]. split; [reflexivity|]. split; [auto | discriminate].
    + destruct (bind_cases (sample_tick argsInfo lay st (reads i))
                  (fun st0 => sampling_loop n (S i) argsInfo lay reads st0))
        as [(st' & Hr & _) | (_ & Ht & Hnr)]; [exfalso; exact (Hn _ Hr)|].
      rewrite Ht.
      assert (Hstop : forall k : nat,
                 returns (bind (sample_tick argsInfo lay st (reads i))
                            (fun st0 => sampling_loop n (S i) argsInfo lay
                                                      reads st0))
                 -> k = S n).
      { intros k [b Hb]. exfalso. exact (Hnr b Hb). }
      split.
      * destruct Hmc as [E | [Hon E]]; rewrite E.
        -- exists 0%nat. split; [lia|]. split; [reflexivity|].
           split; [reflexivity | intros _; apply Hstop].
        -- exists 1%nat. split; [lia|]. split; [reflexivity|].
           split; [congruence | intros _; apply Hstop].
      * destruct Hcc as [E | [Hon E]]; rewrite E.
        -- exists 0%nat. split; [lia|]. split; [reflexivity|].
           split; [reflexivity | intros _; apply Hstop].
        -- exists 1%nat. split; [lia|]. split; [reflexivity|].
           split; [congruence | intros _; apply Hstop].
Qed.

End Loop.

(** ** Glyph-free parts of a run *)

Lemma glyph_free_bind {A B} (m : M A) (f : A -> M B) :
  glyph_free m -> (forall a, glyph_free (f a)) -> glyph_free (bind m f).
Proof.
  intros [H1 H2] Hf. unfold glyph_free.
  destruct (bind_cases m f) as [(a & _ & Hb) | (_ & Ht & _)].
  - rewrite Hb. cbn [trace fst]. rewrite !glyph_writes_app, H1, H2.
    destruct (Hf a) as [F1 F2]. rewrite F1, F2. split; reflexivity.
  - rewrite Ht. split; assumption.
Qed.

Lemma glyph_free_ret {A} (a : A) : glyph_free (ret a).
Proof. split; reflexivity. Qed.

Lemma glyph_free_stderr {A} (msgs : list string) (r : outcome A) :
  glyph_free (map Eprintf msgs, r).
Proof. split; apply glyph_writes_stderr. Qed.

Lemma glyph_free_for_upto (body : Z -> M unit) (n : nat) :
  (forall j, glyph_free (body j)) -> forall i, glyph_free (for_upto n i body).
Proof.
  intros Hb. induction n as [| n IH]; intros i; [apply glyph_free_ret|].
  cbn [for_upto]. apply glyph_free_bind; [apply Hb | intros _; apply IH].
Qed.

Lemma glyph_free_box_line (coresNumber cols width r line currentcol : Z)
    (text : string) :
  String.eqb text "#" = false -> String.eqb text ":" = false ->
  glyph_free (box_line coresNumber cols width r line currentcol text).
Proof.
  intros H1 H2. apply glyph_free_for_upto. intros j.
  destruct (int_add (int_mul r cols) j <? coresNumber);
    [| apply glyph_free_ret].
  split; cbn [emit trace fst glyph_writes]; [rewrite H1 | rewrite H2];
    reflexivity.
Qed.

Lemma glyph_free_newline : glyph_free (emit (Printf [Text NL])).
Proof. split; reflexivity. Qed.

Lemma glyph_free_cores_rows (n : nat) :
  forall r coresNumber cols width currentcol currentrow,
    glyph_free (cores_rows n r coresNumber cols width currentcol currentrow).
Proof.
  induction n as [| n IH]; intros; [apply glyph_free_ret|].
  cbn [cores_rows].
  repeat (apply glyph_free_bind; intros;
          [first [apply glyph_free_box_line; reflexivity
                 | apply glyph_free_newline] |]).
  apply IH.
Qed.

Lemma glyph_free_coresGraph (coresNumber currentcol currentrow : Z)
    (frequency : Q) :
  glyph_free (coresGraph coresNumber currentcol currentrow frequency).
Proof.
  unfold coresGraph.
  apply glyph_free_bind; [split; reflexivity | intros _].
  apply glyph_free_bind; [apply glyph_free_cores_rows | intros].
  apply glyph_free_ret.
Qed.

Lemma glyph_free_calculate_max_frequency (r : freq_read) :
  glyph_free (calculate_max_frequency r).
Proof. destruct r; split; reflexivity. Qed.

Lemma glyph_free_calculate_cores (r : cpuinfo_read) :
  glyph_free (calculate_cores r).
Proof. destruct r as [| chunks [|]]; split; reflexivity. Qed.

Lemma glyph_free_finish (argsInfo : ArgsInfo) (current_row : Z) (host : Host) :
  glyph_free (finish argsInfo current_row host).
Proof.
  unfold finish. apply glyph_free_bind.
  - destruct (cores_flag argsInfo); [| apply glyph_free_ret].
    apply glyph_free_bind; [apply glyph_free_calculate_max_frequency | intros].
    unfold cores_panel.
    apply glyph_free_bind; [apply glyph_free_calculate_cores | intros].
    apply glyph_free_bind; [apply glyph_free_coresGraph | intros [[? ?] ?]].
    apply glyph_free_ret.
  - intros. apply glyph_free_bind; [split; reflexivity | intros].
    apply glyph_free_ret.
Qed.

Lemma glyph_free_defined {A} (o : option A) : glyph_free (defined o).
Proof. destruct o; split; reflexivity. Qed.

Lemma glyph_free_draw_graph (label : string) (unit : list piece) (height : Z)
    (baseline : string) (r c N : Z) :
  glyph_free (draw_graph label unit height baseline r c N).
Proof.
  unfold draw_graph, for_int.
  repeat first
    [ apply glyph_free_ret
    | apply glyph_free_defined
    | apply glyph_free_for_upto; intros
    | apply glyph_free_bind; [| intros ]
    | (split; reflexivity) ].
  destruct unit; split; reflexivity.
Qed.

Lemma glyph_free_get_total_memory (info : option sysinfo_t) :
  glyph_free (get_total_memory info).
Proof.
  destruct (get_total_memory_cases info) as [msgs [[v H] | H]]; rewrite H;
    apply glyph_free_stderr.
Qed.

Lemma glyph_free_draw_memory_graph (info : option sysinfo_t) (r c n : Z) :
  glyph_free (draw_memory_graph info r c n).
Proof.
  unfold draw_memory_graph.
  apply glyph_free_bind; [apply glyph_free_get_total_memory | intros].
  apply glyph_free_bind; [apply glyph_free_draw_graph | intros [[? ?] ?]].
  apply glyph_free_ret.
Qed.

Lemma before_glyph_free (g : string) {A B} (m : M A) (f : A -> M B) :
  (forall a, glyph_writes g (trace (f a)) = []) ->
  glyph_cols g (trace (bind m f)) = glyph_cols g (trace m).
Proof.
  intros Hf. unfold glyph_cols.
  destruct (bind_cases m f) as [(a & _ & Hb) | (_ & Ht & _)].
  - rewrite Hb. cbn [trace fst]. rewrite glyph_writes_app, Hf, app_nil_r.
    reflexivity.
  - rewrite Ht. reflexivity.
Qed.

Lemma glyph_free_emit_plain (e : event) :
  glyph_writes "#" [e] = [] -> glyph_writes ":" [e] = [] -> glyph_free (emit e).
Proof. intros H1 H2. split; assumption. Qed.

Lemma draw_graph_done (label : string) (unit : list piece) (height : Z)
    (baseline : string) (r c N : Z) pos r' c' :
  result (draw_graph label unit height baseline r c N) = Done (pos, r', c') ->
  axes_fit height r c N = true /\ r' = r + 1 + height + 1 /\ c' = c + 8.
Proof.
  intros H.
  assert (Hfit : axes_fit height r c N = true)
    by (apply (draw_graph_returns label unit height baseline); eexists;
        exact H).
  rewrite (draw_graph_trace _ _ _ _ _ _ _ Hfit) in H. cbn [result snd] in H.
  split; [exact Hfit|]. split; congruence.
Qed.

(* A panel whose axes were drawn takes fewer samples than there are int
   columns to the right of column 9. *)
Lemma axes_fit_samples (height r N : Z) :
  axes_fit height r 1 N = true -> N <= INT_MAX - 9.
Proof.
  intros H. apply axes_fit_parts in H. destruct H as (_ & _ & _ & _ & H & _).
  unfold in_int, INT_MIN, INT_MAX in *.
  apply andb_true_iff in H. rewrite !Z.leb_le in H. lia.
Qed.

Lemma sample_columns_nil (argsInfo : ArgsInfo) {A} (m : M A) :
  (forall a, result m <> Done a) ->
  glyph_cols "#" (trace m) = [] -> glyph_cols ":" (trace m) = [] ->
  sample_columns argsInfo m.
Proof.
  intros Hn H1 H2. unfold sample_columns. rewrite H1, H2.
  split; exists 0%nat; (split; [reflexivity|]); (split; [lia|]);
    (split; [reflexivity|]); intros _ [a Ha]; exfalso; exact (Hn a Ha).
Qed.

(* The columns of a computation are those of its continuation when what
   comes first writes no glyph. *)
Lemma sample_columns_through (argsInfo : ArgsInfo) {A B}
    (m : M A) (f : A -> M B) :
  glyph_free m ->
  (forall a, result m = Done a -> sample_columns argsInfo (f a)) ->
  sample_columns argsInfo (bind m f).
Proof.
  intros [H1 H2] Hf.
  destruct (bind_cases m f) as [(a & Hr & Hb) | (Hn & Ht & Hnr)].
  - specialize (Hf a Hr). unfold sample_columns, returns, glyph_cols in *.
    rewrite Hb. cbn [trace result fst snd].
    rewrite !glyph_writes_app, H1, H2. exact Hf.
  - apply sample_columns_nil; [exact Hnr | |];
      unfold glyph_cols; rewrite Ht; [rewrite H1 | rewrite H2]; reflexivity.
Qed.

Lemma written_from_10 (on : bool) (c N : Z) (completed : Prop)
    (cols : list Z) :
  (on = true -> c = 10 /\ N <= INT_MAX - 9) ->
  written on c (Z.to_nat N) completed cols ->
  panel_columns on N completed cols.
Proof.
  intros Hon (k & Hk & E & H0 & Hn). exists k.
  split; [| split; [exact Hk | split; assumption]].
  destruct on.
  - destruct (Hon eq_refl) as [-> HN]. rewrite E.
    apply int_cols_exact; unfold INT_MIN, INT_MAX in *; lia.
  - rewrite E, (H0 eq_refl). reflexivity.
Qed.

Lemma sampling_phase_columns (argsInfo : ArgsInfo) (panel : option sysinfo_t)
    (warmup : stat_read) (reads : nat -> tick_input) :
  sample_columns argsInfo (sampling_phase argsInfo panel warmup reads).
Proof.
  unfold sampling_phase.
  do 5 (apply sample_columns_through;
        [apply glyph_free_emit_plain; reflexivity | intros _ _]).
  (* the memory axes *)
  apply sample_columns_through.
  { destruct (memory_flag argsInfo); [| apply glyph_free_ret].
    apply glyph_free_bind; [apply glyph_free_draw_memory_graph|].
    intros [[[? ?] ?] ?]. apply glyph_free_ret. }
  intros [[[[mhead mpos] current_row] current_column] sf] Hmem.
  assert (Hmcol : memory_flag argsInfo = true ->
                  col mpos = 10 /\ samples argsInfo <= INT_MAX - 9).
  { intros Hon. rewrite Hon in Hmem.
    destruct (draw_memory_graph panel (int_add 1 1) 1 (samples argsInfo))
      as [out [[[[pos r'] c'] sf'] | code |]] eqn:E;
      cbn [bind trace result fst snd ret] in Hmem; try discriminate.
    destruct (draw_memory_graph_done _ _ _ _ _ _ _ _ _ E)
      as (_ & _ & _ & Hfit & _ & _ & ->).
    injection Hmem as _ <- _ _ _.
    split; [reflexivity | exact (axes_fit_samples _ _ _ Hfit)]. }
  clear Hmem.
  (* the CPU axes *)
  apply sample_columns_through.
  { destruct (cpu_flag argsInfo); [| apply glyph_free_ret].
    apply glyph_free_bind.
    - apply glyph_free_for_upto. intros. apply glyph_free_newline.
    - intros _. apply glyph_free_bind; [apply glyph_free_draw_graph|].
      intros [[? ?] ?]. apply glyph_free_ret. }
  intros [[[chead cpos] current_row'] current_column'] Hcpu.
  assert (Hccol : cpu_flag argsInfo = true ->
                  col cpos = 10 /\ samples argsInfo <= INT_MAX - 9).
  { intros Hon. rewrite Hon in Hcpu.
    unfold change_line, for_int, draw_cpu_graph in Hcpu.
    cbn [Z.to_nat Pos.to_nat Pos.iter_op Init.Nat.add for_upto] in Hcpu.
    cbn [bind emit trace result fst snd ret] in Hcpu.
    destruct (draw_graph "v CPU " [Text "100%"] 11 "0%"
                (int_add current_row 2) 1 (samples argsInfo))
      as [out [[[pos r'] c'] | code |]] eqn:E;
      cbn [bind trace result fst snd ret] in Hcpu; try discriminate.
    destruct (draw_graph_done "v CPU " [Text "100%"] 11 "0%"
                (int_add current_row 2) 1 (samples argsInfo) pos r' c')
      as (Hfit & _ & ->); [rewrite E; reflexivity|].
    injection Hcpu as _ <- _ _.
    split; [reflexivity | exact (axes_fit_samples _ _ _ Hfit)]. }
  clear Hcpu.
  (* the call before the loop *)
  apply sample_columns_through.
  { destruct (calculate_cpu_utilization_returns fresh_tracker warmup)
      as (msgs & v & t' & H). rewrite H. apply glyph_free_stderr. }
  intros [v tr] _.
  (* the loop *)
  set (lay := {| memory_heading := mhead; cpu_heading := chead;
                 scaling_factor := sf |}).
  set (st := {| memory := mpos; cpu := cpos; tracker := tr |}).
  destruct (sampling_loop_cols argsInfo lay reads
              (Z.to_nat (samples argsInfo)) 0 st) as [Hm Hc].
  cbn zeta in Hm, Hc. cbn [memory cpu st] in Hm, Hc.
  set (loop := sampling_loop (Z.to_nat (samples argsInfo)) 0 argsInfo lay
                             reads st) in *.
  assert (Hret : returns (bind loop (fun _ => ret current_row'))
                 -> returns loop).
  { intros H. destruct (returns_bind_inv _ _ H) as (a & Ha & _).
    exists a. exact Ha. }
  unfold sample_columns.
  rewrite !before_glyph_free by reflexivity.
  split; eapply written_from_10; try eassumption.
  - destruct Hm as (k & Hk & E & H0 & Hn). exists k.
    repeat split; try assumption. intros Hon H. exact (Hn Hon (Hret H)).
  - destruct Hc as (k & Hk & E & H0 & Hn). exists k.
    repeat split; try assumption. intros Hon H. exact (Hn Hon (Hret H)).
Qed.

(** C8. In every run each enabled graph panel writes its glyphs in the
    columns 10, 11, 12, ...: every column written is the one written before
    plus 1.  There is one column for each sample the panel plotted, so all
    [samples] of them once the sampling loop has completed, and none for a
    panel that is off. *)
Theorem write_column_advances_by_one (argsInfo : ArgsInfo) (host : Host) :
  let sampling := sampling_phase argsInfo (panel_sysinfo host)
                    (warmup_stat host) (tick_reads host) in
  let t := trace (run argsInfo host) in
  panel_columns (memory_flag argsInfo) (samples argsInfo) (returns sampling)
    (glyph_cols "#" t)
  /\ panel_columns (cpu_flag argsInfo) (samples argsInfo) (returns sampling)
       (glyph_cols ":" t)
  /\ steps_by_one (glyph_cols "#" t)
  /\ steps_by_one (glyph_cols ":" t)
  /\ (returns (run argsInfo host) -> returns sampling).
Proof.
  cbn zeta. unfold run.
  rewrite !before_glyph_free by (intros; apply glyph_free_finish).
  destruct (sampling_phase_columns argsInfo (panel_sysinfo host)
              (warmup_stat host) (tick_reads host)) as [Hm Hc].
  split; [exact Hm|]. split; [exact Hc|].
  destruct Hm as (km & -> & _), Hc as (kc & -> & _).
  split; [apply steps_by_one_cols_from|].
  split; [apply steps_by_one_cols_from|].
  intros H. destruct (returns_bind_inv _ _ H) as (a & Ha & _).
  exists a. exact Ha.
Qed.

Lemma write_column_advances_by_one_witness :
  returns (sampling_phase Sample.both_graphs (panel_sysinfo Sample.host)
             (warmup_stat Sample.host) (tick_reads Sample.host))
  /\ glyph_cols "#" (trace (run Sample.both_graphs Sample.host))
     = [10; 11; 12]
  /\ glyph_cols ":" (trace (run Sample.both_graphs Sample.host))
     = [10; 11; 12].
Proof.
  destruct (write_column_advances_by_one Sample.both_graphs Sample.host)
    as ((km & Em & _ & _ & Hm) & (kc & Ec & _ & _ & Hc) & _).
  assert (Hr : returns (sampling_phase Sample.both_graphs
                          (panel_sysinfo Sample.host)
                          (warmup_stat Sample.host) (tick_reads Sample.host)))
    by (eexists; vm_compute; reflexivity).
  split; [exact Hr|].
  rewrite Em, Ec, (Hm eq_refl Hr), (Hc eq_refl Hr). split; reflexivity.
Defined.

Example three_samples_three_columns :
  glyph_writes "#" (trace (main ["prog"; "3"; "100"] Sample.host))
    = [(5, 10); (5, 11); (5, 12)]
  /\ glyph_writes ":" (trace (main ["prog"; "3"; "100"] Sample.host))
    = [(18, 10); (27, 11); (27, 12)]
  /\ result (main ["prog"; "3"; "100"] Sample.host) = Done 0.
Proof. vm_compute. repeat split; reflexivity. Qed.

Lemma glyph_row_is_truncated_quotient_witness :
  glyph_writes "#" (trace (memory_tick Sample.layout Sample.state Sample.reads_ok))
    = [(int_sub (int_sub 13 (Qtrunc (Sample.used_gb
                                     / scaling_factor Sample.layout))) 1, 10)]
  /\ glyph_writes ":" (trace (cpu_tick Sample.layout Sample.state Sample.reads_ok))
    = [(int_sub (int_sub 28 (Qtrunc ((96 # 1) / 10))) 1, 10)]
  /\ col (memory (after_memory Sample.state)) = 11.
Proof.
  destruct (glyph_row_is_truncated_quotient
              Sample.layout Sample.state Sample.reads_ok) as (Hm & Hc & _).
  destruct (Hm [] Sample.used_gb) as (Gm & Em & Cm).
  { reflexivity. }
  { intros H. vm_compute in H. discriminate. }
  { reflexivity. }
  destruct (Hc [] ((96 # 1) / (100 # 1) * 100)%Q (slid Sample.busy96))
    as (Gc & Ec & Cc).
  { reflexivity. }
  { reflexivity. }
  rewrite Em, Ec. split; [|split]; reflexivity.
Defined.

(** C6, as stated, fails: a utilization of 96 is plotted 9 rows above the
    axis (row 28 - 9 - 1 = 18), while rounding 9.6 gives row 17; 15.5 GB
    out of 20 go to row 13 - 7 - 1 = 5, while rounding 7.75 gives row 4. *)
Lemma glyph_row_is_not_rounded :
  glyph_writes ":" (trace (cpu_tick Sample.layout Sample.state Sample.reads_ok))
    = [(18, 10)]
  /\ spec_glyph_row 28 (96 # 1) 10 = 17
  /\ glyph_writes "#" (trace (memory_tick Sample.layout Sample.state
                                          Sample.reads_ok))
    = [(5, 10)]
  /\ spec_glyph_row 13 Sample.used_gb (scaling_factor Sample.layout) = 4.
Proof. vm_compute. repeat split; reflexivity. Qed.

(** ** Failed reads *)

Lemma Qtrunc_zero_div (q : Q) : Qtrunc (0 / q) = 0.
Proof. unfold Qtrunc, Qdiv, Qmult. cbn. reflexivity. Qed.

(** C4, as the program has it.  A failed open or close of /proc/stat, or a
    failed sysinfo call of calculate_memory_used itself, does not stop the
    iteration.  calculate_cpu_utilization returns 0 when fopen fails and -1
    when fclose fails, leaving the stored snapshot alone, and
    calculate_memory_used returns 0.  The panel prints that value and plots
    its glyph all the same, at row offset 0 in its write column, which is
    then incremented.  An iteration both of whose parts complete is
    followed by the usleep and by the rest of the loop. *)
Theorem read_failure_keeps_sampling (argsInfo : ArgsInfo) (lay : Layout)
    (reads : nat -> tick_input) (k i : nat) (st : LoopState) :
  (proc_stat (reads i) = StatOpenFail ->
   calculate_cpu_utilization (tracker st) (proc_stat (reads i))
     = ([Eprintf ("Error: Failed opening /proc/stat" ++ NL)],
        Done (0%Q, tracker st))
   /\ cpu_tick lay st (reads i)
      = (Eprintf ("Error: Failed opening /proc/stat" ++ NL)
           :: cpu_panel_output lay st 0 0,
         Done (after_cpu st (tracker st))))
  /\ (forall s, proc_stat (reads i) = StatRead s false ->
      calculate_cpu_utilization (tracker st) (proc_stat (reads i))
        = ([Eprintf ("Error: Failed to close file" ++ NL)],
           Done ((-1)%Q, tracker st))
      /\ cpu_tick lay st (reads i)
         = (Eprintf ("Error: Failed to close file" ++ NL)
              :: cpu_panel_output lay st (-1) 0,
            Done (after_cpu st (tracker st))))
  /\ (used_sysinfo (reads i) = None ->
      calculate_memory_used (used_sysinfo (reads i)) (total_sysinfo (reads i))
        = ([Eprintf ("Error: Cannot read memory used file" ++ NL)], Done 0%Q)
      /\ (~ (scaling_factor lay == 0)%Q ->
          memory_tick lay st (reads i)
          = (Eprintf ("Error: Cannot read memory used file" ++ NL)
               :: memory_panel_output lay st 0 0,
             Done (after_memory st))))
  /\ (forall v,
      glyph_writes ":" (cpu_panel_output lay st v 0)
        = [(int_sub (int_sub (row (cpu st)) 0) 1, col (cpu st))]
      /\ glyph_writes "#" (memory_panel_output lay st v 0)
         = [(int_sub (int_sub (row (memory st)) 0) 1, col (memory st))]
      /\ col (cpu (after_cpu st (tracker st))) = int_add (col (cpu st)) 1
      /\ col (memory (after_memory st)) = int_add (col (memory st)) 1)
  /\ (forall st1 st2,
      result (memory_part argsInfo lay st (reads i)) = Done st1 ->
      result (cpu_part argsInfo lay st1 (reads i)) = Done st2 ->
      sampling_loop (S k) i argsInfo lay reads st
      = ((trace (memory_part argsInfo lay st (reads i))
          ++ trace (cpu_part argsInfo lay st1 (reads i))
          ++ Usleep (to_uint (tdelay argsInfo))
          :: trace (sampling_loop k (S i) argsInfo lay reads st2))%list,
         result (sampling_loop k (S i) argsInfo lay reads st2))).
Proof.
  split; [| split; [| split; [| split]]].
  - intros H.
    assert (E : calculate_cpu_utilization (tracker st) (proc_stat (reads i))
                = ([Eprintf ("Error: Failed opening /proc/stat" ++ NL)],
                   Done (0%Q, tracker st)))
      by (rewrite H; reflexivity).
    split; [exact E|].
    rewrite (cpu_tick_done lay st (reads i) _ _ _ E); reflexivity.
  - intros s H.
    assert (E : calculate_cpu_utilization (tracker st) (proc_stat (reads i))
                = ([Eprintf ("Error: Failed to close file" ++ NL)],
                   Done ((-1)%Q, tracker st)))
      by (rewrite H; reflexivity).
    split; [exact E|].
    rewrite (cpu_tick_done lay st (reads i) _ _ _ E); reflexivity.
  - intros Hu.
    assert (E : calculate_memory_used (used_sysinfo (reads i))
                  (total_sysinfo (reads i))
                = ([Eprintf ("Error: Cannot read memory used file" ++ NL)],
                   Done 0%Q))
      by (rewrite Hu; reflexivity).
    split; [exact E|]. intros Hs.
    rewrite (memory_tick_done lay st (reads i) _ _ E Hs);
      rewrite Qtrunc_zero_div; reflexivity.
  - intros v. repeat split; reflexivity.
  - intros st1 st2 H1 H2. cbn [sampling_loop]. rewrite sample_tick_parts.
    rewrite (surjective_M (memory_part argsInfo lay st (reads i))), H1.
    cbn [bind trace result fst snd].
    rewrite (surjective_M (cpu_part argsInfo lay st1 (reads i))), H2.
    cbn [bind emit ret trace result fst snd app].
    rewrite <- !app_assoc. reflexivity.
Qed.

Lemma read_failure_keeps_sampling_witness :
  proc_stat Sample.reads_failing = StatOpenFail
  /\ used_sysinfo Sample.reads_failing = None
  /\ ~ (scaling_factor Sample.layout == 0)%Q
  /\ cpu_tick Sample.layout Sample.state Sample.reads_failing
     = (Eprintf ("Error: Failed opening /proc/stat" ++ NL)
          :: cpu_panel_output Sample.layout Sample.state 0 0,
        Done (after_cpu Sample.state (tracker Sample.state)))
  /\ memory_tick Sample.layout Sample.state Sample.reads_failing
     = (Eprintf ("Error: Cannot read memory used file" ++ NL)
          :: memory_panel_output Sample.layout Sample.state 0 0,
        Done (after_memory Sample.state))
  /\ sleeps (trace (sampling_loop 3 0 Sample.both_graphs Sample.layout
                      (fun _ => Sample.reads_failing) Sample.state)) = 3%nat.
Proof.
  assert (Hs : ~ (scaling_factor Sample.layout == 0)%Q)
    by (intros H; vm_compute in H; discriminate).
  destruct (read_failure_keeps_sampling Sample.both_graphs Sample.layout
              (fun _ => Sample.reads_failing) 2 0 Sample.state)
    as (Ho & _ & Hm & _ & Hl).
  split; [reflexivity|]. split; [reflexivity|]. split; [exact Hs|].
  split; [exact (proj2 (Ho eq_refl))|].
  split; [exact (proj2 (Hm eq_refl) Hs)|].
  rewrite (Hl (after_memory Sample.state)
              (after_cpu (after_memory Sample.state) (slid Sample.earlier))
              eq_refl eq_refl).
  reflexivity.
Defined.

(** C4, as stated, fails: in an iteration where /proc/stat cannot be opened
    and sysinfo fails, both panels write their glyph all the same, on the
    row just above the axis. *)
Lemma failed_reads_are_plotted :
  glyph_writes ":" (trace (sample_tick Sample.both_graphs Sample.layout
                             Sample.state Sample.reads_failing))
    = [(27, 10)]
  /\ glyph_writes "#" (trace (sample_tick Sample.both_graphs Sample.layout
                                Sample.state Sample.reads_failing))
    = [(12, 10)].
Proof. vm_compute. split; reflexivity. Qed.

(* A sysinfo failure inside get_total_memory ends the process during the
   loop, before anything is printed for the iteration. *)
Example total_memory_failure_exits :
  sample_tick Sample.both_graphs Sample.layout Sample.state
              Sample.reads_total_failing
  = ([Eprintf ("Error: Cannot read system memory information" ++ NL)],
     Exited 1).
Proof. reflexivity. Qed.

(** ** The maximum frequency *)

Lemma returns_ret {A} (a : A) : returns (ret a).
Proof. exists a. reflexivity. Qed.

Lemma returns_emit (e : event) : returns (emit e).
Proof. exists tt. reflexivity. Qed.

Lemma returns_bind {A B} (m : M A) (f : A -> M B) :
  returns m -> (forall a, returns (f a)) -> returns (bind m f).
Proof.
  intros [a Ha] Hf. destruct (Hf a) as [b Hb]. exists b.
  rewrite (surjective_M m), Ha. exact Hb.
Qed.

Lemma returns_for_upto (body : Z -> M unit) (n : nat) :
  (forall j, returns (body j)) -> forall i, returns (for_upto n i body).
Proof.
  intros Hb. induction n as [| n IH]; intros i; [apply returns_ret|].
  cbn [for_upto]. apply returns_bind; [apply Hb | intros _; apply IH].
Qed.

Lemma returns_box_line (coresNumber cols width r line currentcol : Z)
    (text : string) :
  returns (box_line coresNumber cols width r line currentcol text).
Proof.
  apply returns_for_upto. intros j.
  destruct (int_add (int_mul r cols) j <? coresNumber);
    [apply returns_emit | apply returns_ret].
Qed.

Lemma returns_cores_rows (n : nat) :
  forall r coresNumber cols width currentcol currentrow,
    returns (cores_rows n r coresNumber cols width currentcol currentrow).
Proof.
  induction n as [| n IH]; intros; [apply returns_ret|].
  cbn [cores_rows].
  repeat (apply returns_bind; intros;
          [first [apply returns_box_line | apply returns_emit] |]).
  apply IH.
Qed.

Lemma returns_calculate_cores (r : cpuinfo_read) : returns (calculate_cores r).
Proof. destruct r as [| chunks [|]]; eexists; reflexivity. Qed.

Lemma cores_panel_returns (max_frequency : Q) (current_row : Z)
    (cpuinfo : cpuinfo_read) :
  returns (cores_panel max_frequency current_row cpuinfo).
Proof.
  unfold cores_panel.
  apply returns_bind; [apply returns_calculate_cores | intros n].
  apply returns_bind; [| intros [[? ?] ?]; apply returns_ret].
  unfold coresGraph.
  apply returns_bind; [apply returns_emit | intros _].
  apply returns_bind; [apply returns_cores_rows | intros; apply returns_ret].
Qed.

(** C5, as the program has it.  With the cores panel enabled: when the
    frequency file cannot be opened, calculate_max_frequency returns 0 and
    the panel is drawn with that frequency, the run ending with status 0;
    when the file opens but holds no number, the function calls exit(1):
    nothing of the panel is drawn and the process ends with status 1. *)
Theorem max_frequency_failure (argsInfo : ArgsInfo) (host : Host) :
  cores_flag argsInfo = true ->
  (max_freq_file host = FreqOpenFail ->
   forall current_row,
   exists pos,
     result (cores_panel 0 current_row (cpuinfo_file host)) = Done pos
     /\ finish argsInfo current_row host
        = ((Eprintf ("Error reading the file" ++ NL)
            :: trace (cores_panel 0 current_row (cpuinfo_file host))
            ++ [Printf [CursorTo (row pos) (col pos)]])%list,
           Done 0))
  /\ (max_freq_file host = FreqUnparsed ->
      (forall current_row,
          finish argsInfo current_row host
          = ([Eprintf ("Error: failed to calculate max frequency" ++ NL)],
             Exited 1))
      /\ forall status, result (run argsInfo host) <> Done status).
Proof.
  intros Hc. split.
  - intros Hf current_row.
    destruct (cores_panel_returns 0 current_row (cpuinfo_file host))
      as [pos Hpos].
    exists pos. split; [exact Hpos|].
    unfold finish. rewrite Hc, Hf.
    cbn [calculate_max_frequency bind emit ret trace result fst snd app].
    rewrite (surjective_M (cores_panel 0 current_row (cpuinfo_file host))), Hpos.
    cbn [bind emit ret trace result fst snd app]. reflexivity.
  - intros Hf.
    assert (Hfin : forall current_row,
               finish argsInfo current_row host
               = ([Eprintf ("Error: failed to calculate max frequency" ++ NL)],
                  Exited 1)).
    { intros current_row. unfold finish. rewrite Hc, Hf. reflexivity. }
    split; [exact Hfin|].
    intros status. unfold run.
    match goal with |- context [bind ?m ?f] =>
      destruct (bind_cases m f) as [(r & _ & Hb) | (_ & _ & Hn)] end.
    + rewrite Hb, Hfin. discriminate.
    + apply Hn.
Qed.

Lemma max_frequency_failure_witness :
  cores_flag Sample.both_graphs = true
  /\ max_freq_file (Sample.host_with (fun _ => Sample.reads_ok) FreqUnparsed)
     = FreqUnparsed
  /\ finish Sample.both_graphs 29
       (Sample.host_with (fun _ => Sample.reads_ok) FreqUnparsed)
     = ([Eprintf ("Error: failed to calculate max frequency" ++ NL)], Exited 1)
  /\ max_freq_file (Sample.host_with (fun _ => Sample.reads_ok) FreqOpenFail)
     = FreqOpenFail
  /\ result (finish Sample.both_graphs 29
               (Sample.host_with (fun _ => Sample.reads_ok) FreqOpenFail))
     = Done 0.
Proof.
  destruct (max_frequency_failure Sample.both_graphs
              (Sample.host_with (fun _ => Sample.reads_ok) FreqUnparsed)
              eq_refl) as [_ Hu].
  destruct (max_frequency_failure Sample.both_graphs
              (Sample.host_with (fun _ => Sample.reads_ok) FreqOpenFail)
              eq_refl) as [Ho _].
  destruct (Ho eq_refl 29) as (pos & _ & Eo).
  split; [reflexivity|]. split; [reflexivity|].
  split; [exact (proj1 (Hu eq_refl) 29)|].
  split; [reflexivity|]. rewrite Eo. reflexivity.
Defined.

(** C5, as stated, fails: when the frequency file opens but cannot be
    parsed, the process terminates with status 1 after the sampling. *)
Lemma unparsed_frequency_exits :
  result (main ["prog"; "3"; "100"]
               (Sample.host_with (fun _ => Sample.reads_ok) FreqUnparsed))
  = Exited 1.
Proof. vm_compute. reflexivity. Qed.

(* A file that cannot be opened: the panel shows 0.00 GHz. *)
Example unopened_frequency_is_zero :
  In (Printf [CursorTo 32 1; Text "v Number of Cores: "; IntD 2; Text " @ ";
              Fixed 2 0; Text " GHz"; Text NL])
     (trace (main ["prog"; "3"; "100"]
                  (Sample.host_with (fun _ => Sample.reads_ok) FreqOpenFail)))
  /\ result (main ["prog"; "3"; "100"]
                  (Sample.host_with (fun _ => Sample.reads_ok) FreqOpenFail))
     = Done 0.
Proof. vm_compute. split; [| reflexivity]. tauto. Qed.

(** * Further properties *)

(** ** Leading white space *)

(** X1. removeWhiteSpace drops a prefix made of white-space characters only
    and returns the rest unchanged; the result does not begin with white
    space, so that applying the function again changes nothing. *)
Theorem removeWhiteSpace_drops_leading_spaces (str : string) :
  (exists ws, str = (ws ++ removeWhiteSpace str)%string /\ all_spaces ws = true)
  /\ starts_solid (removeWhiteSpace str)
  /\ removeWhiteSpace (removeWhiteSpace str) = removeWhiteSpace str.
Proof.
  unfold removeWhiteSpace.
  induction str as [| c r (Hws & Hsolid & Hidem)]; cbn [skip_spaces].
  - split; [exists ""; split; reflexivity|]. split; [exact I | reflexivity].
  - destruct (isspace c) eqn:E.
    + destruct Hws as (ws & Hr & Ha). split; [| split; assumption].
      exists (String c ws). cbn [append all_spaces]. rewrite E, Ha, <- Hr.
      split; reflexivity.
    + split; [exists ""; split; reflexivity|].
      split; [exact E|]. cbn [skip_spaces]. rewrite E. reflexivity.
Qed.

(** ** Positional arguments *)

Lemma scan_digits_all (s : string) :
  forall acc seen,
    all_digits s = true ->
    scan_digits s acc seen = (decimal s acc, seen || nonempty s, "").
Proof.
  induction s as [| c r IH]; intros acc seen H; cbn [scan_digits decimal nonempty].
  - rewrite orb_false_r. reflexivity.
  - cbn [all_digits] in H. destruct (isdigit c); [| discriminate].
    rewrite IH by exact H. rewrite orb_true_r. reflexivity.
Qed.

Lemma decimal_nonneg (s : string) :
  forall acc, all_digits s = true -> 0 <= acc -> 0 <= decimal s acc.
Proof.
  induction s as [| c r IH]; intros acc H Hacc; cbn [decimal]; [exact Hacc|].
  cbn [all_digits] in H. destruct (isdigit c) eqn:E; [| discriminate].
  apply IH; [exact H|]. unfold isdigit in E.
  apply andb_true_iff in E. destruct E as [E1 E2].
  apply Z.leb_le in E1, E2. lia.
Qed.

(* On a string of digits strtol converts all of it. *)
Lemma strtol_digits (s : string) :
  all_digits s = true -> strtol s = (clamp_long (decimal s 0), "").
Proof.
  intros H. destruct s as [| c r]; [reflexivity|].
  cbn [all_digits] in H. destruct (isdigit c) eqn:E; [| discriminate].
  unfold strtol. cbn [skip_spaces].
  assert (Hsp : isspace c = false).
  { unfold isdigit, isspace in *.
    apply andb_true_iff in E. destruct E as [E1 E2].
    apply Z.leb_le in E1, E2.
    apply orb_false_iff. split; [apply Z.eqb_neq; lia|].
    apply andb_false_iff. right. apply Z.leb_gt. lia. }
  rewrite Hsp.
  assert (Hsign : match String c r with
                  | String "-"%char r0 => (true, r0)
                  | String "+"%char r0 => (false, r0)
                  | _ => (false, String c r)
                  end = (false, String c r)).
  { destruct c as [[] [] [] [] [] [] [] []]; try reflexivity; discriminate. }
  rewrite Hsign. cbn [scan_digits]. rewrite E.
  rewrite scan_digits_all by exact H. cbn [decimal orb]. reflexivity.
Qed.

Lemma to_int_exact (z : Z) : INT_MIN <= z <= INT_MAX -> to_int z = z.
Proof.
  unfold to_int, INT_MIN, INT_MAX. intros H. rewrite Z.mod_small; lia.
Qed.

(** X2. Positional arguments made of digits only.  `prog s` is accepted
    exactly when the number s denotes is positive: the sample count becomes
    that number (cut at LONG_MAX by strtol, then converted to int), the delay
    keeps its default and the three panels are enabled; a zero value, which
    includes the empty string, is rejected.  `prog s d` sets the delay the
    same way and is rejected when either number is zero.  A count between 1
    and INT_MAX is stored as it is. *)
Theorem positional_arguments (prog s d : string) :
  all_digits s = true ->
  all_digits d = true ->
  let n := clamp_long (decimal s 0) in
  let m := clamp_long (decimal d 0) in
  parse [prog; s]
  = (if n <=? 0
     then ([Eprintf ("Error: invalid value for samples" ++ NL)],
           Done (-1, initializeArgument 2 [prog; s]))
     else ([], Done (0, positional_settings (to_int n) 500000 false [prog; s])))
  /\ parse [prog; s; d]
     = (if n <=? 0
        then ([Eprintf ("Error: invalid value for samples" ++ NL)],
              Done (-1, initializeArgument 3 [prog; s; d]))
        else if m <=? 0
        then ([Eprintf ("Error: invalid value for tdelay" ++ NL)],
              Done (-1, set_samples (initializeArgument 3 [prog; s; d])
                                    (to_int n)))
        else ([], Done (0, positional_settings (to_int n) (to_ulong m) true
                             [prog; s; d])))
  /\ (n <= 0 <-> decimal s 0 = 0)
  /\ (0 < decimal s 0 <= INT_MAX -> to_int n = decimal s 0).
Proof.
  intros Hs Hd n m.
  assert (Hn : 0 <= decimal s 0) by (apply decimal_nonneg; [exact Hs | lia]).
  split; [|split; [|split]].
  - unfold parse, processCommandLineArguments, isPositional.
    change (Z.of_nat (List.length [prog; s])) with 2.
    change (arg_at (initializeArgument 2 [prog; s]) 1) with s.
    change (2 =? 1) with false. change (2 <=? 2) with true. cbn [andb].
    rewrite Hs, (strtol_digits s Hs). fold n. cbn [nonempty orb].
    destruct (n <=? 0); reflexivity.
  - unfold parse, processCommandLineArguments, isPositional.
    change (Z.of_nat (List.length [prog; s; d])) with 3.
    change (arg_at (initializeArgument 3 [prog; s; d]) 1) with s.
    change (3 =? 1) with false. change (2 <=? 3) with true. cbn [andb].
    rewrite Hs, (strtol_digits s Hs). fold n. cbn [nonempty orb].
    destruct (n <=? 0); [reflexivity|].
    change (arg_at (set_samples (initializeArgument 3 [prog; s; d]) (to_int n)) 2)
      with d.
    change (3 <=? 3) with true. cbn [andb].
    rewrite Hd, (strtol_digits d Hd). fold m.
    cbn [nonempty orb]. destruct (m <=? 0); reflexivity.
  - subst n. unfold clamp_long, LONG_MIN, LONG_MAX.
    destruct (decimal s 0 <? -9223372036854775808) eqn:E1;
      [apply Z.ltb_lt in E1; lia|].
    destruct (9223372036854775807 <? decimal s 0) eqn:E2;
      [apply Z.ltb_lt in E2 | apply Z.ltb_ge in E2]; lia.
  - intros [H1 H2]. subst n. unfold INT_MAX in H2.
    unfold clamp_long, LONG_MIN, LONG_MAX.
    destruct (decimal s 0 <? -9223372036854775808) eqn:E1;
      [apply Z.ltb_lt in E1; lia|].
    destruct (9223372036854775807 <? decimal s 0) eqn:E2;
      [apply Z.ltb_lt in E2; lia|].
    apply to_int_exact. unfold INT_MIN, INT_MAX. lia.
Qed.

Lemma positional_arguments_witness :
  all_digits "30" = true
  /\ all_digits "1000000" = true
  /\ parse ["prog"; "30"; "1000000"]
     = ([], Done (0, positional_settings 30 1000000 true
                       ["prog"; "30"; "1000000"]))
  /\ parse ["prog"; "000"]
     = ([Eprintf ("Error: invalid value for samples" ++ NL)],
        Done (-1, initializeArgument 2 ["prog"; "000"])).
Proof.
  destruct (positional_arguments "prog" "30" "1000000" eq_refl eq_refl)
    as (_ & H2 & _).
  destruct (positional_arguments "prog" "000" "" eq_refl eq_refl)
    as (H1 & _).
  split; [reflexivity|]. split; [reflexivity|].
  split; [exact H2 | exact H1].
Defined.

(* strtol cuts the number at LONG_MAX and the conversion to int keeps its
   low 32 bits: 2^32 is accepted as a count of 0 samples. *)
Example count_wraps_to_zero :
  result (parse ["prog"; "4294967296"])
  = Done (0, positional_settings 0 500000 false ["prog"; "4294967296"]).
Proof. reflexivity. Qed.

(** ** What one flag does *)

Lemma samples_prefix_not_tdelay (x : string) :
  is_samples_flag x = true -> is_tdelay_flag x = false.
Proof.
  unfold is_samples_flag, is_tdelay_flag.
  destruct x as [| c1 [| c2 [| c3 r]]]; cbn [strncmp_eq];
    try (intros H; discriminate H); try (rewrite !andb_false_r; discriminate).
  intros H.
  apply andb_true_iff in H. destruct H as [H1 H].
  apply andb_true_iff in H. destruct H as [H2 H].
  apply andb_true_iff in H. destruct H as [H3 _].
  apply Ascii.eqb_eq in H1, H2, H3. subst. reflexivity.
Qed.

Lemma strlen_zero (x : string) : (strlen x =? 0) = true -> x = "".
Proof.
  destruct x; [reflexivity|]. unfold strlen. cbn [String.length].
  intros H. apply Z.eqb_eq in H. lia.
Qed.

Ltac flag_cases a i :=
  unfold isFlag;
  destruct (strlen (arg_at a i) =? 0) eqn:Elen;
  [| destruct (strcmp_eq (arg_at a i) "--memory") eqn:Emem;
     [| destruct (strcmp_eq (arg_at a i) "--cpu") eqn:Ecpu;
        [| destruct (strcmp_eq (arg_at a i) "--cores") eqn:Ecores;
           [| destruct (strncmp_eq (arg_at a i) "--samples=" 10) eqn:Esam;
              [ destruct (negb (nonempty (advance 10 (arg_at a i)))) eqn:Ev;
                [| destruct (updated_sample a) eqn:Eus;
                   [| destruct (strtol (removeWhiteSpace
                                          (advance 10 (arg_at a i))))
                        as [value endptr] eqn:Est;
                      destruct (nonempty endptr || (value <=? 0)) eqn:Eok ]]
              | destruct (strncmp_eq (arg_at a i) "--tdelay=" 9) eqn:Etd;
                [ destruct (negb (nonempty (advance 9 (arg_at a i)))) eqn:Ev;
                  [| destruct (updated_tdelay a) eqn:Eut;
                     [| destruct (strtol (removeWhiteSpace
                                            (advance 9 (arg_at a i))))
                          as [value endptr] eqn:Est;
                        destruct (nonempty endptr || (value <=? 0)) eqn:Eok ]]
                | ]]]]]].

Lemma isFlag_effect (a : ArgsInfo) (i : Z) :
  exists out ok a',
    isFlag a i = (out, Done (ok, a'))
    /\ flag_effect (arg_at a i) a ok a'
    /\ (ok = false -> a' = a).
Proof.
  pose proof (samples_prefix_not_tdelay (arg_at a i)) as Hex.
  unfold flag_effect, flag_form, is_samples_flag, is_tdelay_flag in *.
  flag_cases a i;
    try (apply strlen_zero in Elen; rewrite Elen in * );
    try (apply String.eqb_eq in Emem; rewrite Emem in * );
    try (apply String.eqb_eq in Ecpu; rewrite Ecpu in * );
    try (apply String.eqb_eq in Ecores; rewrite Ecores in * );
    unfold strcmp_eq in *;
    try rewrite (Hex eq_refl);
    eexists _, _, _; (split; [reflexivity|]);
    cbn [argv memory_flag cpu_flag cores_flag updated_sample updated_tdelay
         set_memory_flag set_cpu_flag set_cores_flag set_samples set_tdelay];
    repeat match goal with
           | H : ?x = _ |- context [?x] => rewrite H
           end;
    cbn [andb orb String.eqb Ascii.eqb Bool.eqb strncmp_eq];
    rewrite ?orb_false_r, ?orb_true_r;
    repeat split; auto; try discriminate; try congruence;
    try (intros; discriminate).
Qed.

(** ** What the loop over the flags does *)

Lemma loop_effect_nil (a : ArgsInfo) : loop_effect [] a a.
Proof.
  unfold loop_effect. cbn [existsb filter List.length forallb].
  rewrite !orb_false_r. repeat split; try reflexivity.
  - destruct (updated_sample a); cbn; lia.
  - destruct (updated_tdelay a); cbn; lia.
Qed.

Lemma loop_effect_cons (x : string) (rest : list string) (a a1 a' : ArgsInfo) :
  flag_effect x a true a1 -> loop_effect rest a1 a' ->
  loop_effect (x :: rest) a a'.
Proof.
  intros (Hv & Hm & Hc & Hk & Hs & Ht & Hs1 & Ht1 & Hform)
         (Hv' & Hm' & Hc' & Hk' & Hs' & Ht' & Hns & Hnt & Hforms).
  cbn [andb] in Hs, Ht.
  unfold loop_effect. cbn [existsb filter forallb].
  rewrite (Hform eq_refl), Hforms.
  rewrite Hv', Hm', Hc', Hk', Hs', Ht', Hv, Hm, Hc, Hk, Hs, Ht, !orb_assoc.
  repeat split; try reflexivity.
  - rewrite Hs in Hns. destruct (is_samples_flag x) eqn:E.
    + destruct (updated_sample a); [specialize (Hs1 eq_refl eq_refl);
                                     discriminate|].
      cbn in *. lia.
    + rewrite orb_false_r in Hns. exact Hns.
  - rewrite Ht in Hnt. destruct (is_tdelay_flag x) eqn:E.
    + destruct (updated_tdelay a); [specialize (Ht1 eq_refl eq_refl);
                                     discriminate|].
      cbn in *. lia.
    + rewrite orb_false_r in Hnt. exact Hnt.
Qed.

Lemma skipn_cons_nth {A} (l : list A) :
  forall n x r d, skipn n l = x :: r -> nth n l d = x /\ skipn (S n) l = r.
Proof.
  induction l as [| y l IH]; intros n x r d H.
  - destruct n; discriminate.
  - destruct n as [| n]; cbn [skipn nth] in *.
    + injection H as -> ->. split; reflexivity.
    + apply IH. exact H.
Qed.

Lemma flag_loop_effect (n : nat) :
  forall i a rest,
    0 <= i ->
    skipn (Z.to_nat i) (argv a) = rest ->
    List.length rest = n ->
    exists out rc a',
      flag_loop n i a = (out, Done (rc, a'))
      /\ ((rc = 0 /\ loop_effect rest a a')
          \/ (rc = -1 /\ ends_with_diagnostic out)).
Proof.
  induction n as [| n IH]; intros i a rest Hi Hrest Hlen.
  - destruct rest; [| discriminate].
    exists [], 0, a. split; [reflexivity|]. left.
    split; [reflexivity | apply loop_effect_nil].
  - destruct rest as [| x rest]; [discriminate|].
    destruct (skipn_cons_nth _ _ _ _ "" Hrest) as [Hx Hnext].
    fold (arg_at a i) in Hx.
    destruct (isFlag_effect a i) as (out & ok & a1 & Ef & Heff & Hno).
    rewrite Hx in Heff. cbn [flag_loop]. rewrite Ef.
    cbn [bind trace result fst snd]. destruct ok.
    + assert (Hv : argv a1 = argv a) by apply Heff.
      destruct (IH (i + 1) a1 rest) as (out2 & rc & a' & El & Hl).
      * lia.
      * rewrite Hv. replace (Z.to_nat (i + 1)) with (S (Z.to_nat i)) by lia.
        exact Hnext.
      * cbn [List.length] in Hlen. lia.
      * rewrite El. cbn [trace result fst snd].
        exists (out ++ out2)%list, rc, a'. split; [reflexivity|].
        destruct Hl as [[-> Hl] | [-> (o & msg & ->)]].
        -- left. split; [reflexivity|].
           eapply loop_effect_cons; eassumption.
        -- right. split; [reflexivity|].
           exists (out ++ o)%list, msg. rewrite app_assoc. reflexivity.
    + cbn [emit bind ret trace result fst snd app].
      eexists _, _, _. split; [reflexivity|]. right.
      split; [reflexivity|]. eexists out, _. reflexivity.
Qed.

(** ** The command line as a whole *)

Lemma digits_not_flags (x : string) :
  all_digits x = true ->
  String.eqb x "--memory" = false /\ String.eqb x "--cpu" = false
  /\ String.eqb x "--cores" = false
  /\ is_samples_flag x = false /\ is_tdelay_flag x = false.
Proof.
  destruct x as [| c r]; [repeat split; reflexivity|].
  cbn [all_digits]. destruct (isdigit c) eqn:E; [| discriminate]. intros _.
  assert (Hc : Ascii.eqb c "-" = false).
  { destruct c as [[] [] [] [] [] [] [] []]; try reflexivity; discriminate. }
  unfold is_samples_flag, is_tdelay_flag.
  cbn [String.eqb strncmp_eq]. rewrite Hc. repeat split; reflexivity.
Qed.

Lemma default_panels_flags (a : ArgsInfo) :
  let none := negb (memory_flag a || cpu_flag a || cores_flag a) in
  argv (default_panels a) = argv a
  /\ memory_flag (default_panels a) = memory_flag a || none
  /\ cpu_flag (default_panels a) = cpu_flag a || none
  /\ cores_flag (default_panels a) = cores_flag a || none
  /\ updated_sample (default_panels a) = updated_sample a
  /\ updated_tdelay (default_panels a) = updated_tdelay a.
Proof.
  unfold default_panels.
  destruct (memory_flag a) eqn:Em, (cpu_flag a) eqn:Ec, (cores_flag a) eqn:Ek;
    cbn; rewrite ?Em, ?Ec, ?Ek; repeat split; reflexivity.
Qed.

(* The loop ran over [window], the arguments after the [skipped]
   positional ones, from settings [a0] with no panel enabled. *)
Lemma accepted_after_loop (line skipped window : list string)
    (a0 a' : ArgsInfo) :
  tl line = (skipped ++ window)%list ->
  Forall (fun x => all_digits x = true) skipped ->
  List.length skipped
  = (Nat.b2n (positional_samples line) + Nat.b2n (positional_tdelay line))%nat ->
  argv a0 = line ->
  memory_flag a0 = false -> cpu_flag a0 = false -> cores_flag a0 = false ->
  updated_sample a0 = positional_samples line ->
  updated_tdelay a0 = positional_tdelay line ->
  loop_effect window a0 a' ->
  accepted line (default_panels a').
Proof.
  intros Htl Hsk Hlen Hv Hm Hc Hk Hs Ht
         (Hv' & Hm' & Hc' & Hk' & Hs' & Ht' & Hns & Hnt & Hforms).
  assert (Hwin : skipn (Nat.b2n (positional_samples line)
                        + Nat.b2n (positional_tdelay line)) (tl line) = window).
  { rewrite Htl, <- Hlen, skipn_app, skipn_all, Nat.sub_diag. reflexivity. }
  assert (Hex : forall f,
             (forall x, all_digits x = true -> f x = false) ->
             existsb f (tl line) = existsb f window
             /\ filter f (tl line) = filter f window).
  { intros f Hf. rewrite Htl. clear Htl Hlen.
    induction Hsk as [| x l Hx _ IH]; [split; reflexivity|].
    cbn [app existsb filter]. rewrite (Hf x Hx). exact IH. }
  destruct (Hex (fun x => String.eqb x "--memory")) as [E1 _];
    [intros x Hx; apply (digits_not_flags x Hx)|].
  destruct (Hex (fun x => String.eqb x "--cpu")) as [E2 _];
    [intros x Hx; apply (digits_not_flags x Hx)|].
  destruct (Hex (fun x => String.eqb x "--cores")) as [E3 _];
    [intros x Hx; apply (digits_not_flags x Hx)|].
  destruct (Hex is_samples_flag) as [E4 F4];
    [intros x Hx; apply (digits_not_flags x Hx)|].
  destruct (Hex is_tdelay_flag) as [E5 F5];
    [intros x Hx; apply (digits_not_flags x Hx)|].
  destruct (default_panels_flags a') as (Dv & Dm & Dc & Dk & Ds & Dt).
  unfold accepted, no_panel_named, named.
  rewrite Hwin.
  rewrite Dv, Dm, Dc, Dk, Ds, Dt, Hv', Hm', Hc', Hk', Hs', Ht',
    Hv, Hm, Hc, Hk, Hs, Ht, E1, E2, E3, E4, E5, F4, F5.
  cbn [orb]. rewrite <- Hs, <- Ht.
  repeat split; try reflexivity; assumption.
Qed.

Ltac run_flag_loop window :=
  match goal with
  | |- context [flag_loop ?n ?i ?a] =>
      let out := fresh "out" in
      let rc := fresh "rc" in
      let a' := fresh "a'" in
      let El := fresh "El" in
      let Hl := fresh "Hl" in
      destruct (flag_loop_effect n i a window) as (out & rc & a' & El & Hl);
      [ lia | reflexivity | cbn [List.length]; lia
      | rewrite El; cbn [bind emit ret trace result fst snd app];
        destruct Hl as [[-> Hl] | [-> Hl]];
        cbn [Z.eqb Pos.eqb bind emit ret trace result fst snd app];
        rewrite ?app_nil_r ]
  end.

Lemma parse_summary (line : list string) :
  exists out rc a,
    parse line = (out, Done (rc, a))
    /\ ((rc = 0 /\ accepted line a)
        \/ (rc = -1 /\ ends_with_diagnostic out)).
Proof.
  destruct line as [| p [| s rest]].
  - eexists _, _, _. split; [reflexivity|]. left. split; [reflexivity|].
    repeat split; cbn; lia.
  - eexists _, _, _. split; [reflexivity|]. left. split; [reflexivity|].
    repeat split; cbn; lia.
  - unfold parse, processCommandLineArguments, isPositional.
    set (argc := Z.of_nat (List.length (p :: s :: rest))).
    assert (Hargc : argc = Z.of_nat (List.length rest) + 2)
      by (unfold argc; cbn [List.length]; lia).
    replace (argc =? 1) with false by (symmetry; apply Z.eqb_neq; lia).
    replace (2 <=? argc) with true by (symmetry; apply Z.leb_le; lia).
    change (arg_at (initializeArgument argc (p :: s :: rest)) 1) with s.
    cbn [andb]. destruct (all_digits s) eqn:Es.
    + rewrite (strtol_digits s Es). cbn [nonempty orb].
      destruct (clamp_long (decimal s 0) <=? 0).
      { eexists _, _, _. split; [reflexivity|]. right.
        split; [reflexivity|]. eexists [], _. reflexivity. }
      destruct rest as [| d rest]; cbn [List.length] in Hargc.
      * replace (3 <=? argc) with false
          by (symmetry; apply Z.leb_gt; cbn [List.length] in Hargc; lia).
        cbn [andb bind emit ret trace result fst snd app Z.eqb Pos.eqb].
        run_flag_loop (@nil string).
        -- eexists _, _, _. split; [reflexivity|]. left.
           split; [reflexivity|].
           refine (accepted_after_loop [p; s] [s] []
                  _ _ _ _ _ _ _ _ _ _ _ Hl);
                try reflexivity;
                try (repeat constructor; assumption);
                cbn; rewrite ?Es, ?Ed; try reflexivity;
                destruct rest; reflexivity.
        -- eexists _, _, _. split; [reflexivity|]. right.
           split; [reflexivity | exact Hl].
      * replace (3 <=? argc) with true
          by (symmetry; apply Z.leb_le; cbn [List.length] in Hargc; lia).
        match goal with
        | |- context [arg_at ?a 2] => change (arg_at a 2) with d
        end.
        cbn [andb]. destruct (all_digits d) eqn:Ed.
        -- rewrite (strtol_digits d Ed). cbn [nonempty orb].
           destruct (clamp_long (decimal d 0) <=? 0).
           { eexists _, _, _. split; [reflexivity|]. right.
             split; [reflexivity|]. eexists [], _. reflexivity. }
           cbn [andb bind emit ret trace result fst snd app Z.eqb Pos.eqb].
           run_flag_loop rest.
           ++ eexists _, _, _. split; [reflexivity|]. left.
              split; [reflexivity|].
              refine (accepted_after_loop (p :: s :: d :: rest) [s; d] rest
                  _ _ _ _ _ _ _ _ _ _ _ Hl);
                try reflexivity;
                try (repeat constructor; assumption);
                cbn; rewrite ?Es, ?Ed; try reflexivity;
                destruct rest; reflexivity.
           ++ eexists _, _, _. split; [reflexivity|]. right.
              split; [reflexivity | exact Hl].
        -- cbn [andb bind emit ret trace result fst snd app Z.eqb Pos.eqb].
           run_flag_loop (d :: rest).
           ++ eexists _, _, _. split; [reflexivity|]. left.
              split; [reflexivity|].
              refine (accepted_after_loop (p :: s :: d :: rest) [s] (d :: rest)
                  _ _ _ _ _ _ _ _ _ _ _ Hl);
                try reflexivity;
                try (repeat constructor; assumption);
                cbn; rewrite ?Es, ?Ed; try reflexivity;
                destruct rest; reflexivity.
           ++ eexists _, _, _. split; [reflexivity|]. right.
              split; [reflexivity | exact Hl].
    + cbn [andb bind emit ret trace result fst snd app Z.eqb Pos.eqb].
      run_flag_loop (s :: rest).
      * eexists _, _, _. split; [reflexivity|]. left.
        split; [reflexivity|].
        refine (accepted_after_loop (p :: s :: rest) [] (s :: rest)
            _ _ _ _ _ _ _ _ _ _ _ Hl);
          try reflexivity;
          try (repeat constructor; assumption);
          cbn; rewrite ?Es, ?Ed; try reflexivity;
          destruct rest; reflexivity.
      * eexists _, _, _. split; [reflexivity|]. right.
        split; [reflexivity | exact Hl].
Qed.

Lemma parse_accepted (line : list string) out a :
  parse line = (out, Done (0, a)) -> accepted line a.
Proof.
  intros H. destruct (parse_summary line) as (o & rc & a0 & E & Hs).
  rewrite E in H. injection H as _ -> ->.
  destruct Hs as [[_ Hs] | [Hrc _]]; [exact Hs | discriminate].
Qed.

(** X3. The panels of an accepted command line: a panel is enabled exactly
    when its flag occurs among the arguments, or when none of --memory,
    --cpu and --cores occurs; so at least one panel is always enabled, and
    giving a flag twice is the same as giving it once. *)
Theorem panels_follow_flags (line : list string) out (a : ArgsInfo) :
  parse line = (out, Done (0, a)) ->
  memory_flag a = named "--memory" line || no_panel_named line
  /\ cpu_flag a = named "--cpu" line || no_panel_named line
  /\ cores_flag a = named "--cores" line || no_panel_named line
  /\ memory_flag a || cpu_flag a || cores_flag a = true.
Proof.
  intros H. destruct (parse_accepted line out a H)
    as (_ & Hm & Hc & Hk & _).
  rewrite Hm, Hc, Hk. repeat split; try reflexivity.
  unfold no_panel_named.
  destruct (named "--memory" line), (named "--cpu" line),
    (named "--cores" line); reflexivity.
Qed.

Lemma panels_follow_flags_witness :
  parse ["prog"; "--cores"; "7"; "--cores"] = 
    ([Eprintf ("Error: Unknown argument" ++ NL)],
     Done (-1, set_cores_flag
                 (initializeArgument 4 ["prog"; "--cores"; "7"; "--cores"])
                 true))
  /\ exists out a,
      parse ["prog"; "5"; "--cores"; "--memory"; "--cores"] = (out, Done (0, a))
      /\ memory_flag a = true /\ cpu_flag a = false /\ cores_flag a = true.
Proof.
  split; [reflexivity|].
  eexists _, _. split; [reflexivity|].
  destruct (panels_follow_flags
              ["prog"; "5"; "--cores"; "--memory"; "--cores"] _ _ eq_refl)
    as (Hm & Hc & Hk & _).
  split; [exact Hm|]. split; [exact Hc | exact Hk].
Defined.

(** X4. An accepted command line gives the sample count at most once,
    either as the first positional argument or by a single --samples= flag,
    and the delay at most once in the same way: a second source makes isFlag
    refuse the argument.  updated_sample and updated_tdelay record whether
    a source was given. *)
Theorem each_setting_given_once (line : list string) out (a : ArgsInfo) :
  parse line = (out, Done (0, a)) ->
  (List.length (filter is_samples_flag (tl line))
   + Nat.b2n (positional_samples line) <= 1)%nat
  /\ (List.length (filter is_tdelay_flag (tl line))
      + Nat.b2n (positional_tdelay line) <= 1)%nat
  /\ updated_sample a
     = positional_samples line || existsb is_samples_flag (tl line)
  /\ updated_tdelay a
     = positional_tdelay line || existsb is_tdelay_flag (tl line).
Proof.
  intros H. destruct (parse_accepted line out a H)
    as (_ & _ & _ & _ & Hs & Ht & Hns & Hnt & _).
  repeat split; assumption.
Qed.

Lemma each_setting_given_once_witness :
  exists out a,
    parse ["prog"; "--tdelay=100"; "--samples=5"] = (out, Done (0, a))
    /\ (List.length (filter is_samples_flag ["--tdelay=100"; "--samples=5"])
        + Nat.b2n (positional_samples
                     ["prog"; "--tdelay=100"; "--samples=5"]) <= 1)%nat
    /\ updated_sample a = true /\ updated_tdelay a = true.
Proof.
  eexists _, _. split; [reflexivity|].
  destruct (each_setting_given_once
              ["prog"; "--tdelay=100"; "--samples=5"] _ _ eq_refl)
    as (Hns & _ & Hs & Ht).
  split; [exact Hns|]. split; [exact Hs | exact Ht].
Defined.

(* Both sources at once, in either form, are refused. *)
Example second_source_refused :
  (exists out a, parse ["prog"; "5"; "--samples=7"] = (out, Done (-1, a)))
  /\ (exists out a,
        parse ["prog"; "5"; "100"; "--cpu"; "--tdelay=7"] = (out, Done (-1, a)))
  /\ (exists out a,
        parse ["prog"; "--tdelay=7"; "--cpu"; "--tdelay=7"]
        = (out, Done (-1, a))).
Proof. repeat split; eexists _, _; reflexivity. Qed.

(** X5. Every command line is either accepted or rejected.  When it is
    rejected the last thing the parser wrote is a diagnostic on stderr and
    [main] stops there with exit status 1: nothing is read from the host and
    nothing is drawn.  When it is accepted [main] goes on with the run, on
    the settings the parser returned. *)
Theorem rejected_before_any_drawing (line : list string) (host : Host) :
  exists out rc a,
    parse line = (out, Done (rc, a))
    /\ ((rc = 0 /\ argv a = line
         /\ main line host
            = ((out ++ trace (run a host))%list, result (run a host)))
        \/ (rc = -1 /\ ends_with_diagnostic out
            /\ main line host = (out, Exited 1))).
Proof.
  destruct (parse_summary line) as (out & rc & a & E & Hs).
  exists out, rc, a. split; [exact E|].
  destruct Hs as [[-> Ha] | [-> Hd]].
  - left. split; [reflexivity|]. split; [apply Ha|].
    unfold main. fold (parse line). rewrite E. reflexivity.
  - right. split; [reflexivity|]. split; [exact Hd|].
    apply main_rejects with (a := a). exact E.
Qed.

(** X6. Positional arguments come first: in an accepted command line every
    argument after the leading sample count and delay has one of the five
    flag forms, so a number that follows a flag is refused. *)
Theorem flags_follow_positionals (line : list string) out (a : ArgsInfo) :
  parse line = (out, Done (0, a)) ->
  forallb flag_form
    (skipn (Nat.b2n (positional_samples line)
            + Nat.b2n (positional_tdelay line)) (tl line)) = true.
Proof.
  intros H. apply (parse_accepted line out a H).
Qed.

Lemma flags_follow_positionals_witness :
  exists out a,
    parse ["prog"; "5"; "100"; "--cpu"; "--cores"] = (out, Done (0, a))
    /\ forallb flag_form ["--cpu"; "--cores"] = true.
Proof.
  eexists _, _. split; [reflexivity|].
  exact (flags_follow_positionals
           ["prog"; "5"; "100"; "--cpu"; "--cores"] _ _ eq_refl).
Defined.

Example number_after_flag_refused :
  parse ["prog"; "--cpu"; "5"]
  = ([Eprintf ("Error: Unknown argument" ++ NL)],
     Done (-1, set_cpu_flag (initializeArgument 3 ["prog"; "--cpu"; "5"]) true)).
Proof. reflexivity. Qed.

(** ** Memory figures *)

Lemma to_ulong_range (z : Z) : 0 <= to_ulong z < 18446744073709551616.
Proof. unfold to_ulong. apply Z.mod_pos_bound. lia. Qed.

Lemma gigabytes_nonneg (count unit : Z) : (0 <= gigabytes count unit)%Q.
Proof.
  unfold gigabytes. apply Qle_shift_div_l; [reflexivity|].
  rewrite Qmult_0_l. change 0%Q with (inject_Z 0). rewrite <- Zle_Qle.
  apply to_ulong_range.
Qed.

Lemma gigabytes_le (c1 u1 c2 u2 : Z) :
  to_ulong (c1 * u1) <= to_ulong (c2 * u2) ->
  (gigabytes c1 u1 <= gigabytes c2 u2)%Q.
Proof.
  intros H. unfold gigabytes. apply Qmult_le_compat_r.
  - rewrite <- Zle_Qle. exact H.
  - discriminate.
Qed.

Lemma gigabytes_pos (count unit : Z) :
  0 < to_ulong (count * unit) -> (0 < gigabytes count unit)%Q.
Proof.
  intros H. unfold gigabytes. apply Qlt_shift_div_l; [reflexivity|].
  rewrite Qmult_0_l. change 0%Q with (inject_Z 0). rewrite <- Zlt_Qlt.
  exact H.
Qed.

Lemma get_total_memory_some (i : sysinfo_t) :
  get_total_memory (Some i) = ([], Done (gigabytes (totalram i) (mem_unit i))).
Proof.
  pose proof (gigabytes_nonneg (totalram i) (mem_unit i)) as H.
  unfold get_total_memory. fold (gigabytes (totalram i) (mem_unit i)).
  unfold Qlt_bool. apply Qle_bool_iff in H. rewrite H. reflexivity.
Qed.

(** X7. When sysinfo succeeds get_total_memory returns the byte count
    totalram * mem_unit, taken modulo 2^64 as the unsigned product is,
    divided by 2^30.  The value is never negative, so the function never
    prints its "Total memory cannot be negative" diagnostic: it writes
    nothing at all.  When sysinfo fails it prints a diagnostic and calls
    exit(1). *)
Theorem total_memory_never_negative (info : option sysinfo_t) :
  match info with
  | Some i =>
      get_total_memory info
      = ([], Done (gigabytes (totalram i) (mem_unit i)))
      /\ (0 <= gigabytes (totalram i) (mem_unit i))%Q
  | None =>
      get_total_memory info
      = ([Eprintf ("Error: Cannot read system memory information" ++ NL)],
         Exited 1)
  end.
Proof.
  destruct info as [i|]; [| reflexivity].
  split; [apply get_total_memory_some | apply gigabytes_nonneg].
Qed.

(* Between 0 and 10, a quotient is cut to an integer from 0 to 10. *)
Lemma Qtrunc_within (q : Q) (n : Z) :
  (0 <= q)%Q -> (q <= inject_Z n)%Q -> 0 <= Qtrunc q <= n.
Proof.
  destruct q as [num den]. unfold Qle, Qtrunc. cbn [Qnum Qden inject_Z].
  intros H0 Hn. rewrite Z.mul_1_r in H0. rewrite Z.mul_0_l in H0.
  rewrite Z.mul_1_r in Hn.
  rewrite Z.quot_div_nonneg by lia. split.
  - apply Z.div_pos; lia.
  - apply Z.div_le_upper_bound; lia.
Qed.

(** X8. The memory panel stays inside its ten rows.  With the scaling
    factor the panel was created with (total memory over 10, the total
    being positive), and sysinfo reporting that same total and no more free
    memory than that, an iteration plots used = total - free at an offset
    between 0 and 10 rows: the conversion to int is defined, the iteration
    completes, and nothing is written to stderr. *)
Theorem memory_glyph_within_panel (lay : Layout) (st : LoopState)
    (inp : tick_input) (own nested : sysinfo_t) :
  used_sysinfo inp = Some own ->
  total_sysinfo inp = Some nested ->
  scaling_factor lay
    = (gigabytes (totalram nested) (mem_unit nested) / inject_Z 10)%Q ->
  0 < to_ulong (totalram nested * mem_unit nested) ->
  to_ulong (freeram own * mem_unit own)
    <= to_ulong (totalram nested * mem_unit nested) ->
  let used := (gigabytes (totalram nested) (mem_unit nested)
               - gigabytes (freeram own) (mem_unit own))%Q in
  let offset := Qtrunc (used / scaling_factor lay) in
  0 <= offset <= 10
  /\ (0 <= used)%Q
  /\ memory_tick lay st inp
     = (memory_panel_output lay st used offset, Done (after_memory st)).
Proof.
  intros Ho Hn Hs Hpos Hfree used offset.
  pose proof (gigabytes_pos _ _ Hpos) as Ht.
  pose proof (gigabytes_nonneg (freeram own) (mem_unit own)) as Hf0.
  pose proof (gigabytes_le _ _ _ _ Hfree) as Hft.
  set (total := gigabytes (totalram nested) (mem_unit nested)) in *.
  set (free := gigabytes (freeram own) (mem_unit own)) in *.
  assert (Hscale : (0 < scaling_factor lay)%Q).
  { rewrite Hs. apply Qlt_shift_div_l; [reflexivity|]. lra. }
  assert (Hu : (0 <= used)%Q) by (unfold used; lra).
  assert (Hq0 : (0 <= used / scaling_factor lay)%Q).
  { apply Qle_shift_div_l; [exact Hscale | lra]. }
  assert (Hq10 : (used / scaling_factor lay <= inject_Z 10)%Q).
  { apply Qle_shift_div_r; [exact Hscale|].
    rewrite Hs. change (inject_Z 10) with 10%Q. unfold used.
    setoid_replace (10 * (total / 10))%Q with total by field. lra. }
  pose proof (Qtrunc_within _ 10 Hq0 Hq10) as Hoff. fold offset in Hoff.
  split; [exact Hoff|]. split; [exact Hu|].
  assert (Hused : calculate_memory_used (used_sysinfo inp) (total_sysinfo inp)
                  = ([], Done used)).
  { rewrite Ho, Hn. unfold calculate_memory_used.
    rewrite get_total_memory_some. reflexivity. }
  rewrite (memory_tick_done lay st inp [] used Hused).
  - reflexivity.
  - intros H. rewrite H in Hscale. apply (Qlt_irrefl 0). exact Hscale.
  - unfold in_int, INT_MIN, INT_MAX. fold offset.
    apply andb_true_iff. split; apply Z.leb_le; lia.
Qed.

Lemma memory_glyph_within_panel_witness :
  used_sysinfo Sample.reads_ok = Some Sample.sysinfo_20g
  /\ total_sysinfo Sample.reads_ok = Some Sample.sysinfo_20g
  /\ 0 < to_ulong (totalram Sample.sysinfo_20g * mem_unit Sample.sysinfo_20g)
  /\ to_ulong (freeram Sample.sysinfo_20g * mem_unit Sample.sysinfo_20g)
     <= to_ulong (totalram Sample.sysinfo_20g * mem_unit Sample.sysinfo_20g)
  /\ 0 <= Qtrunc (Sample.used_gb / scaling_factor Sample.layout) <= 10
  /\ memory_tick Sample.layout Sample.state Sample.reads_ok
     = (memory_panel_output Sample.layout Sample.state Sample.used_gb
          (Qtrunc (Sample.used_gb / scaling_factor Sample.layout)),
        Done (after_memory Sample.state)).
Proof.
  assert (H1 : 0 < to_ulong (totalram Sample.sysinfo_20g
                             * mem_unit Sample.sysinfo_20g)) by reflexivity.
  assert (H2 : to_ulong (freeram Sample.sysinfo_20g
                         * mem_unit Sample.sysinfo_20g)
               <= to_ulong (totalram Sample.sysinfo_20g
                            * mem_unit Sample.sysinfo_20g))
    by (apply Z.leb_le; reflexivity).
  destruct (memory_glyph_within_panel Sample.layout Sample.state
              Sample.reads_ok Sample.sysinfo_20g Sample.sysinfo_20g
              eq_refl eq_refl eq_refl H1 H2) as (Hoff & _ & E).
  split; [reflexivity|]. split; [reflexivity|].
  split; [exact H1|]. split; [exact H2|].
  split; [exact Hoff | exact E].
Defined.

(** ** The CPU panel over nondecreasing counters *)

(** X9. The CPU panel stays inside its eleven rows.  When the counters
    read are whole numbers whose sum is at most 2^53, and the tracker is
    fresh or holds the totals of such a snapshot none of whose counters
    exceeds the one now read, the value plotted is between 0 and 100 (0, or
    the ratio of two whole deltas times 100) and its glyph goes to an
    offset between 0 and 10 rows: the conversion to int is defined, the
    iteration completes and the tracker holds the new totals. *)
Theorem cpu_glyph_within_panel (lay : Layout) (st : LoopState)
    (inp : tick_input) (s : CpuSnapshot) :
  proc_stat inp = good_read s ->
  exactly_summed s ->
  tracks (tracker st) s ->
  exists v tr,
    in_percent_range v
    /\ percent_of_whole_deltas v
    /\ 0 <= Qtrunc (v / 10) <= 10
    /\ cpu_tick lay st inp
       = (cpu_panel_output lay st v (Qtrunc (v / 10)), Done (after_cpu st tr))
    /\ preTotalCPU tr = snapshot_total s
    /\ preIdleCPU tr = snapshot_idle s.
Proof.
  intros Hp Hs Htr.
  destruct (tracked_call (tracker st) s Htr Hs)
    as (v & tr & E & [Hv0 Hv100] & Hw & HT & HI).
  exists v, tr.
  assert (Hoff : 0 <= Qtrunc (v / 10) <= 10).
  { apply Qtrunc_within.
    - apply Qle_shift_div_l; [reflexivity | lra].
    - apply Qle_shift_div_r; [reflexivity|].
      change (inject_Z 10) with 10%Q. lra. }
  split; [split; assumption|]. split; [exact Hw|]. split; [exact Hoff|].
  split; [| split; assumption].
  rewrite <- Hp in E. rewrite (cpu_tick_done lay st inp [] v tr E).
  - reflexivity.
  - unfold in_int, INT_MIN, INT_MAX.
    apply andb_true_iff. split; apply Z.leb_le; lia.
Qed.

Lemma cpu_glyph_within_panel_witness :
  proc_stat Sample.reads_ok = good_read Sample.busy96
  /\ exactly_summed Sample.busy96
  /\ tracks (tracker Sample.state) Sample.busy96
  /\ exists v tr,
      in_percent_range v
      /\ percent_of_whole_deltas v
      /\ 0 <= Qtrunc (v / 10) <= 10
      /\ cpu_tick Sample.layout Sample.state Sample.reads_ok
         = (cpu_panel_output Sample.layout Sample.state v (Qtrunc (v / 10)),
            Done (after_cpu Sample.state tr))
      /\ preTotalCPU tr = snapshot_total Sample.busy96
      /\ preIdleCPU tr = snapshot_idle Sample.busy96.
Proof.
  assert (Hs : exactly_summed Sample.busy96)
    by (apply sample_counters_exact; unfold EXACT_MAX; lia).
  assert (H : tracks (tracker Sample.state) Sample.busy96).
  { right. exists Sample.earlier.
    split; [apply sample_counters_exact; unfold EXACT_MAX; lia|].
    split; [reflexivity|]. split; [reflexivity|].
    unfold snapshot_le. cbn. repeat split; unfold Qle; cbn; lia. }
  split; [reflexivity|]. split; [exact Hs|]. split; [exact H|].
  exact (cpu_glyph_within_panel Sample.layout Sample.state Sample.reads_ok
           Sample.busy96 eq_refl Hs H).
Defined.

(** ** Failed reads of /proc/stat *)

(** X10. A call whose read fails, at fopen or at fclose, returns 0 or -1
    and leaves the tracker as it was, even though the snapshot was scanned
    before the failed fclose.  So failed calls do not disturb the window:
    the calls that follow return what they would have returned without
    them. *)
Theorem failed_reads_keep_the_window (t : CpuTracker)
    (fails rest : list stat_read) :
  forallb failed_read fails = true ->
  utilizations t (fails ++ rest)
  = (map failure_value fails ++ utilizations t rest)%list.
Proof.
  induction fails as [| r fails IH]; intros H; [reflexivity|].
  cbn [forallb] in H. apply andb_true_iff in H. destruct H as [Hr H].
  cbn [app map utilizations].
  destruct r as [| s [|]]; try discriminate;
    cbn [calculate_cpu_utilization negb bind emit ret result trace fst snd];
    rewrite (IH H); reflexivity.
Qed.

Lemma failed_reads_keep_the_window_witness :
  forallb failed_read [StatOpenFail; StatRead Sample.iowait_low false] = true
  /\ utilizations (slid Sample.earlier)
       [StatOpenFail; StatRead Sample.iowait_low false;
        good_read Sample.later]
     = (map failure_value [StatOpenFail; StatRead Sample.iowait_low false]
        ++ utilizations (slid Sample.earlier) [good_read Sample.later])%list.
Proof.
  split; [reflexivity|].
  exact (failed_reads_keep_the_window (slid Sample.earlier)
           [StatOpenFail; StatRead Sample.iowait_low false]
           [good_read Sample.later] eq_refl).
Defined.

(** ** Counting the cores *)

Lemma count_processors (chunks : list string) :
  forall acc,
    0 <= acc ->
    acc + Z.of_nat (List.length chunks) <= INT_MAX ->
    fold_left (fun cores input_string =>
                 if strncmp_eq "processor" input_string 9
                 then int_add cores 1 else cores) chunks acc
    = acc + Z.of_nat (List.length (filter names_processor chunks)).
Proof.
  induction chunks as [| c chunks IH]; intros acc H0 Hmax;
    cbn [fold_left filter List.length]; [lia|].
  cbn [List.length] in Hmax. unfold names_processor at 1.
  destruct (strncmp_eq "processor" c 9).
  - rewrite int_succ_exact by (unfold INT_MIN, INT_MAX in *; lia).
    rewrite IH by lia. cbn [List.length]. lia.
  - rewrite IH by lia. lia.
Qed.

(** X11. calculate_cores returns the number of fgets buffers that begin
    with the nine characters of "processor" (for a file of at most INT_MAX
    buffers), a number between 0 and the number of buffers, and writes
    nothing; it returns -1, after a diagnostic, when the file cannot be
    opened or fclose fails, whatever was counted. *)
Theorem cores_are_counted (chunks : list string) :
  Z.of_nat (List.length chunks) <= INT_MAX ->
  let n := Z.of_nat (List.length (filter names_processor chunks)) in
  calculate_cores (CpuinfoRead chunks true) = ([], Done n)
  /\ 0 <= n <= Z.of_nat (List.length chunks)
  /\ result (calculate_cores (CpuinfoRead chunks false)) = Done (-1)
  /\ result (calculate_cores CpuinfoOpenFail) = Done (-1).
Proof.
  intros Hmax n. split; [| split; [| split; reflexivity]].
  - unfold calculate_cores. cbn [negb].
    rewrite count_processors by lia. reflexivity.
  - subst n. pose proof (filter_length_le names_processor chunks). lia.
Qed.

Lemma cores_are_counted_witness :
  Z.of_nat (List.length ["processor : 0"; "model name : x"; "processor : 1"])
    <= INT_MAX
  /\ calculate_cores
       (CpuinfoRead ["processor : 0"; "model name : x"; "processor : 1"] true)
     = ([], Done 2).
Proof.
  assert (H : Z.of_nat (List.length
                          ["processor : 0"; "model name : x"; "processor : 1"])
              <= INT_MAX) by (apply Z.leb_le; reflexivity).
  split; [exact H|].
  exact (proj1 (cores_are_counted
                  ["processor : 0"; "model name : x"; "processor : 1"] H)).
Defined.

(** ** The grid of cores *)

Lemma box_line_trace (coresNumber r line currentcol : Z) (text : string) :
  box_line coresNumber 4 6 r line currentcol text
  = (map (fun col => Printf [CursorTo line (int_add currentcol (int_mul col 6));
                             Text text])
         (cores_in_row r coresNumber),
     Done tt).
Proof.
  unfold box_line, for_int, cores_in_row.
  change (Z.to_nat 4) with 4%nat. cbn [for_upto filter].
  change (0 + 1) with 1. change (1 + 1) with 2. change (2 + 1) with 3.
  destruct (int_add (int_mul r 4) 0 <? coresNumber),
    (int_add (int_mul r 4) 1 <? coresNumber),
    (int_add (int_mul r 4) 2 <? coresNumber),
    (int_add (int_mul r 4) 3 <? coresNumber); reflexivity.
Qed.

Lemma glyph_writes_map_text (g text : string) (line : Z) (column : Z -> Z)
    (l : list Z) :
  glyph_writes g (map (fun c => Printf [CursorTo line (column c); Text text]) l)
  = if String.eqb text g then map (fun c => (line, column c)) l else [].
Proof.
  induction l as [| c l IH]; [destruct (String.eqb text g); reflexivity|].
  cbn [map glyph_writes]. rewrite IH.
  destruct (String.eqb text g); reflexivity.
Qed.

Lemma cores_rows_boxes (g : string) (k : nat) :
  forall r coresNumber currentcol currentrow,
    List.length (glyph_writes g
                   (trace (cores_rows k r coresNumber 4 6 currentcol
                                      currentrow)))
    = ((if String.eqb BOX_TOP g then 2 else 0)
       * boxes_in_rows k r coresNumber
       + (if String.eqb BOX_MIDDLE g then 1 else 0)
         * boxes_in_rows k r coresNumber)%nat.
Proof.
  induction k as [| k IH]; intros r n cc cr;
    [cbn [cores_rows ret trace fst glyph_writes List.length boxes_in_rows];
     rewrite !Nat.mul_0_r; reflexivity|].
  cbn [cores_rows boxes_in_rows]. rewrite !box_line_trace.
  cbn [bind emit ret trace result fst snd].
  rewrite !glyph_writes_app, !glyph_writes_map_text, !length_app.
  cbn [glyph_writes List.length]. rewrite IH.
  destruct (String.eqb BOX_TOP g), (String.eqb BOX_MIDDLE g);
    rewrite ?length_map; cbn [List.length]; lia.
Qed.

Lemma cores_in_row_count (r coresNumber : Z) :
  0 <= r -> 4 * r + 3 <= INT_MAX ->
  Z.of_nat (List.length (cores_in_row r coresNumber))
  = Z.max 0 (Z.min 4 (coresNumber - 4 * r)).
Proof.
  unfold INT_MAX. intros H0 Hmax. unfold cores_in_row, int_mul.
  rewrite (to_int_exact (r * 4)) by (unfold INT_MIN, INT_MAX; lia).
  cbn [filter].
  rewrite !int_add_exact
    by (unfold in_int, INT_MIN, INT_MAX; apply andb_true_iff;
        split; apply Z.leb_le; lia).
  destruct (r * 4 + 0 <? coresNumber) eqn:E0,
    (r * 4 + 1 <? coresNumber) eqn:E1,
    (r * 4 + 2 <? coresNumber) eqn:E2,
    (r * 4 + 3 <? coresNumber) eqn:E3;
    repeat match goal with
           | H : (_ <? _) = true |- _ => apply Z.ltb_lt in H
           | H : (_ <? _) = false |- _ => apply Z.ltb_ge in H
           end;
    cbn [List.length]; lia.
Qed.

Lemma boxes_in_rows_count (k : nat) :
  forall r coresNumber,
    0 <= r -> 4 * (r + Z.of_nat k) <= INT_MAX + 1 ->
    Z.of_nat (boxes_in_rows k r coresNumber)
    = Z.max 0 (Z.min (4 * Z.of_nat k) (coresNumber - 4 * r)).
Proof.
  unfold INT_MAX.
  induction k as [| k IH]; intros r n H0 Hmax; cbn [boxes_in_rows]; [lia|].
  rewrite Nat2Z.inj_add, IH by lia.
  rewrite cores_in_row_count by (unfold INT_MAX; lia). lia.
Qed.


(* The columns of a grid row that hold a core are the first ones. *)
Lemma cores_in_row_prefix (r coresNumber : Z) :
  0 <= r -> 4 * r + 3 <= INT_MAX ->
  cores_in_row r coresNumber
  = map Z.of_nat (seq 0 (Z.to_nat (Z.min 4 (coresNumber - 4 * r)))).
Proof.
  unfold INT_MAX. intros H0 Hmax. unfold cores_in_row, int_mul.
  rewrite (to_int_exact (r * 4)) by (unfold INT_MIN, INT_MAX; lia).
  cbn [filter].
  rewrite !int_add_exact
    by (unfold in_int, INT_MIN, INT_MAX; apply andb_true_iff;
        split; apply Z.leb_le; lia).
  destruct (r * 4 + 0 <? coresNumber) eqn:E0,
    (r * 4 + 1 <? coresNumber) eqn:E1,
    (r * 4 + 2 <? coresNumber) eqn:E2,
    (r * 4 + 3 <? coresNumber) eqn:E3;
    repeat match goal with
           | H : (_ <? _) = true |- _ => apply Z.ltb_lt in H
           | H : (_ <? _) = false |- _ => apply Z.ltb_ge in H
           end;
    first
      [ exfalso; lia
      | replace (Z.to_nat (Z.min 4 (coresNumber - 4 * r))) with 4%nat by lia;
        reflexivity
      | replace (Z.to_nat (Z.min 4 (coresNumber - 4 * r))) with 3%nat by lia;
        reflexivity
      | replace (Z.to_nat (Z.min 4 (coresNumber - 4 * r))) with 2%nat by lia;
        reflexivity
      | replace (Z.to_nat (Z.min 4 (coresNumber - 4 * r))) with 1%nat by lia;
        reflexivity
      | replace (Z.to_nat (Z.min 4 (coresNumber - 4 * r))) with 0%nat by lia;
        reflexivity ].
Qed.

Lemma map_seq_from {A} (f : nat -> A) (m : nat) :
  forall a, map f (seq a m) = map (fun j => f (a + j)%nat) (seq 0 m).
Proof.
  induction m as [| m IH]; intros a; cbn [seq map]; [reflexivity|].
  rewrite Nat.add_0_r. f_equal.
  rewrite IH, <- seq_shift, map_map. apply map_ext. intros j.
  f_equal. lia.
Qed.

(* Box 4k + j, for j below 4, is in grid row k and grid column j. *)
Lemma box_place (k j : nat) :
  (j < 4)%nat ->
  Z.of_nat (4 * k + j) / 4 = Z.of_nat k
  /\ Z.of_nat (4 * k + j) mod 4 = Z.of_nat j.
Proof.
  intros Hj. split; symmetry.
  - apply (Z.div_unique_pos _ 4 _ (Z.of_nat j)); lia.
  - apply (Z.mod_unique_pos _ 4 (Z.of_nat k)); lia.
Qed.

(* One line of the boxes of grid row [k], when the positions are ints. *)
Lemma box_line_exact (coresNumber c R ln line : Z) (k : nat) (text : string) :
  4 * Z.of_nat k + 3 <= INT_MAX ->
  in_int c = true -> in_int (c + 18) = true ->
  line = R + 3 * Z.of_nat k + ln ->
  box_line coresNumber 4 6 (Z.of_nat k) line c text
  = (map (box_line_at R c ln text) (row_boxes k coresNumber), Done tt).
Proof.
  intros Hk Hc Hc18 ->. rewrite box_line_trace.
  rewrite cores_in_row_prefix by lia.
  unfold row_boxes. rewrite (map_seq_from (box_line_at R c ln text)), map_map.
  apply (f_equal (fun l => (l, Done tt))).
  apply map_ext_in. intros j Hj. apply in_seq in Hj.
  assert (Hj4 : (j < 4)%nat) by lia.
  unfold box_line_at, int_mul. cbv beta.
  destruct (box_place k j Hj4) as [-> ->].
  unfold in_int, INT_MIN, INT_MAX in *.
  apply andb_true_iff in Hc, Hc18. rewrite !Z.leb_le in Hc, Hc18.
  rewrite (to_int_exact (Z.of_nat j * 6)) by (unfold INT_MIN, INT_MAX; lia).
  rewrite int_add_exact
    by (unfold in_int, INT_MIN, INT_MAX; apply andb_true_iff;
        split; apply Z.leb_le; lia).
  do 3 f_equal. lia.
Qed.

(* The grid rows from [k0] on, when the positions are ints. *)
Lemma cores_rows_trace (coresNumber c R : Z) (k : nat) :
  in_int c = true -> in_int (c + 18) = true -> INT_MIN <= R ->
  forall k0,
    4 * Z.of_nat (k0 + k) <= INT_MAX + 1 ->
    R + 3 * Z.of_nat (k0 + k) <= INT_MAX ->
    trace (cores_rows k (Z.of_nat k0) coresNumber 4 6 c (R + Z.of_nat k0))
    = flat_map (grid_row R c coresNumber) (seq k0 k).
Proof.
  unfold INT_MIN, INT_MAX. intros Hc Hc18 HR.
  induction k as [| k IH]; intros k0 H4 H3; [reflexivity|].
  cbn [cores_rows seq flat_map].
  assert (Hmul : int_mul (Z.of_nat k0) 2 = Z.of_nat k0 * 2)
    by (apply to_int_exact; unfold INT_MIN, INT_MAX; lia).
  assert (Htop : int_add (R + Z.of_nat k0) (int_mul (Z.of_nat k0) 2)
                 = R + 3 * Z.of_nat k0 + 0).
  { rewrite Hmul, int_add_exact
      by (unfold in_int, INT_MIN, INT_MAX; apply andb_true_iff;
          split; apply Z.leb_le; lia). lia. }
  assert (Hmid : int_add (int_add (R + Z.of_nat k0) (int_mul (Z.of_nat k0) 2)) 1
                 = R + 3 * Z.of_nat k0 + 1).
  { rewrite Htop, int_add_exact
      by (unfold in_int, INT_MIN, INT_MAX; apply andb_true_iff;
          split; apply Z.leb_le; lia). lia. }
  assert (Hbot : int_add (int_add (R + Z.of_nat k0) (int_mul (Z.of_nat k0) 2)) 2
                 = R + 3 * Z.of_nat k0 + 2).
  { rewrite Htop, int_add_exact
      by (unfold in_int, INT_MIN, INT_MAX; apply andb_true_iff;
          split; apply Z.leb_le; lia). lia. }
  assert (Hnext : int_add (R + Z.of_nat k0) 1 = R + Z.of_nat (S k0)).
  { rewrite int_add_exact
      by (unfold in_int, INT_MIN, INT_MAX; apply andb_true_iff;
          split; apply Z.leb_le; lia). lia. }
  rewrite (box_line_exact coresNumber c R 0 _ k0 BOX_TOP)
    by (unfold INT_MAX; first [assumption | lia]).
  rewrite (box_line_exact coresNumber c R 1 _ k0 BOX_MIDDLE)
    by (unfold INT_MAX; first [assumption | lia]).
  rewrite (box_line_exact coresNumber c R 2 _ k0 BOX_TOP)
    by (unfold INT_MAX; first [assumption | lia]).
  cbn [bind emit ret trace result fst snd].
  rewrite Hnext. replace (Z.of_nat k0 + 1) with (Z.of_nat (S k0)) by lia.
  rewrite IH by lia.
  unfold grid_row.
  repeat first [rewrite <- app_assoc | rewrite <- app_comm_cons].
  reflexivity.
Qed.

(* The grid rows hold the boxes 0, ..., n - 1, in order. *)
Lemma row_boxes_cover (n : Z) (k : nat) :
  flat_map (fun j => row_boxes j n) (seq 0 k)
  = seq 0 (Z.to_nat (Z.min (4 * Z.of_nat k) n)).
Proof.
  induction k as [| k IH].
  - cbn [seq flat_map]. replace (Z.to_nat _) with 0%nat by lia. reflexivity.
  - rewrite seq_S, flat_map_app, IH. cbn [flat_map Nat.add].
    rewrite app_nil_r. unfold row_boxes.
    destruct (Z.le_gt_cases (4 * Z.of_nat k) n) as [Hle | Hgt].
    + replace (Z.to_nat (Z.min (4 * Z.of_nat k) n)) with (4 * k)%nat by lia.
      rewrite <- seq_app. f_equal. lia.
    + replace (Z.to_nat (Z.min 4 (n - 4 * Z.of_nat k))) with 0%nat by lia.
      cbn [seq]. rewrite app_nil_r. f_equal. lia.
Qed.

Lemma grid_rows_count (n : Z) :
  INT_MIN <= n <= INT_MAX - 4 ->
  int_div (int_sub (int_add n 4) 1) 4 = Z.quot (n + 3) 4
  /\ Z.to_nat (Z.quot (n + 3) 4) = Z.to_nat ((n + 3) / 4)
  /\ 4 * Z.of_nat (Z.to_nat ((n + 3) / 4)) <= INT_MAX + 1
  /\ Z.of_nat (Z.to_nat ((n + 3) / 4)) = Z.max 0 ((n + 3) / 4)
  /\ (0 <= n -> n <= 4 * ((n + 3) / 4)).
Proof.
  unfold INT_MIN, INT_MAX. intros Hn.
  pose proof (Z.mul_div_le (n + 3) 4 ltac:(lia)) as Hle.
  pose proof (Z.mul_succ_div_gt (n + 3) 4 ltac:(lia)) as Hgt.
  split; [| split; [| split; [| split]]]; try lia.
  - unfold int_div, int_sub.
    rewrite (int_add_exact n 4)
      by (unfold in_int, INT_MIN, INT_MAX; apply andb_true_iff;
          split; apply Z.leb_le; lia).
    rewrite (to_int_exact (n + 4 - 1)) by (unfold INT_MIN, INT_MAX; lia).
    replace (n + 4 - 1) with (n + 3) by lia.
    apply to_int_exact. unfold INT_MIN, INT_MAX.
    destruct (Z.le_gt_cases 0 (n + 3)) as [Hp | Hneg].
    + rewrite Z.quot_div_nonneg by lia. lia.
    + pose proof (Z.quot_opp_l (n + 3) 4 ltac:(lia)) as Ho.
      pose proof (Z.quot_div_nonneg (- (n + 3)) 4 ltac:(lia) ltac:(lia)) as Hd.
      pose proof (Z.div_pos (- (n + 3)) 4 ltac:(lia) ltac:(lia)).
      pose proof (Z.div_le_upper_bound (- (n + 3)) 4 2147483648
                    ltac:(lia) ltac:(lia)).
      lia.
  - destruct (Z.le_gt_cases 0 (n + 3)) as [Hp | Hneg].
    + rewrite Z.quot_div_nonneg by lia. reflexivity.
    + pose proof (Z.quot_opp_l (n + 3) 4 ltac:(lia)) as Ho.
      pose proof (Z.quot_div_nonneg (- (n + 3)) 4 ltac:(lia) ltac:(lia)) as Hd.
      pose proof (Z.div_pos (- (n + 3)) 4 ltac:(lia) ltac:(lia)).
      lia.
Qed.

(** X12. coresGraph draws one box per core, four to a grid row.  For a
    core count n (with n + 4 an int) the middle line of a box is printed n
    times and the top-and-bottom line 2n times; the boxes 0, ..., n - 1 are
    laid out in ceil(n / 4) grid rows, row k holding the boxes 4k to
    4k + 3 that are below n.  When the positions are ints, what is printed
    is the heading followed by the grid rows: box i has its three lines at
    rows r + 3 + 3 (i / 4) + 0, 1, 2 from column c + 6 (i mod 4).  For
    n <= 0, which includes the -1 that calculate_cores returns on failure,
    only the heading is printed. *)
Theorem one_box_per_core (coresNumber currentcol currentrow : Z)
    (frequency : Q) :
  INT_MIN <= coresNumber <= INT_MAX - 4 ->
  let t := trace (coresGraph coresNumber currentcol currentrow frequency) in
  let grid_rows := Z.to_nat ((coresNumber + 3) / 4) in
  List.length (glyph_writes BOX_MIDDLE t) = Z.to_nat coresNumber
  /\ List.length (glyph_writes BOX_TOP t) = (2 * Z.to_nat coresNumber)%nat
  /\ flat_map (fun k => row_boxes k coresNumber) (seq 0 grid_rows)
     = seq 0 (Z.to_nat coresNumber)
  /\ (grid_fits currentrow currentcol coresNumber = true ->
      t = Printf [CursorTo (currentrow + 2) currentcol;
                  Text "v Number of Cores: "; IntD coresNumber; Text " @ ";
                  Fixed 2 frequency; Text " GHz"; Text NL]
          :: flat_map (grid_row (currentrow + 3) currentcol coresNumber)
                      (seq 0 grid_rows)).
Proof.
  intros Hn. cbn zeta.
  destruct (grid_rows_count coresNumber Hn) as (Hrows & Hq & H4 & Hmax & Hceil).
  unfold INT_MIN, INT_MAX in Hn, H4.
  assert (Hcounts :
    List.length (glyph_writes BOX_MIDDLE
      (trace (coresGraph coresNumber currentcol currentrow frequency)))
    = Z.to_nat coresNumber
    /\ List.length (glyph_writes BOX_TOP
         (trace (coresGraph coresNumber currentcol currentrow frequency)))
       = (2 * Z.to_nat coresNumber)%nat).
  { unfold coresGraph. cbn [bind emit ret trace result fst snd].
    rewrite Hrows.
    set (k := Z.to_nat (Z.quot (coresNumber + 3) 4)).
    assert (Hboxes : boxes_in_rows k 0 coresNumber = Z.to_nat coresNumber).
    { apply Nat2Z.inj. subst k. rewrite Hq.
      rewrite boxes_in_rows_count by (unfold INT_MAX; lia).
      destruct (Z.le_gt_cases 0 coresNumber) as [Hp | Hneg].
      - specialize (Hceil Hp). lia.
      - lia. }
    split.
    - set (m := cores_rows k 0 coresNumber 4 6 currentcol _).
      destruct (returns_cores_rows k 0 coresNumber 4 6 currentcol
                  (int_add (int_add currentrow 2) 1)) as [v Hv].
      fold m in Hv. rewrite (surjective_M m), Hv.
      cbn [bind emit ret trace result fst snd app glyph_writes].
      rewrite app_nil_r. unfold m.
      rewrite (cores_rows_boxes BOX_MIDDLE), Hboxes. cbn. lia.
    - set (m := cores_rows k 0 coresNumber 4 6 currentcol _).
      destruct (returns_cores_rows k 0 coresNumber 4 6 currentcol
                  (int_add (int_add currentrow 2) 1)) as [v Hv].
      fold m in Hv. rewrite (surjective_M m), Hv.
      cbn [bind emit ret trace result fst snd app glyph_writes].
      rewrite app_nil_r. unfold m.
      rewrite (cores_rows_boxes BOX_TOP), Hboxes. cbn. lia. }
  split; [apply Hcounts|]. split; [apply Hcounts|]. split.
  - rewrite row_boxes_cover. f_equal.
    destruct (Z.le_gt_cases 0 coresNumber) as [Hp | Hneg].
    + specialize (Hceil Hp). lia.
    + lia.
  - intros Hfit. unfold grid_fits in Hfit.
    rewrite !andb_true_iff in Hfit. destruct Hfit as [[[Hr Hr3] Hc] Hc18].
    assert (Hr' := Hr). assert (Hr3' := Hr3).
    unfold in_int, INT_MIN, INT_MAX in Hr', Hr3'.
    rewrite andb_true_iff, !Z.leb_le in Hr', Hr3'.
    unfold coresGraph.
    rewrite Hrows, Hq.
    assert (E2 : int_add currentrow 2 = currentrow + 2)
      by (apply int_add_exact; unfold in_int, INT_MIN, INT_MAX;
          apply andb_true_iff; split; apply Z.leb_le; lia).
    assert (E3 : int_add (currentrow + 2) 1 = currentrow + 3 + Z.of_nat 0)
      by (rewrite int_add_exact
            by (unfold in_int, INT_MIN, INT_MAX;
                apply andb_true_iff; split; apply Z.leb_le; lia);
          cbn [Z.of_nat]; lia).
    rewrite E2, E3.
    set (k := Z.to_nat ((coresNumber + 3) / 4)) in *.
    change 0 with (Z.of_nat 0) at 1.
    pose proof (cores_rows_trace coresNumber currentcol (currentrow + 3) k
                  Hc Hc18 ltac:(unfold INT_MIN; lia) 0%nat
                  ltac:(unfold INT_MAX; cbn [Nat.add]; lia)
                  ltac:(unfold INT_MAX; cbn [Nat.add]; lia)) as Ht.
    destruct (returns_cores_rows k (Z.of_nat 0) coresNumber 4 6 currentcol
                (currentrow + 3 + Z.of_nat 0)) as [v Hv].
    set (m := cores_rows k (Z.of_nat 0) coresNumber 4 6 currentcol _) in *.
    cbn [bind emit trace result fst snd app].
    rewrite (surjective_M m), Hv, Ht.
    cbn [bind ret trace result fst snd app]. rewrite app_nil_r.
    reflexivity.
Qed.

Lemma one_box_per_core_witness :
  INT_MIN <= 6 <= INT_MAX - 4
  /\ grid_fits 30 1 6 = true
  /\ List.length (glyph_writes BOX_MIDDLE (trace (coresGraph 6 1 30 (34 # 10))))
     = Z.to_nat 6
  /\ trace (coresGraph 6 1 30 (34 # 10))
     = Printf [CursorTo (30 + 2) 1; Text "v Number of Cores: "; IntD 6;
               Text " @ "; Fixed 2 (34 # 10); Text " GHz"; Text NL]
       :: flat_map (grid_row (30 + 3) 1 6) (seq 0 (Z.to_nat ((6 + 3) / 4))).
Proof.
  assert (H : INT_MIN <= 6 <= INT_MAX - 4)
    by (split; apply Z.leb_le; reflexivity).
  destruct (one_box_per_core 6 1 30 (34 # 10) H) as (Hm & _ & _ & Ht).
  split; [exact H|]. split; [reflexivity|].
  split; [exact Hm | exact (Ht eq_refl)].
Defined.

(* Six cores: a row of four boxes and a row of two, three lines apart. *)
Example six_cores_two_rows :
  glyph_writes BOX_MIDDLE (trace (coresGraph 6 1 30 (34 # 10)))
  = [(34, 1); (34, 7); (34, 13); (34, 19); (37, 1); (37, 7)]
  /\ flat_map (fun k => row_boxes k 6) [0; 1]%nat = [0; 1; 2; 3; 4; 5]%nat
  /\ row_boxes 1 6 = [4; 5]%nat.
Proof. repeat split; reflexivity. Qed.

(** ** Sleeping and exiting *)

Lemma naps_app (t1 t2 : list event) :
  naps (t1 ++ t2) = (naps t1 ++ naps t2)%list.
Proof.
  induction t1 as [| e t1 IH]; [reflexivity|].
  destruct e; cbn [app naps]; rewrite IH; reflexivity.
Qed.

Lemma exits_one_bind {A B} (m : M A) (f : A -> M B) :
  exits_one m -> (forall a, exits_one (f a)) -> exits_one (bind m f).
Proof.
  intros Hm Hf c. destruct m as [out [a | c' |]];
    cbn [bind result trace fst snd].
  - apply Hf.
  - intros H. injection H as ->. apply (Hm c). reflexivity.
  - discriminate.
Qed.

Lemma calm_bind {A B} (m : M A) (f : A -> M B) :
  calm m -> (forall a, calm (f a)) -> calm (bind m f).
Proof.
  intros [Hn He] Hf. split.
  - destruct (bind_cases m f) as [(a & _ & Hb) | (_ & Ht & _)].
    + rewrite Hb. cbn [trace fst]. rewrite naps_app, Hn.
      apply (Hf a).
    + rewrite Ht. exact Hn.
  - apply exits_one_bind; [exact He | intros a; apply (Hf a)].
Qed.

Lemma calm_ret {A} (a : A) : calm (ret a).
Proof. split; [reflexivity | discriminate]. Qed.

Lemma calm_undefined {A} : calm (@undefined A).
Proof. split; [reflexivity | discriminate]. Qed.

Lemma calm_printf (ps : list piece) : calm (emit (Printf ps)).
Proof. split; [reflexivity | discriminate]. Qed.

Lemma calm_fflush : calm (emit Fflush).
Proof. split; [reflexivity | discriminate]. Qed.

Lemma naps_stderr (msgs : list string) : naps (map Eprintf msgs) = [].
Proof. induction msgs; [reflexivity | exact IHmsgs]. Qed.

Lemma calm_defined {A} (o : option A) : calm (defined o).
Proof. destruct o; [apply calm_ret | apply calm_undefined]. Qed.

Lemma calm_for_upto (body : Z -> M unit) (n : nat) :
  (forall j, calm (body j)) -> forall i, calm (for_upto n i body).
Proof.
  intros Hb. induction n as [| n IH]; intros i; [apply calm_ret|].
  cbn [for_upto]. apply calm_bind; [apply Hb | intros _; apply IH].
Qed.

Lemma calm_get_total_memory (info : option sysinfo_t) :
  calm (get_total_memory info).
Proof.
  destruct (get_total_memory_cases info) as [msgs [[v H] | H]]; rewrite H;
    (split; [apply naps_stderr|]); intros c Hc; cbn in Hc; congruence.
Qed.

Lemma calm_calculate_memory_used (own nested : option sysinfo_t) :
  calm (calculate_memory_used own nested).
Proof.
  destruct (calculate_memory_used_cases own nested) as [msgs [[v H] | H]];
    rewrite H; (split; [apply naps_stderr|]); intros c Hc; cbn in Hc;
    congruence.
Qed.

Lemma calm_calculate_cpu_utilization (t : CpuTracker) (r : stat_read) :
  calm (calculate_cpu_utilization t r).
Proof.
  destruct (calculate_cpu_utilization_returns t r) as (msgs & v & t' & H).
  rewrite H. split; [apply naps_stderr | discriminate].
Qed.

Lemma calm_calculate_max_frequency (r : freq_read) :
  calm (calculate_max_frequency r).
Proof.
  destruct r; (split; [reflexivity|]); intros c Hc; cbn in Hc; congruence.
Qed.

Lemma calm_calculate_cores (r : cpuinfo_read) : calm (calculate_cores r).
Proof. destruct r as [| chunks [|]]; split; try reflexivity; discriminate. Qed.

Ltac calm_steps :=
  repeat first
    [ apply calm_ret
    | apply calm_printf
    | apply calm_fflush
    | apply calm_defined
    | apply calm_get_total_memory
    | apply calm_calculate_memory_used
    | apply calm_calculate_cpu_utilization
    | apply calm_calculate_max_frequency
    | apply calm_calculate_cores
    | apply calm_for_upto; intros
    | apply calm_bind; [| intros ]
    | match goal with
      | |- calm (let '(_, _) := ?p in _) => destruct p
      | |- calm (if ?b then _ else _) => destruct b
      end ].

Lemma calm_draw_graph (label : string) (unit : list piece) (height : Z)
    (baseline : string) (r c N : Z) :
  calm (draw_graph label unit height baseline r c N).
Proof. unfold draw_graph. calm_steps. Qed.

Lemma calm_draw_memory_graph (info : option sysinfo_t) (r c n : Z) :
  calm (draw_memory_graph info r c n).
Proof.
  unfold draw_memory_graph. calm_steps.
Qed.

Lemma calm_cores_rows (n : nat) :
  forall r coresNumber cols width currentcol currentrow,
    calm (cores_rows n r coresNumber cols width currentcol currentrow).
Proof.
  induction n as [| n IH]; intros; [apply calm_ret|].
  cbn [cores_rows]. unfold box_line, for_int. calm_steps; apply IH.
Qed.

Lemma calm_finish (argsInfo : ArgsInfo) (current_row : Z) (host : Host) :
  calm (finish argsInfo current_row host).
Proof.
  unfold finish, cores_panel, coresGraph. calm_steps; apply calm_cores_rows.
Qed.

Lemma calm_memory_part (argsInfo : ArgsInfo) (lay : Layout) (st : LoopState)
    (inp : tick_input) :
  calm (memory_part argsInfo lay st inp).
Proof. unfold memory_part, memory_tick. calm_steps. Qed.

Lemma calm_cpu_part (argsInfo : ArgsInfo) (lay : Layout) (st : LoopState)
    (inp : tick_input) :
  calm (cpu_part argsInfo lay st inp).
Proof. unfold cpu_part, cpu_tick. calm_steps. Qed.

Lemma sleeps_after_calm (d : Z) (n : nat) {A B} (m : M A) (f : A -> M B) :
  calm m -> (forall a, sleeps_per_sample d n (f a)) ->
  sleeps_per_sample d n (bind m f).
Proof.
  intros [Hn He] Hf. split.
  - apply exits_one_bind; [exact He | intros a; apply (Hf a)].
  - destruct (bind_cases m f) as [(a & _ & Hb) | (_ & Ht & Hr)].
    + destruct (Hf a) as [_ (k & Hk & Hle & Hret)].
      exists k. rewrite Hb. cbn [trace fst]. rewrite naps_app, Hn.
      split; [exact Hk|]. split; [exact Hle|].
      intros [b Hb']. apply Hret. exists b. exact Hb'.
    + exists 0%nat. rewrite Ht, Hn. split; [reflexivity|].
      split; [lia|]. intros [b Hb]. exfalso. exact (Hr b Hb).
Qed.

Lemma sleeps_before_calm (d : Z) (n : nat) {A B} (m : M A) (f : A -> M B) :
  sleeps_per_sample d n m -> (forall a, calm (f a)) ->
  sleeps_per_sample d n (bind m f).
Proof.
  intros [He (k & Hk & Hle & Hret)] Hf. split.
  - apply exits_one_bind; [exact He | intros a; apply (Hf a)].
  - exists k. destruct (bind_cases m f) as [(a & Ha & Hb) | (_ & Ht & Hr)].
    + rewrite Hb. cbn [trace fst]. rewrite naps_app, Hk.
      destruct (Hf a) as [Hn _]. rewrite Hn, app_nil_r.
      split; [reflexivity|]. split; [exact Hle|].
      intros _. apply Hret. exists a. exact Ha.
    + rewrite Ht. split; [exact Hk|]. split; [exact Hle|].
      intros [b Hb]. exfalso. exact (Hr b Hb).
Qed.

(* One iteration sleeps once, at its end, if it gets there. *)
Lemma sample_tick_naps (argsInfo : ArgsInfo) (lay : Layout) (st : LoopState)
    (inp : tick_input) :
  sleeps_per_sample (to_uint (tdelay argsInfo)) 1
    (sample_tick argsInfo lay st inp).
Proof.
  rewrite sample_tick_parts.
  apply sleeps_after_calm; [apply calm_memory_part | intros st1].
  apply sleeps_after_calm; [apply calm_cpu_part | intros st2].
  split; [discriminate|]. exists 1%nat. repeat split; reflexivity || lia.
Qed.

Lemma sampling_loop_naps (argsInfo : ArgsInfo) (lay : Layout)
    (reads : nat -> tick_input) (n : nat) :
  forall i st,
    sleeps_per_sample (to_uint (tdelay argsInfo)) n
      (sampling_loop n i argsInfo lay reads st).
Proof.
  induction n as [| n IH]; intros i st.
  - split; [discriminate|]. exists 0%nat. repeat split; reflexivity || lia.
  - cbn [sampling_loop].
    destruct (sample_tick_naps argsInfo lay st (reads i))
      as [He (k & Hk & Hle & Hret)].
    split; [apply exits_one_bind; [exact He | intros a; apply IH]|].
    match goal with |- context [bind ?m ?f] =>
      destruct (bind_cases m f) as [(st' & Hr & Hb) | (_ & Ht & Hn)] end.
    + destruct (IH (S i) st') as [_ (k' & Hk' & Hle' & Hret')].
      rewrite Hb. cbn [trace fst result snd]. rewrite naps_app, Hk, Hk'.
      rewrite (Hret (ex_intro _ st' Hr)).
      exists (S k'). split; [reflexivity|]. split; [lia|].
      intros Hd. rewrite (Hret' Hd). reflexivity.
    + exists k. rewrite Ht. split; [exact Hk|]. split; [lia|].
      intros [b Hb]. exfalso. exact (Hn b Hb).
Qed.

Lemma sleeps_sampling_phase (argsInfo : ArgsInfo) (panel : option sysinfo_t)
    (warmup : stat_read) (reads : nat -> tick_input) :
  sleeps_per_sample (to_uint (tdelay argsInfo))
    (Z.to_nat (samples argsInfo))
    (sampling_phase argsInfo panel warmup reads).
Proof.
  unfold sampling_phase.
  do 5 (apply sleeps_after_calm;
        [first [apply calm_printf | apply calm_fflush] | intros _]).
  apply sleeps_after_calm.
  { destruct (memory_flag argsInfo); [| apply calm_ret].
    apply calm_bind; [apply calm_draw_memory_graph|].
    intros [[[? ?] ?] ?]. apply calm_ret. }
  intros [[[[mhead mpos] current_row] current_column] sf].
  apply sleeps_after_calm.
  { destruct (cpu_flag argsInfo); [| apply calm_ret].
    apply calm_bind; [apply calm_for_upto; intros; apply calm_printf|].
    intros _. apply calm_bind; [apply calm_draw_graph|].
    intros [[? ?] ?]. apply calm_ret. }
  intros [[[chead cpos] current_row'] current_column'].
  apply sleeps_after_calm; [apply calm_calculate_cpu_utilization|].
  intros [v tr].
  apply sleeps_before_calm; [apply sampling_loop_naps|].
  intros _. apply calm_ret.
Qed.


(** X14. The exit status of the program is 0 or 1: [main] returns 0 at its
    end and nothing else, and the only calls to exit, in main for a refused
    command line, in get_total_memory and in calculate_max_frequency, pass
    status 1. *)
Theorem exit_status_is_0_or_1 (line : list string) (host : Host) :
  (forall status, result (main line host) = Done status -> status = 0)
  /\ (forall code, result (main line host) = Exited code -> code = 1).
Proof.
  destruct (parse_summary line) as (out & rc & a & E & _).
  unfold main. fold (parse line). rewrite E.
  cbn [bind trace result fst snd].
  destruct (rc =? -1); [split; intros ? H; cbn in H; congruence|].
  split.
  - intros status H. unfold run in H.
    match type of H with context [bind ?m ?f] =>
      destruct (bind_cases m f) as [(r & _ & Hb) | (_ & _ & Hn)] end;
      [| exfalso; exact (Hn _ H)].
    rewrite Hb in H. cbn [result snd] in H. unfold finish in H.
    match type of H with context [bind ?m ?f] =>
      destruct (bind_cases m f) as [(pos & _ & Hb') | (_ & _ & Hn)] end;
      [| exfalso; exact (Hn _ H)].
    rewrite Hb' in H. cbn in H. congruence.
  - assert (H : sleeps_per_sample (to_uint (tdelay a))
                  (Z.to_nat (samples a)) (run a host)).
    { unfold run. apply sleeps_before_calm; [apply sleeps_sampling_phase|].
      intros r. apply calm_finish. }
    apply H.
Qed.

Example zero_samples_no_sleep :
  naps (trace (main ["prog"; "4294967296"] Sample.host)) = []
  /\ result (main ["prog"; "4294967296"] Sample.host) = Done 0.
Proof. vm_compute. split; reflexivity. Qed.

Example three_samples_three_sleeps :
  naps (trace (main ["prog"; "3"; "100"] Sample.host)) = [100; 100; 100].
Proof. vm_compute. reflexivity. Qed.

(** ** The two ways of giving a setting *)

Lemma skip_spaces_digits (s : string) :
  all_digits s = true -> skip_spaces s = s.
Proof.
  destruct s as [| c r]; [reflexivity|]. cbn [all_digits skip_spaces].
  destruct (isdigit c) eqn:E; [| discriminate]. intros _.
  assert (Hsp : isspace c = false).
  { unfold isdigit, isspace in *.
    apply andb_true_iff in E. destruct E as [E1 E2].
    apply Z.leb_le in E1, E2.
    apply orb_false_iff. split; [apply Z.eqb_neq; lia|].
    apply andb_false_iff. right. apply Z.leb_gt. lia. }
  rewrite Hsp. reflexivity.
Qed.

Lemma tdelay_flag_tests (v : string) :
  let arg := "--tdelay=" ++ v in
  (strlen arg =? 0) = false
  /\ strcmp_eq arg "--memory" = false
  /\ strcmp_eq arg "--cpu" = false
  /\ strcmp_eq arg "--cores" = false
  /\ strncmp_eq arg "--samples=" 10 = false
  /\ strncmp_eq arg "--tdelay=" 9 = true
  /\ advance 9 arg = v.
Proof.
  cbn zeta. repeat split; reflexivity.
Qed.

(* --samples= followed by digits, no count having been given before *)
Lemma isFlag_samples_digits (a : ArgsInfo) (i : Z) (s : string) :
  arg_at a i = "--samples=" ++ s ->
  all_digits s = true ->
  updated_sample a = false ->
  (clamp_long (decimal s 0) <=? 0) = false ->
  isFlag a i
  = ([Printf [Text "here"]; Printf [Text "here2"]; Printf [Text "here3"]],
     Done (true, set_samples a (to_int (clamp_long (decimal s 0))))).
Proof.
  intros Harg Hs Hu Hn.
  destruct (samples_flag_tests s) as (E0 & E1 & E2 & E3 & E4 & E5).
  assert (Hne : nonempty s = true)
    by (destruct s; [cbn in Hn; discriminate | reflexivity]).
  unfold isFlag. rewrite Harg, E0, E1, E2, E3, E4, E5, Hne, Hu.
  unfold removeWhiteSpace. rewrite (skip_spaces_digits s Hs).
  rewrite (strtol_digits s Hs), Hn. reflexivity.
Qed.

Lemma isFlag_samples_zero (a : ArgsInfo) (i : Z) (s : string) :
  arg_at a i = "--samples=" ++ s ->
  all_digits s = true ->
  updated_sample a = false ->
  (clamp_long (decimal s 0) <=? 0) = true ->
  exists out, isFlag a i = (out, Done (false, a)).
Proof.
  intros Harg Hs Hu Hn.
  destruct (samples_flag_tests s) as (E0 & E1 & E2 & E3 & E4 & E5).
  unfold isFlag. rewrite Harg, E0, E1, E2, E3, E4, E5, Hu.
  destruct (nonempty s); cbn [negb]; [| eexists; reflexivity].
  unfold removeWhiteSpace. rewrite (skip_spaces_digits s Hs).
  rewrite (strtol_digits s Hs), Hn. eexists. reflexivity.
Qed.

Lemma isFlag_tdelay_digits (a : ArgsInfo) (i : Z) (d : string) :
  arg_at a i = "--tdelay=" ++ d ->
  all_digits d = true ->
  updated_tdelay a = false ->
  (clamp_long (decimal d 0) <=? 0) = false ->
  isFlag a i
  = ([], Done (true, set_tdelay a (to_ulong (clamp_long (decimal d 0))))).
Proof.
  intros Harg Hd Hu Hn.
  destruct (tdelay_flag_tests d) as (E0 & E1 & E2 & E3 & E4 & E5 & E6).
  assert (Hne : nonempty d = true)
    by (destruct d; [cbn in Hn; discriminate | reflexivity]).
  unfold isFlag. rewrite Harg, E0, E1, E2, E3, E4, E5, E6, Hne, Hu.
  unfold removeWhiteSpace. rewrite (skip_spaces_digits d Hd).
  rewrite (strtol_digits d Hd), Hn. reflexivity.
Qed.

Lemma isFlag_tdelay_zero (a : ArgsInfo) (i : Z) (d : string) :
  arg_at a i = "--tdelay=" ++ d ->
  all_digits d = true ->
  updated_tdelay a = false ->
  (clamp_long (decimal d 0) <=? 0) = true ->
  exists out, isFlag a i = (out, Done (false, a)).
Proof.
  intros Harg Hd Hu Hn.
  destruct (tdelay_flag_tests d) as (E0 & E1 & E2 & E3 & E4 & E5 & E6).
  unfold isFlag. rewrite Harg, E0, E1, E2, E3, E4, E5, E6, Hu.
  destruct (nonempty d); cbn [negb]; [| eexists; reflexivity].
  unfold removeWhiteSpace. rewrite (skip_spaces_digits d Hd).
  rewrite (strtol_digits d Hd), Hn. eexists. reflexivity.
Qed.

Lemma parse_two_positionals (prog s d : string) :
  all_digits s = true ->
  all_digits d = true ->
  let n := clamp_long (decimal s 0) in
  let m := clamp_long (decimal d 0) in
  exists out rc a,
    parse [prog; s; d] = (out, Done (rc, a))
    /\ rc = (if (n <=? 0) || (m <=? 0) then -1 else 0)
    /\ (rc = 0 -> a = positional_settings (to_int n) (to_ulong m) true
                        [prog; s; d]).
Proof.
  intros Hs Hd n m.
  unfold parse, processCommandLineArguments, isPositional.
  change (Z.of_nat (List.length [prog; s; d])) with 3.
  change (arg_at (initializeArgument 3 [prog; s; d]) 1) with s.
  change (3 =? 1) with false. change (2 <=? 3) with true. cbn [andb].
  rewrite Hs, (strtol_digits s Hs). fold n. cbn [nonempty orb].
  destruct (n <=? 0);
    [eexists _, _, _; split; [reflexivity|]; split;
     [reflexivity | discriminate]|].
  change (arg_at (set_samples (initializeArgument 3 [prog; s; d]) (to_int n)) 2)
    with d.
  change (3 <=? 3) with true. cbn [andb].
  rewrite Hd, (strtol_digits d Hd). fold m.
  cbn [nonempty orb]. destruct (m <=? 0);
    eexists _, _, _; (split; [reflexivity|]); split;
    reflexivity || discriminate || (intros _; reflexivity).
Qed.

(** X15. A count and a delay written as digits mean the same in either
    syntax: `prog s d` and `prog --samples=s --tdelay=d` are accepted
    together (when both numbers are positive) or refused together, and when
    accepted they give the same sample count, the same delay, the same
    panels (all three) and the same record of what was set. *)
Theorem flags_agree_with_positionals (prog s d : string) :
  all_digits s = true ->
  all_digits d = true ->
  exists o1 o2 rc a1 a2,
    parse [prog; s; d] = (o1, Done (rc, a1))
    /\ parse [prog; ("--samples=" ++ s)%string; ("--tdelay=" ++ d)%string]
       = (o2, Done (rc, a2))
    /\ rc = (if (clamp_long (decimal s 0) <=? 0)
                || (clamp_long (decimal d 0) <=? 0) then -1 else 0)
    /\ (rc = 0 ->
        samples a2 = samples a1 /\ tdelay a2 = tdelay a1
        /\ memory_flag a2 = memory_flag a1 /\ cpu_flag a2 = cpu_flag a1
        /\ cores_flag a2 = cores_flag a1
        /\ updated_sample a2 = updated_sample a1
        /\ updated_tdelay a2 = updated_tdelay a1).
Proof.
  intros Hs Hd.
  destruct (parse_two_positionals prog s d Hs Hd)
    as (o1 & rc & a1 & E1 & Hrc & Ha).
  set (line := [prog; ("--samples=" ++ s)%string; ("--tdelay=" ++ d)%string]).
  assert (Hflag :
            exists o2 a2,
              parse line = (o2, Done (rc, a2))
              /\ (rc = 0 ->
                  samples a2 = to_int (clamp_long (decimal s 0))
                  /\ tdelay a2 = to_ulong (clamp_long (decimal d 0))
                  /\ memory_flag a2 = true /\ cpu_flag a2 = true
                  /\ cores_flag a2 = true
                  /\ updated_sample a2 = true /\ updated_tdelay a2 = true)).
  { subst rc.
    unfold parse, processCommandLineArguments, isPositional.
    change (Z.of_nat (List.length line)) with 3.
    change (all_digits (arg_at (initializeArgument 3 line) 1)) with false.
    change (3 =? 1) with false. change (2 <=? 3) with true.
    cbn [andb bind ret trace result fst snd app Z.eqb].
    change (Z.to_nat (3 - 1)) with 2%nat. cbn [flag_loop].
    change (1 + 1) with 2.
    destruct (clamp_long (decimal s 0) <=? 0) eqn:En.
    - destruct (isFlag_samples_zero (initializeArgument 3 line) 1 s
                  eq_refl Hs eq_refl En) as [out Ef].
      rewrite Ef. cbn [bind emit ret trace result fst snd app Z.eqb orb].
      eexists _, _. split; [reflexivity | discriminate].
    - rewrite (isFlag_samples_digits (initializeArgument 3 line) 1 s
                 eq_refl Hs eq_refl En).
      cbn [bind emit ret trace result fst snd app orb].
      set (a0 := set_samples (initializeArgument 3 line)
                             (to_int (clamp_long (decimal s 0)))).
      destruct (clamp_long (decimal d 0) <=? 0) eqn:Em.
      + destruct (isFlag_tdelay_zero a0 2 d eq_refl Hd eq_refl Em)
          as [out Ef].
        rewrite Ef. cbn [bind emit ret trace result fst snd app Z.eqb].
        eexists _, _. split; [reflexivity | discriminate].
      + rewrite (isFlag_tdelay_digits a0 2 d eq_refl Hd eq_refl Em).
        cbn [bind emit ret trace result fst snd app Z.eqb Pos.eqb].
        eexists _, _. split; [reflexivity|]. intros _.
        repeat split; reflexivity. }
  destruct Hflag as (o2 & a2 & E2 & H2).
  exists o1, o2, rc, a1, a2.
  split; [exact E1|]. split; [exact E2|]. split; [exact Hrc|].
  intros H0. rewrite (Ha H0).
  destruct (H2 H0) as (F1 & F2 & F3 & F4 & F5 & F6 & F7).
  cbn [positional_settings samples tdelay memory_flag cpu_flag cores_flag
       updated_sample updated_tdelay].
  repeat split; assumption.
Qed.

Lemma flags_agree_with_positionals_witness :
  all_digits "30" = true
  /\ all_digits "1000" = true
  /\ exists o1 o2 a1 a2,
      parse ["prog"; "30"; "1000"] = (o1, Done (0, a1))
      /\ parse ["prog"; "--samples=30"; "--tdelay=1000"] = (o2, Done (0, a2))
      /\ samples a2 = samples a1 /\ tdelay a2 = tdelay a1.
Proof.
  split; [reflexivity|]. split; [reflexivity|].
  destruct (flags_agree_with_positionals "prog" "30" "1000" eq_refl eq_refl)
    as (o1 & o2 & rc & a1 & a2 & E1 & E2 & Hrc & H).
  cbn in Hrc. subst rc.
  exists o1, o2, a1, a2. split; [exact E1|]. split; [exact E2|].
  destruct (H eq_refl) as (Hsm & Htd & _). split; [exact Hsm | exact Htd].
Defined.
